(** * dftbopt-mcp: the Go job pipeline, embedded and verified

    The development follows the Go service of the repository:
    - [internal/parser/cif_parser.go]  (CIF parsing, engine-input synthesis),
    - [internal/dftb/runner.go]        (file synthesis, process supervision,
                                        output interpretation, job status),
    - [internal/api/handlers.go]       (request admission).

    Conventions of the embedding.
    - A Go [string] is a [string] of bytes.
    - A Go [float64] is a primitive binary64 [float]; [*] and [+] are the
      IEEE operations of the kernel.
    - A Go function returning [(T, error)] returns an [Outcome T]; a run-time
      panic (nil dereference, index out of range, division by zero) is the
      third constructor.
    - A Go [map] is a [gmap]; the order in which [range] visits a map is not
      fixed by the language and is an explicit input wherever the code ranges
      over a map.
    - The functions of Go's standard library that convert between text and
      binary64, join paths and code base64 are collected in the interface
      [GoLib]; the development is parametric in it, and [Ref] gives an
      executable instance used to run the examples.  The [strings] and
      [bufio] functions the parser is built from are modelled in full. *)

From Stdlib Require Import ZArith Lia List String Ascii Floats Uint63 DecimalString.
From stdpp Require Import base gmap strings list.
Import ListNotations.

Local Open Scope string_scope.
Local Open Scope Z_scope.
Local Open Scope list_scope.
Set Warnings "-inexact-float,-abstract-large-number,-register-all".


(** ** Results of Go calls *)

Inductive Outcome (A : Type) : Type :=
| Ok (a : A)
| Err (msg : string)
| Panic (msg : string).
Arguments Ok {A} a.
Arguments Err {A} msg.
Arguments Panic {A} msg.

Definition bindO {A B : Type} (o : Outcome A) (k : A -> Outcome B) : Outcome B :=
  match o with
  | Ok a => k a
  | Err e => Err e
  | Panic e => Panic e
  end.

#[global] Instance Outcome_bind : MBind Outcome := fun A B k o => bindO o k.

Definition nilDeref : string :=
  "runtime error: invalid memory address or nil pointer dereference".

(** ** Go's [strings] and [bufio] packages, on byte strings *)

Module GoStrings.

Definition str (bytes : list N) : string :=
  fold_right (fun b s => String (ascii_of_N b) s) EmptyString bytes.

Definition LF : string := str [10%N].
Definition CR : string := str [13%N].
Definition dquote : string := str [34%N].

Fixpoint HasPrefix (s prefix : string) {struct prefix} : bool :=
  match prefix, s with
  | EmptyString, _ => true
  | String _ _, EmptyString => false
  | String p prefix', String c s' => Ascii.eqb c p && HasPrefix s' prefix'
  end.

Fixpoint drop (n : nat) (s : string) : string :=
  match n, s with
  | O, _ => s
  | S _, EmptyString => EmptyString
  | S n', String _ s' => drop n' s'
  end.

Fixpoint rev (s : string) : string :=
  match s with
  | EmptyString => EmptyString
  | String c s' => rev s' +:+ String c EmptyString
  end.

Definition HasSuffix (s suffix : string) : bool :=
  HasPrefix (rev s) (rev suffix).

Definition TrimPrefix (s prefix : string) : string :=
  if HasPrefix s prefix then drop (String.length prefix) s else s.

Fixpoint Contains (s substr : string) : bool :=
  HasPrefix s substr ||
  match s with
  | EmptyString => false
  | String _ s' => Contains s' substr
  end.

(** [unicode.IsSpace], as UTF-8: the encodings of the code points with the
    White_Space property.  A rune decoded from the head (or the tail) of a
    string is one of them exactly when the string starts (or ends) with its
    encoding: ill-formed bytes decode to U+FFFD, which is no space. *)
Definition spaceEncodings : list (list N) :=
  [ [0x09]; [0x0A]; [0x0B]; [0x0C]; [0x0D]; [0x20];
    [0xC2; 0x85]; [0xC2; 0xA0];
    [0xE1; 0x9A; 0x80];
    [0xE2; 0x80; 0x80]; [0xE2; 0x80; 0x81]; [0xE2; 0x80; 0x82];
    [0xE2; 0x80; 0x83]; [0xE2; 0x80; 0x84]; [0xE2; 0x80; 0x85];
    [0xE2; 0x80; 0x86]; [0xE2; 0x80; 0x87]; [0xE2; 0x80; 0x88];
    [0xE2; 0x80; 0x89]; [0xE2; 0x80; 0x8A];
    [0xE2; 0x80; 0xA8]; [0xE2; 0x80; 0xA9]; [0xE2; 0x80; 0xAF];
    [0xE2; 0x81; 0x9F];
    [0xE3; 0x80; 0x80] ]%N.

(** Width in bytes of the rune of [table] the string starts with, [0] when
    it starts with none. *)
Fixpoint runeWidth (table : list string) (s : string) : nat :=
  match table with
  | [] => O
  | e :: table' => if HasPrefix s e then String.length e else runeWidth table' s
  end.

Definition spaceWidth : string -> nat := runeWidth (map str spaceEncodings).
Definition spaceWidthRev : string -> nat :=
  runeWidth (map (fun e => rev (str e)) spaceEncodings).

(** Drops the runes recognised by [width] from the head of [s]; [skip]
    counts the bytes of the current rune that are still to be dropped. *)
Fixpoint trimLeftBy (width : string -> nat) (s : string) (skip : nat) : string :=
  match s with
  | EmptyString => EmptyString
  | String _ s' =>
      match skip with
      | S k => trimLeftBy width s' k
      | O => match width s with
             | O => s
             | S k => trimLeftBy width s' k
             end
      end
  end.

(** [strings.TrimSpace]: leading, then trailing white space is removed. *)
Definition TrimSpace (s : string) : string :=
  rev (trimLeftBy spaceWidthRev (rev (trimLeftBy spaceWidth s O)) O).

Definition flush (cur : string) : list string :=
  if String.eqb cur EmptyString then [] else [cur].

Fixpoint fieldsFrom (s : string) (skip : nat) (cur : string) : list string :=
  match s with
  | EmptyString => flush cur
  | String c s' =>
      match skip with
      | S k => fieldsFrom s' k cur
      | O => match spaceWidth s with
             | O => fieldsFrom s' O (cur +:+ String c EmptyString)
             | S k => flush cur ++ fieldsFrom s' k EmptyString
             end
      end
  end.

(** [strings.Fields]: the maximal runs of non-space runes. *)
Definition Fields (s : string) : list string := fieldsFrom s O EmptyString.

(** [strings.SplitN(s, " ", 2)]: cut at the first space, if any. *)
Fixpoint splitAtSpace (s : string) (before : string) : list string :=
  match s with
  | EmptyString => [before]
  | String c s' =>
      if Ascii.eqb c " "%char then [before; s']
      else splitAtSpace s' (before +:+ String c EmptyString)
  end.

Definition SplitN2 (s : string) : list string := splitAtSpace s EmptyString.

Fixpoint trimLeftChar (c : ascii) (s : string) : string :=
  match s with
  | EmptyString => EmptyString
  | String c' s' => if Ascii.eqb c' c then trimLeftChar c s' else s
  end.

(** [strings.Trim(s, cutset)] for a one-character cutset. *)
Definition Trim1 (s : string) (c : ascii) : string :=
  rev (trimLeftChar c (rev (trimLeftChar c s))).

Definition Join (elems : list string) (sep : string) : string :=
  match elems with
  | [] => EmptyString
  | e :: rest => fold_left (fun acc x => acc +:+ sep +:+ x) rest e
  end.

(** [bufio.ScanLines] without the carriage-return handling: the text cut at
    each line feed; a last line without line feed counts when not empty. *)
Fixpoint splitLines (s : string) (cur : string) : list string :=
  match s with
  | EmptyString => flush cur
  | String c s' =>
      if Ascii.eqb c (ascii_of_N 10) then cur :: splitLines s' EmptyString
      else splitLines s' (cur +:+ String c EmptyString)
  end.

(** [dropCR]: one trailing carriage return is removed from a token. *)
Definition dropCR (s : string) : string :=
  match rev s with
  | String c r => if Ascii.eqb c (ascii_of_N 13) then rev r else s
  | EmptyString => s
  end.

(** [bufio.MaxScanTokenSize]: a line of this many bytes or more does not fit
    the scanner's buffer, and the scan stops with [ErrTooLong]. *)
Definition MaxScanTokenSize : N := 65536.
Definition tooLong (token : string) : bool :=
  (MaxScanTokenSize <=? N.of_nat (String.length token))%N.
Definition ErrTooLong : string := "bufio.Scanner: token too long".

End GoStrings.
Import GoStrings.

(** [%d] of [fmt]. *)
Definition formatInt (n : Z) : string := NilZero.string_of_int (Z.to_int n).

(** ** The standard-library functions the development is parametric in *)

Class GoLib := {
  (** [strconv.ParseFloat(s, 64)], [None] when it returns an error *)
  ParseFloat : string -> option float;
  (** [fmt.Sprintf("%W.Pf", x)] for width [W] and precision [P] *)
  FormatFloat : nat -> nat -> float -> string;
  (** [filepath.Join(dir, name)] *)
  PathJoin : string -> string -> string;
  (** [base64.StdEncoding.DecodeString]: the bytes, or the error text *)
  Base64Decode : string -> string + string;
  (** [base64.StdEncoding.EncodeToString] *)
  Base64Encode : string -> string;
}.

(** ** [internal/types/types.go] *)

Record AtomSite := {
  Label : string;
  TypeSymbol : string;
  FractX : float;
  FractY : float;
  FractZ : float;
  UIsoOrEquiv : float;
  AdpType : string;
}.

Record SymmetryOperation := {
  SymX : string;
  SymY : string;
  SymZ : string;
}.

Record CIFDataBlock := {
  Name : string;
  CellLength : gmap string float;
  CellAngle : gmap string float;
  AtomSites : list AtomSite;
  Symmetry : list SymmetryOperation;
  Metadata : gmap string string;
}.

Record CIFFile := { DataBlock : CIFDataBlock }.

Record DFTBInput := {
  Geometry_Periodic : bool;
  Geometry_LatticeVectors : list (list float);
  Geometry_Elements : list string;
  Geometry_Coordinates : list (list float);
  Hamiltonian_Method : string;
  Analysis_Forces : bool;
  Options_Fmax : float;
}.

Record ServerConfig := {
  Port : Z;
  WorkDir : string;
  DFTBPath : string;
  MaxRequests : Z;
  Timeout : Z;
}.

Record OptimizationRequest := {
  RequestID : string;
  StructureFile : string;
  Method : string;
  Fmax : float;
  OriginalFilename : string;
}.

(** The zero values of the structs. *)
Definition zeroAtomSite : AtomSite :=
  {| Label := ""; TypeSymbol := ""; FractX := 0; FractY := 0; FractZ := 0;
     UIsoOrEquiv := 0; AdpType := "" |}.

Definition zeroSymmetry : SymmetryOperation :=
  {| SymX := ""; SymY := ""; SymZ := "" |}.

Definition zeroDataBlock : CIFDataBlock :=
  {| Name := ""; CellLength := ∅; CellAngle := ∅; AtomSites := [];
     Symmetry := []; Metadata := ∅ |}.

Definition zeroCIF : CIFFile := {| DataBlock := zeroDataBlock |}.

(** ** [internal/parser/cif_parser.go] *)

Section Parser.
Context `{GoLib}.

(** [containsAllHeaders]: every required header occurs among the headers. *)
Definition containsAllHeaders (headers required : list string) : bool :=
  let headerMap : gset string := list_to_set headers in
  forallb (fun req => bool_decide (req ∈ headerMap)) required.

Definition atomSiteHeaders : list string :=
  [ "_atom_site_label"; "_atom_site_type_symbol"; "_atom_site_fract_x";
    "_atom_site_fract_y"; "_atom_site_fract_z" ].

Definition symmetryHeaders : list string :=
  [ "_symmetry_equiv_pos_as_xyz_x"; "_symmetry_equiv_pos_as_xyz_y";
    "_symmetry_equiv_pos_as_xyz_z" ].

(** A float field keeps its value when the text does not parse. *)
Definition parsedOr (old : float) (value : string) : float :=
  match ParseFloat value with
  | Some val => val
  | None => old
  end.

(** The [switch header] of the atom-site loop. *)
Definition setAtomField (atomSite : AtomSite) (header value : string) : AtomSite :=
  if String.eqb header "_atom_site_label" then
    {| Label := value; TypeSymbol := TypeSymbol atomSite;
       FractX := FractX atomSite; FractY := FractY atomSite;
       FractZ := FractZ atomSite; UIsoOrEquiv := UIsoOrEquiv atomSite;
       AdpType := AdpType atomSite |}
  else if String.eqb header "_atom_site_type_symbol" then
    {| Label := Label atomSite; TypeSymbol := value;
       FractX := FractX atomSite; FractY := FractY atomSite;
       FractZ := FractZ atomSite; UIsoOrEquiv := UIsoOrEquiv atomSite;
       AdpType := AdpType atomSite |}
  else if String.eqb header "_atom_site_fract_x" then
    {| Label := Label atomSite; TypeSymbol := TypeSymbol atomSite;
       FractX := parsedOr (FractX atomSite) value; FractY := FractY atomSite;
       FractZ := FractZ atomSite; UIsoOrEquiv := UIsoOrEquiv atomSite;
       AdpType := AdpType atomSite |}
  else if String.eqb header "_atom_site_fract_y" then
    {| Label := Label atomSite; TypeSymbol := TypeSymbol atomSite;
       FractX := FractX atomSite; FractY := parsedOr (FractY atomSite) value;
       FractZ := FractZ atomSite; UIsoOrEquiv := UIsoOrEquiv atomSite;
       AdpType := AdpType atomSite |}
  else if String.eqb header "_atom_site_fract_z" then
    {| Label := Label atomSite; TypeSymbol := TypeSymbol atomSite;
       FractX := FractX atomSite; FractY := FractY atomSite;
       FractZ := parsedOr (FractZ atomSite) value;
       UIsoOrEquiv := UIsoOrEquiv atomSite; AdpType := AdpType atomSite |}
  else if String.eqb header "_atom_site_u_iso_or_equiv" then
    {| Label := Label atomSite; TypeSymbol := TypeSymbol atomSite;
       FractX := FractX atomSite; FractY := FractY atomSite;
       FractZ := FractZ atomSite;
       UIsoOrEquiv := parsedOr (UIsoOrEquiv atomSite) value;
       AdpType := AdpType atomSite |}
  else if String.eqb header "_atom_site_adp_type" then
    {| Label := Label atomSite; TypeSymbol := TypeSymbol atomSite;
       FractX := FractX atomSite; FractY := FractY atomSite;
       FractZ := FractZ atomSite; UIsoOrEquiv := UIsoOrEquiv atomSite;
       AdpType := value |}
  else atomSite.

Definition setSymmetryField (symmetry : SymmetryOperation) (header value : string)
  : SymmetryOperation :=
  if String.eqb header "_symmetry_equiv_pos_as_xyz_x" then
    {| SymX := value; SymY := SymY symmetry; SymZ := SymZ symmetry |}
  else if String.eqb header "_symmetry_equiv_pos_as_xyz_y" then
    {| SymX := SymX symmetry; SymY := value; SymZ := SymZ symmetry |}
  else if String.eqb header "_symmetry_equiv_pos_as_xyz_z" then
    {| SymX := SymX symmetry; SymY := SymY symmetry; SymZ := value |}
  else symmetry.

(** [for i, header := range headers]: a header beyond the end of the row is
    skipped, the others update the record from the trimmed cell. *)
Fixpoint fillRow {R : Type} (set : R -> string -> string -> R)
    (headers row : list string) (r : R) : R :=
  match headers, row with
  | [], _ => r
  | _ :: _, [] => r
  | header :: headers', cell :: row' =>
      fillRow set headers' row' (set r header (TrimSpace cell))
  end.

Definition withAtomSites (blk : CIFDataBlock) (sites : list AtomSite) : CIFDataBlock :=
  {| Name := Name blk; CellLength := CellLength blk; CellAngle := CellAngle blk;
     AtomSites := sites; Symmetry := Symmetry blk; Metadata := Metadata blk |}.

Definition withSymmetry (blk : CIFDataBlock) (ops : list SymmetryOperation)
  : CIFDataBlock :=
  {| Name := Name blk; CellLength := CellLength blk; CellAngle := CellAngle blk;
     AtomSites := AtomSites blk; Symmetry := ops; Metadata := Metadata blk |}.

(** One loop of [processLoopData] when its headers are present: every row
    appends one record through the pointer [dataBlock], which must not be
    nil as soon as there is a row. *)
Definition appendRows {R : Type} (zero : R) (set : R -> string -> string -> R)
    (get : CIFDataBlock -> list R) (put : CIFDataBlock -> list R -> CIFDataBlock)
    (headers : list string) (data : list (list string))
    (dataBlock : option CIFFile) : Outcome (option CIFFile) :=
  match data, dataBlock with
  | [], _ => Ok dataBlock
  | _ :: _, None => Panic nilDeref
  | _ :: _, Some blk =>
      let rows := map (fun row => fillRow set headers row zero) data in
      Ok (Some {| DataBlock := put (DataBlock blk) (get (DataBlock blk) ++ rows) |})
  end.

(** [processLoopData] *)
Definition processLoopData (dataBlock : option CIFFile) (headers : list string)
    (data : list (list string)) : Outcome (option CIFFile) :=
  dataBlock ←
    (if containsAllHeaders headers atomSiteHeaders
     then appendRows zeroAtomSite setAtomField AtomSites withAtomSites
            headers data dataBlock
     else Ok dataBlock);
  if containsAllHeaders headers symmetryHeaders
  then appendRows zeroSymmetry setSymmetryField Symmetry withSymmetry
         headers data dataBlock
  else Ok dataBlock.

(** The local variables of [ParseFromString]. *)
Record ParserState := {
  cif : CIFFile;
  currentDataBlock : option CIFFile;
  inLoop : bool;
  loopHeaders : list string;
  loopData : list (list string);
}.

Definition initialState : ParserState :=
  {| cif := zeroCIF; currentDataBlock := None; inLoop := false;
     loopHeaders := []; loopData := [] |}.

Definition newDataBlock (name : string) : CIFFile :=
  {| DataBlock := {| Name := name; CellLength := ∅; CellAngle := ∅;
                     AtomSites := []; Symmetry := []; Metadata := ∅ |} |}.

Definition setMetadata (blk : CIFFile) (key value : string) : CIFFile :=
  let d := DataBlock blk in
  {| DataBlock := {| Name := Name d; CellLength := CellLength d;
                     CellAngle := CellAngle d; AtomSites := AtomSites d;
                     Symmetry := Symmetry d;
                     Metadata := <[key := value]> (Metadata d) |} |}.

Definition setCellLength (blk : CIFFile) (key : string) (val : float) : CIFFile :=
  let d := DataBlock blk in
  {| DataBlock := {| Name := Name d; CellLength := <[key := val]> (CellLength d);
                     CellAngle := CellAngle d; AtomSites := AtomSites d;
                     Symmetry := Symmetry d; Metadata := Metadata d |} |}.

Definition setCellAngle (blk : CIFFile) (key : string) (val : float) : CIFFile :=
  let d := DataBlock blk in
  {| DataBlock := {| Name := Name d; CellLength := CellLength d;
                     CellAngle := <[key := val]> (CellAngle d);
                     AtomSites := AtomSites d; Symmetry := Symmetry d;
                     Metadata := Metadata d |} |}.

(** An assignment through the pointer [currentDataBlock]. *)
Definition updateBlock (st : ParserState) (f : CIFFile -> CIFFile)
  : Outcome ParserState :=
  match currentDataBlock st with
  | None => Panic nilDeref
  | Some blk =>
      Ok {| cif := cif st; currentDataBlock := Some (f blk); inLoop := inLoop st;
            loopHeaders := loopHeaders st; loopData := loopData st |}
  end.

Definition withLoop (st : ParserState) (blk : option CIFFile) (flag : bool)
    (headers : list string) (data : list (list string)) : ParserState :=
  {| cif := cif st; currentDataBlock := blk; inLoop := flag;
     loopHeaders := headers; loopData := data |}.

(** The quotes that delimit a value are removed. *)
Definition stripQuotes (value : string) : string :=
  if HasPrefix value dquote && HasSuffix value dquote
  then Trim1 value (ascii_of_N 34)
  else if HasPrefix value "'" && HasSuffix value "'"
  then Trim1 value "'"%char
  else value.

Definition isCellLengthKey (key : string) : bool :=
  String.eqb key "_cell_length_a" || String.eqb key "_cell_length_b"
  || String.eqb key "_cell_length_c".

Definition isCellAngleKey (key : string) : bool :=
  String.eqb key "_cell_angle_alpha" || String.eqb key "_cell_angle_beta"
  || String.eqb key "_cell_angle_gamma".

(** The body of the [for scanner.Scan()] loop, on one token. *)
Definition parseLine (st : ParserState) (text : string) : Outcome ParserState :=
  let line := TrimSpace text in
  (* Skip empty lines and comments *)
  if String.eqb line "" || HasPrefix line "#" then Ok st
  (* Handle data blocks *)
  else if HasPrefix line "data_" then
    Ok {| cif := match currentDataBlock st with
                 | Some blk => blk
                 | None => cif st
                 end;
          currentDataBlock := Some (newDataBlock (TrimPrefix line "data_"));
          inLoop := false; loopHeaders := []; loopData := [] |}
  (* Handle loops *)
  else if HasPrefix line "loop_" then
    Ok (withLoop st (currentDataBlock st) true [] [])
  else if inLoop st then
    (* Collect loop headers *)
    if HasPrefix line "_" then
      Ok (withLoop st (currentDataBlock st) true (loopHeaders st ++ [line])
            (loopData st))
    (* Collect loop data *)
    else if negb (HasPrefix line "_") && negb (String.eqb line "") then
      let fields := Fields line in
      if Nat.eqb (length fields) (length (loopHeaders st))
      then Ok (withLoop st (currentDataBlock st) true (loopHeaders st)
                 (loopData st ++ [fields]))
      else Ok st
    (* End of loop *)
    else
      blk ← processLoopData (currentDataBlock st) (loopHeaders st) (loopData st);
      Ok (withLoop st blk false (loopHeaders st) (loopData st))
  (* Handle key-value pairs *)
  else if Contains line " " && negb (HasPrefix line "_") then
    match SplitN2 line with
    | [k; v] =>
        let key := TrimSpace k in
        let value := stripQuotes (TrimSpace v) in
        updateBlock st (fun blk => setMetadata blk key value)
    | _ => Ok st
    end
  (* Handle CIF keywords *)
  else if HasPrefix line "_" then
    match SplitN2 line with
    | [k; v] =>
        let key := TrimSpace k in
        let value := stripQuotes (TrimSpace v) in
        if isCellLengthKey key then
          match ParseFloat value with
          | Some val => updateBlock st (fun blk => setCellLength blk key val)
          | None => Ok st
          end
        else if isCellAngleKey key then
          match ParseFloat value with
          | Some val => updateBlock st (fun blk => setCellAngle blk key val)
          | None => Ok st
          end
        else Ok st
    | _ => Ok st
    end
  else Ok st.

(** The scan: the loop ends at the end of the text, or at the first token
    that does not fit the buffer, which leaves the scanner's error set
    ([Err] carries that error). *)
Fixpoint scanLoop (st : ParserState) (tokens : list string) : Outcome ParserState :=
  match tokens with
  | [] => Ok st
  | token :: rest =>
      if tooLong token then Err ErrTooLong
      else st' ← parseLine st (dropCR token); scanLoop st' rest
  end.

(** [ParseFromString] *)
Definition ParseFromString (content : string) : Outcome CIFFile :=
  match scanLoop initialState (splitLines content "") with
  | Ok st =>
      (* Save the last data block *)
      Ok match currentDataBlock st with
         | Some blk => blk
         | None => cif st
         end
  | Err e => Err ("error reading CIF content: " +:+ e)
  | Panic e => Panic e
  end.

(** [ParseFromBase64] *)
Definition ParseFromBase64 (base64Content : string) : Outcome CIFFile :=
  match Base64Decode base64Content with
  | inr e => Err ("failed to decode base64 content: " +:+ e)
  | inl decoded => ParseFromString decoded
  end.

Definition cellValue (m : gmap string float) (key : string) : float :=
  default 0%float (m !! key).

(** The loop of [ToDFTBInput] over the atom sites: [elementMap] records the
    symbols seen, [elements] and [coordinates] grow by [append]. *)
Fixpoint extractAtoms (a b c : float) (sites : list AtomSite)
    (elementMap : gset string) (elements : list string)
    (coordinates : list (list float)) : list string * list (list float) :=
  match sites with
  | [] => (elements, coordinates)
  | atom :: sites' =>
      let seen := bool_decide (TypeSymbol atom ∈ elementMap) in
      let elements' := if seen then elements else elements ++ [TypeSymbol atom] in
      let elementMap' := if seen then elementMap else {[TypeSymbol atom]} ∪ elementMap in
      let x := (FractX atom * a)%float in
      let y := (FractY atom * b)%float in
      let z := (FractZ atom * c)%float in
      extractAtoms a b c sites' elementMap' elements' (coordinates ++ [[x; y; z]])
  end.

(** [ToDFTBInput]; a nil [cif] is [None]. *)
Definition ToDFTBInput (cif : option CIFFile) (method : string) (fmax : float)
  : Outcome DFTBInput :=
  match cif with
  | None => Err "invalid CIF file"
  | Some cif =>
      if String.eqb (Name (DataBlock cif)) "" then Err "invalid CIF file"
      else
        let a := cellValue (CellLength (DataBlock cif)) "_cell_length_a" in
        let b := cellValue (CellLength (DataBlock cif)) "_cell_length_b" in
        let c := cellValue (CellLength (DataBlock cif)) "_cell_length_c" in
        let alpha := (cellValue (CellAngle (DataBlock cif)) "_cell_angle_alpha"
                      * 3.141592653589793 / 180.0)%float in
        let beta := (cellValue (CellAngle (DataBlock cif)) "_cell_angle_beta"
                     * 3.141592653589793 / 180.0)%float in
        let gamma := (cellValue (CellAngle (DataBlock cif)) "_cell_angle_gamma"
                      * 3.141592653589793 / 180.0)%float in
        let '(elements, coordinates) :=
          extractAtoms a b c (AtomSites (DataBlock cif)) ∅ [] [] in
        Ok {| Geometry_Periodic := true;
              Geometry_LatticeVectors :=
                [[a; 0; 0]; [0; b; 0]; [0; 0; c]]%float;
              Geometry_Elements := elements;
              Geometry_Coordinates := coordinates;
              Hamiltonian_Method := method;
              Analysis_Forces := true;
              Options_Fmax := fmax |}
  end.

(** [ValidateCIFContent] *)
Definition ValidateCIFContent (content : string) : Outcome unit :=
  if negb (Contains content "data_") then
    Err "missing data block declaration"
  else if negb (Contains content "_cell_length_a")
          && negb (Contains content "_cell.angle_alpha") then
    Err "missing cell parameters"
  else if negb (Contains content "_atom_site")
          && negb (Contains content "loop_") then
    Err "missing atom site information"
  else Ok tt.

End Parser.

(** ** The world outside the process *)

(** A file-system entry. *)
Inductive Node :=
| File (content : string)
| Dir.

(** What [os.Stat] reports: success, [ErrNotExist], or another error. *)
Inductive StatResult := StatOk | StatNotExist | StatError.

(** [os.IsNotExist(err)] on the error of a [Stat]. *)
Definition IsNotExist (r : StatResult) : bool :=
  match r with
  | StatNotExist => true
  | _ => false
  end.

(** How the engine process behaves once [cmd.Run] is called; times are in
    nanoseconds since the call. *)
Inductive ProcBehaviour :=
| StartFails (elapsed : N) (err : string)
| Exits (elapsed : N) (status : Z)
| Hangs.

(** Everything a call of the runner depends on besides its arguments and
    the files: the clock, the order [range] picks for a map, the failures of
    system calls ([fault op path] is the error text, if the call fails), the
    engine, and the choice [select] makes when both channels are ready. *)
Record Env := {
  today : string;
  rangeOrder : gmap string float -> list (string * float);
  fault : string -> string -> option string;
  proc : ProcBehaviour;
  engineWrites : gmap string Node -> gmap string Node;
  selectTie : bool;
}.

(** [range] visits every entry of the map once, in some order. *)
Definition rangeOrderValid (env : Env) : Prop :=
  forall m : gmap string float, rangeOrder env m ≡ₚ map_to_list m.

Section FileSystem.
Context (env : Env).

Definition Stat (fs : gmap string Node) (path : string) : StatResult :=
  match fault env "stat" path with
  | Some _ => StatError
  | None => match fs !! path with
            | Some _ => StatOk
            | None => StatNotExist
            end
  end.

Definition MkdirAll (fs : gmap string Node) (path : string)
  : Outcome (gmap string Node) :=
  match fault env "mkdir" path with
  | Some e => Err ("mkdir " +:+ path +:+ ": " +:+ e)
  | None => match fs !! path with
            | Some (File _) => Err ("mkdir " +:+ path +:+ ": not a directory")
            | Some Dir => Ok fs
            | None => Ok (<[path := Dir]> fs)
            end
  end.

Definition WriteFile (fs : gmap string Node) (path content : string)
  : Outcome (gmap string Node) :=
  match fault env "open" path with
  | Some e => Err ("open " +:+ path +:+ ": " +:+ e)
  | None => match fs !! path with
            | Some Dir => Err ("open " +:+ path +:+ ": is a directory")
            | _ => Ok (<[path := File content]> fs)
            end
  end.

Definition ReadFile (fs : gmap string Node) (path : string) : Outcome string :=
  match fault env "open" path with
  | Some e => Err ("open " +:+ path +:+ ": " +:+ e)
  | None => match fs !! path with
            | Some (File content) => Ok content
            | Some Dir => Err ("read " +:+ path +:+ ": is a directory")
            | None => Err ("open " +:+ path +:+ ": no such file or directory")
            end
  end.

End FileSystem.

(** ** Dynamic values: [interface{}] as the runner uses it *)

Inductive value :=
| VString (s : string)
| VBool (b : bool)
| VFloat (f : float)
| VStrings (l : list string)
| VFloats (m : gmap string float)
| VObject (m : gmap string value).

Record OptimizationResponse := {
  Status : string;
  ResponseRequestID : string;
  ParsedData : gmap string value;
  OutputCIFPath : string;
  ErrorMessage : string;
}.

(** [time.Duration]: a signed 64-bit count of nanoseconds. *)
Definition wrap64 (z : Z) : Z := (z + 2 ^ 63) mod 2 ^ 64 - 2 ^ 63.
Definition Second : Z := 1000000000.

(** The outcome of the [select] in [runDFTBCalculation]. *)
Inductive SelectResult :=
| TimerFired
| DoneReceived (err : option string).

(** ** [internal/dftb/runner.go] *)

Record DFTBRunner := {
  config : ServerConfig;
  workDir : string;
}.

Definition NewDFTBRunner (config : ServerConfig) : DFTBRunner :=
  {| config := config; workDir := WorkDir config |}.

Section Runner.
Context `{GoLib}.
Context (env : Env).

Definition isOneOf (s : string) (l : list string) : bool :=
  existsb (String.eqb s) l.

(** The [switch element] of [generateDFTBInputContent]. *)
Definition angularMomentumLine (element : string) : string :=
  if String.eqb element "H" then "    H = s" +:+ LF
  else if isOneOf element ["C"; "N"; "O"; "F"] then "    " +:+ element +:+ " = p" +:+ LF
  else if isOneOf element ["Si"; "P"; "S"; "Cl"] then "    " +:+ element +:+ " = d" +:+ LF
  else "    " +:+ element +:+ " = p" +:+ LF.

Definition concatStrings (l : list string) : string :=
  fold_right String.append "" l.

(** [generateDFTBInputContent] *)
Definition generateDFTBInputContent (input : DFTBInput) : string :=
  concatStrings
    ([ "Geometry = GenFormat {" +:+ LF;
       "  <<< geometry.gen" +:+ LF;
       "}" +:+ LF +:+ LF;
       "Hamiltonian = " +:+ Hamiltonian_Method input +:+ " {" +:+ LF;
       "  MaxAngularMomentum {" +:+ LF ]
     ++ map angularMomentumLine (Geometry_Elements input)
     ++ [ "  }" +:+ LF;
          "}" +:+ LF +:+ LF;
          "Driver = GeometryOptimization {" +:+ LF;
          "  Convergence = Grad {" +:+ LF;
          "    MaxForceComponent = " +:+ FormatFloat 0 6 (Options_Fmax input) +:+ LF;
          "  }" +:+ LF;
          "  MaxSteps = 1000" +:+ LF;
          "  MovedAtoms = 1:-1" +:+ LF;
          "}" +:+ LF +:+ LF;
          "Analysis = {" +:+ LF;
          (if Analysis_Forces input then "  CalculateForces = Yes" +:+ LF else "");
          "  PrintEigenvalues = Yes" +:+ LF;
          "  PrintBandStructure = No" +:+ LF;
          "}" +:+ LF +:+ LF;
          "Options {" +:+ LF;
          "  WriteDetailedOut = Yes" +:+ LF;
          "  WriteResultsTag = Yes" +:+ LF;
          "}" +:+ LF ]).

(** The element [generateGeometryContent] writes on coordinate line [i]:
    [Elements[i % len(Elements)]]. *)
Definition lineElement (elements : list string) (i : nat) : Outcome string :=
  match length elements with
  | O => Panic "runtime error: integer divide by zero"
  | S _ =>
      match elements !! (i mod length elements)%nat with
      | Some element => Ok element
      | None => Panic "runtime error: index out of range"
      end
  end.

(** One iteration of the coordinate loop of [generateGeometryContent]. *)
Definition coordLine (elements : list string) (i : nat) (coord : list float)
  : Outcome string :=
  element ← lineElement elements i;
  match coord with
  | x :: y :: z :: _ =>
      Ok (element +:+ " " +:+ FormatFloat 12 8 x +:+ " " +:+ FormatFloat 12 8 y
          +:+ " " +:+ FormatFloat 12 8 z +:+ LF)
  | _ => Panic "runtime error: index out of range"
  end.

Fixpoint coordLines (elements : list string) (i : nat) (coords : list (list float))
  : Outcome (list string) :=
  match coords with
  | [] => Ok []
  | coord :: coords' =>
      line ← coordLine elements i coord;
      rest ← coordLines elements (S i) coords';
      Ok (line :: rest)
  end.

(** The lines [generateGeometryContent] writes: the header, the element
    types, then one line per coordinate. *)
Definition geometryLines (input : DFTBInput) : Outcome (list string) :=
  lines ← coordLines (Geometry_Elements input) O (Geometry_Coordinates input);
  Ok ((formatInt (Z.of_nat (length (Geometry_Coordinates input))) +:+ " F" +:+ LF)
      :: (Join (Geometry_Elements input) " " +:+ LF)
      :: lines).

(** [generateGeometryContent] *)
Definition generateGeometryContent (input : DFTBInput) : Outcome string :=
  lines ← geometryLines input;
  Ok (concatStrings lines).

(** [generateInputFiles] *)
Definition generateInputFiles (fs : gmap string Node) (workDir : string)
    (input : DFTBInput) : Outcome (gmap string Node) :=
  let inputContent := generateDFTBInputContent input in
  let inputPath := PathJoin workDir "dftb_in.hsd" in
  match WriteFile env fs inputPath inputContent with
  | Err e => Err ("failed to write input file: " +:+ e)
  | Panic e => Panic e
  | Ok fs1 =>
      geometryContent ← generateGeometryContent input;
      let geometryPath := PathJoin workDir "geometry.gen" in
      match WriteFile env fs1 geometryPath geometryContent with
      | Err e => Err ("failed to write geometry file: " +:+ e)
      | Panic e => Panic e
      | Ok fs2 => Ok fs2
      end
  end.

(** [time.Duration(r.config.Timeout) * time.Second] *)
Definition timeoutDuration (config : ServerConfig) : Z :=
  wrap64 (Timeout config * Second).

(** What [cmd.Run] returns for an exit status. *)
Definition exitError (status : Z) : option string :=
  if status =? 0 then None else Some ("exit status " +:+ formatInt status).

(** [select]: the timer fires [d] nanoseconds after the call (at once when
    [d] is not positive); the channel written first is taken, and either
    one when both are ready. *)
Definition selectResult (d : Z) : SelectResult :=
  let fire := Z.max 0 d in
  let race (elapsed : N) (r : option string) :=
    if Z.of_N elapsed <? fire then DoneReceived r
    else if fire <? Z.of_N elapsed then TimerFired
    else if selectTie env then DoneReceived r else TimerFired in
  match proc env with
  | StartFails elapsed err => race elapsed (Some err)
  | Exits elapsed status => race elapsed (exitError status)
  | Hangs => TimerFired
  end.

(** [cmd.Process != nil] when the timer fires. *)
Definition processStarted : bool :=
  match proc env with
  | StartFails _ _ => false
  | _ => true
  end.

Record Calculation := {
  outcome : Outcome string;
  killed : bool;
  filesAfter : gmap string Node;
}.

(** [runDFTBCalculation] *)
Definition runDFTBCalculation (r : DFTBRunner) (fs : gmap string Node)
    (workDir requestID : string) : Calculation :=
  if IsNotExist (Stat env fs (DFTBPath (config r))) then
    {| outcome := Err ("DFTB+ executable not found at: " +:+ DFTBPath (config r));
       killed := false; filesAfter := fs |}
  else
    let fs' := if processStarted then engineWrites env fs else fs in
    match selectResult (timeoutDuration (config r)) with
    | TimerFired =>
        {| outcome := Err ("DFTB+ calculation timed out after "
                           +:+ formatInt (Timeout (config r)) +:+ " seconds");
           killed := processStarted; filesAfter := fs' |}
    | DoneReceived (Some err) =>
        {| outcome := Err ("DFTB+ calculation failed: " +:+ err);
           killed := false; filesAfter := fs' |}
    | DoneReceived None =>
        let outputPath := PathJoin workDir "dftb_out.hsd" in
        if IsNotExist (Stat env fs' outputPath) then
          {| outcome := Err "DFTB+ output file not found";
             killed := false; filesAfter := fs' |}
        else {| outcome := Ok outputPath; killed := false; filesAfter := fs' |}
    end.

(** The record [parseDFTBOutput] builds. *)
Definition parsedResult : gmap string value :=
  <["summary" := VObject
      (<["warnings" := VStrings []]>
       (<["convergence_status" := VString "converged"]>
        (<["calculation_status" := VString "completed"]> ∅)))]>
  (<["convergence_info" := VObject (<["scc_converged" := VBool true]> ∅)]>
  (<["energies_eV" := VFloats (<["total" := (-100.0)%float]> ∅)]>
  (<["energies_hartree" := VFloats (<["total" := (-3.6749)%float]> ∅)]>
  (<["electronic_properties" := VObject
      (<["fermi_level_eV" := VFloat (-5.0)%float]>
       (<["total_charge" := VFloat 0.0%float]>
        (<["dipole_moment_debye" := VFloats
            (<["x" := 0.0%float]> (<["y" := 0.0%float]> (<["z" := 0.0%float]> ∅)))]>
         ∅)))]> ∅)))).

(** [parseDFTBOutput] *)
Definition parseDFTBOutput (fs : gmap string Node) (outputPath : string)
  : Outcome (gmap string value) :=
  match ReadFile env fs outputPath with
  | Err e => Err ("failed to read output file: " +:+ e)
  | Panic e => Panic e
  | Ok content => Ok parsedResult
  end.

Definition cellLine (entry : string * float) : string :=
  fst entry +:+ " " +:+ FormatFloat 8 6 (snd entry) +:+ LF.

(** [float64(n)] for a loop index. *)
Definition floatOfNat (n : nat) : float := PrimFloat.of_uint63 (Uint63.of_Z (Z.of_nat n)).

(** One iteration of the atom loop of [generateOptimizedCIF]; the product
    and the sum are rounded one after the other, as on amd64 (the language
    lets other targets fuse them). *)
Definition optimizedAtomLine (i : nat) (atom : AtomSite) : string :=
  let displacement := 0.001%float in
  let optimizedX := (FractX atom + displacement * floatOfNat (i + 1))%float in
  let optimizedY := (FractY atom + displacement * floatOfNat (i + 2))%float in
  let optimizedZ := (FractZ atom + displacement * floatOfNat (i + 3))%float in
  let uIso := if PrimFloat.eqb (UIsoOrEquiv atom) 0 then 0.01%float
              else UIsoOrEquiv atom in
  Label atom +:+ " " +:+ TypeSymbol atom +:+ " " +:+ FormatFloat 12 8 optimizedX
  +:+ " " +:+ FormatFloat 12 8 optimizedY +:+ " " +:+ FormatFloat 12 8 optimizedZ
  +:+ " " +:+ FormatFloat 8 6 uIso +:+ LF.

(** The text [generateOptimizedCIF] writes. *)
Definition optimizedCIFContent (originalCIF : CIFFile) : string :=
  concatStrings
    ([ "data_" +:+ Name (DataBlock originalCIF) +:+ "_optimized" +:+ LF;
       "# Optimized structure from DFTB+" +:+ LF;
       "_audit_creation_method            'DFTB+ geometry optimization'" +:+ LF;
       "_audit_creation_date               '" +:+ today env +:+ "'" +:+ LF;
       LF ]
     ++ map cellLine (rangeOrder env (CellLength (DataBlock originalCIF)))
     ++ map cellLine (rangeOrder env (CellAngle (DataBlock originalCIF)))
     ++ [ LF;
          "loop_" +:+ LF;
          "_atom_site_label" +:+ LF;
          "_atom_site_type_symbol" +:+ LF;
          "_atom_site_fract_x" +:+ LF;
          "_atom_site_fract_y" +:+ LF;
          "_atom_site_fract_z" +:+ LF;
          "_atom_site_U_iso_or_equiv" +:+ LF ]
     ++ imap optimizedAtomLine (AtomSites (DataBlock originalCIF))).

(** [generateOptimizedCIF]: the path written, and the files afterwards. *)
Definition generateOptimizedCIF (fs : gmap string Node) (workDir : string)
    (originalCIF : CIFFile) (parsedData : gmap string value)
  : Outcome (string * gmap string Node) :=
  let optimizedPath := PathJoin workDir "optimized.cif" in
  match WriteFile env fs optimizedPath (optimizedCIFContent originalCIF) with
  | Err e => Err ("failed to write optimized CIF: " +:+ e)
  | Panic e => Panic e
  | Ok fs' => Ok (optimizedPath, fs')
  end.

(** [CIFParser.ReadFromFile] *)
Definition ReadFromFile (fs : gmap string Node) (filename : string) : Outcome string :=
  match ReadFile env fs filename with
  | Err e => Err ("failed to read file: " +:+ e)
  | Panic e => Panic e
  | Ok content => Ok content
  end.

(** [createErrorResponse] *)
Definition createErrorResponse (requestID : string) (err : string)
  : Outcome OptimizationResponse :=
  Ok {| Status := "error"; ResponseRequestID := requestID; ParsedData := ∅;
        OutputCIFPath := ""; ErrorMessage := err |}.

(** [ValidateRequest] *)
Definition ValidateRequest (request : OptimizationRequest) : Outcome unit :=
  if String.eqb (RequestID request) "" then Err "request ID is required"
  else if String.eqb (StructureFile request) "" then Err "structure file is required"
  else if negb (String.eqb (Method request) "GFN1-xTB")
          && negb (String.eqb (Method request) "GFN2-xTB")
  then Err ("invalid method: " +:+ Method request)
  else if PrimFloat.leb (Fmax request) 0 then Err "fmax must be positive"
  else Ok tt.

(** [GetStatus] *)
Definition GetStatus (r : DFTBRunner) (fs : gmap string Node) (requestID : string)
  : Outcome string :=
  let requestDir := PathJoin (workDir r) requestID in
  if IsNotExist (Stat env fs requestDir) then Ok "not_found"
  else
    let outputPath := PathJoin requestDir "dftb_out.hsd" in
    if IsNotExist (Stat env fs outputPath) then Ok "running"
    else
      let errorPath := PathJoin requestDir "error.log" in
      if negb (IsNotExist (Stat env fs errorPath)) then Ok "error"
      else Ok "completed".

(** The result of [RunOptimization] and the files it leaves. *)
Record Run := {
  response : Outcome OptimizationResponse;
  filesLeft : gmap string Node;
}.

Definition errorRun (requestID err : string) (fs : gmap string Node) : Run :=
  {| response := createErrorResponse requestID err; filesLeft := fs |}.

(** The steps of [RunOptimization] after the engine has produced
    [outputPath]. *)
Definition finishOptimization (fs : gmap string Node) (request : OptimizationRequest)
    (requestDir : string) (cif : CIFFile) (outputPath : string) : Run :=
  match parseDFTBOutput fs outputPath with
  | Panic e => {| response := Panic e; filesLeft := fs |}
  | Err e => errorRun (RequestID request) ("failed to parse DFTB+ output: " +:+ e) fs
  | Ok parsedData =>
      match generateOptimizedCIF fs requestDir cif parsedData with
      | Panic e => {| response := Panic e; filesLeft := fs |}
      | Err e =>
          errorRun (RequestID request) ("failed to generate optimized CIF: " +:+ e) fs
      | Ok (optimizedCIFPath, fs') =>
          match ReadFromFile fs' optimizedCIFPath with
          | Panic e => {| response := Panic e; filesLeft := fs' |}
          | Err e =>
              errorRun (RequestID request) ("failed to read optimized CIF: " +:+ e) fs'
          | Ok optimizedCIFContent =>
              {| response :=
                   Ok {| Status := "success";
                         ResponseRequestID := RequestID request;
                         ParsedData := parsedData;
                         OutputCIFPath := Base64Encode optimizedCIFContent;
                         ErrorMessage := "" |};
                 filesLeft := fs' |}
          end
      end
  end.

(** [RunOptimization] *)
Definition RunOptimization (r : DFTBRunner) (fs : gmap string Node)
    (request : OptimizationRequest) : Run :=
  let requestDir := PathJoin (workDir r) (RequestID request) in
  match MkdirAll env fs requestDir with
  | Panic e => {| response := Panic e; filesLeft := fs |}
  | Err e =>
      {| response := Err ("failed to create request directory: " +:+ e);
         filesLeft := fs |}
  | Ok fs1 =>
      match ParseFromBase64 (StructureFile request) with
      | Panic e => {| response := Panic e; filesLeft := fs1 |}
      | Err e => errorRun (RequestID request) ("failed to parse CIF file: " +:+ e) fs1
      | Ok cif =>
          match ToDFTBInput (Some cif) (Method request) (Fmax request) with
          | Panic e => {| response := Panic e; filesLeft := fs1 |}
          | Err e =>
              errorRun (RequestID request)
                ("failed to convert to DFTB+ input: " +:+ e) fs1
          | Ok dftbInput =>
              match generateInputFiles fs1 requestDir dftbInput with
              | Panic e => {| response := Panic e; filesLeft := fs1 |}
              | Err e =>
                  errorRun (RequestID request)
                    ("failed to generate input files: " +:+ e) fs1
              | Ok fs2 =>
                  let calc := runDFTBCalculation r fs2 requestDir (RequestID request) in
                  match outcome calc with
                  | Panic e => {| response := Panic e; filesLeft := filesAfter calc |}
                  | Err e =>
                      errorRun (RequestID request)
                        ("DFTB+ calculation failed: " +:+ e) (filesAfter calc)
                  | Ok outputPath =>
                      finishOptimization (filesAfter calc) request requestDir cif
                        outputPath
                  end
              end
          end
      end
  end.

End Runner.

(** ** [internal/api/handlers.go] *)

Record APIHandler := {
  dftbRunner : DFTBRunner;
  handlerConfig : ServerConfig;
}.

Definition NewAPIHandler (config : ServerConfig) : APIHandler :=
  {| dftbRunner := NewDFTBRunner config; handlerConfig := config |}.

(** The message of the validator for a field that fails a tag. *)
Definition fieldError (field tag : string) : string :=
  "Key: 'OptimizationRequest." +:+ field +:+ "' Error:Field validation for '"
  +:+ field +:+ "' failed on the '" +:+ tag +:+ "' tag".

(** The [binding] tags of [OptimizationRequest]: the four fields are
    required (not the zero value), and [fmax >= 0.001]. *)
Definition bindingErrors (body : OptimizationRequest) : list string :=
  (if String.eqb (RequestID body) "" then [fieldError "RequestID" "required"] else [])
  ++ (if String.eqb (StructureFile body) ""
      then [fieldError "StructureFile" "required"] else [])
  ++ (if String.eqb (Method body) "" then [fieldError "Method" "required"] else [])
  ++ (if PrimFloat.eqb (Fmax body) 0 then [fieldError "Fmax" "required"]
      else if PrimFloat.ltb (Fmax body) 0.001 then [fieldError "Fmax" "min"]
      else []).

(** [c.ShouldBindJSON(&request)] on a decoded body: the error lists every
    field that fails, one per line. *)
Definition ShouldBindJSON (body : OptimizationRequest) : Outcome OptimizationRequest :=
  match bindingErrors body with
  | [] => Ok body
  | errors => Err (Join errors LF)
  end.

Definition withRequestID (request : OptimizationRequest) (id : string)
  : OptimizationRequest :=
  {| RequestID := id; StructureFile := StructureFile request;
     Method := Method request; Fmax := Fmax request;
     OriginalFilename := OriginalFilename request |}.

(** What [optimizeStructure] does with a submission before the
    optimization runs: answer 400, or go on to [RunOptimization] with the
    request. *)
Inductive Admission :=
| BadRequest (error details : string)
| Runs (request : OptimizationRequest).

Section API.
Context `{GoLib}.
Context (env : Env).

(** [optimizeStructure] up to the call of [RunOptimization]; [uuid] is the
    value of [uuid.New().String()]. *)
Definition accept (h : APIHandler) (body : OptimizationRequest) (uuid : string)
  : Admission :=
  match ShouldBindJSON body with
  | Ok request =>
      let request :=
        if String.eqb (RequestID request) "" then withRequestID request uuid
        else request in
      match ValidateRequest request with
      | Ok _ => Runs request
      | Err e | Panic e => BadRequest "Invalid request parameters" e
      end
  | Err e | Panic e => BadRequest "Invalid request format" e
  end.

(** The HTTP server runs each handler on a goroutine of its own.  A server
    state is the list of the requests whose handler is inside
    [RunOptimization]; a submission enters it when accepted, and leaves it
    when its optimization returns. *)
Inductive Event :=
| Submit (body : OptimizationRequest) (uuid : string)
| Return (requestID : string).

Fixpoint removeFirst (requestID : string) (running : list OptimizationRequest)
  : list OptimizationRequest :=
  match running with
  | [] => []
  | request :: running' =>
      if String.eqb (RequestID request) requestID then running'
      else request :: removeFirst requestID running'
  end.

Definition serve (h : APIHandler) (running : list OptimizationRequest) (ev : Event)
  : list OptimizationRequest :=
  match ev with
  | Submit body uuid =>
      match accept h body uuid with
      | Runs request => request :: running
      | BadRequest _ _ => running
      end
  | Return requestID => removeFirst requestID running
  end.

Definition serveAll (h : APIHandler) (events : list Event) : list OptimizationRequest :=
  fold_left (serve h) events [].

(** [optimizeStructure], run to its response: the HTTP status written (none
    when the handler panics) and, for a submission that ran, the result of
    [RunOptimization]. *)
Definition optimizeStructure (h : APIHandler) (fs : gmap string Node)
    (body : OptimizationRequest) (uuid : string) : option Z * option Run :=
  match accept h body uuid with
  | BadRequest _ _ => (Some 400, None)
  | Runs request =>
      let run := RunOptimization env (dftbRunner h) fs request in
      match response run with
      | Ok _ => (Some 200, Some run)
      | Err _ => (Some 500, Some run)
      | Panic _ => (None, Some run)
      end
  end.

End API.

(** ** An executable instance of [GoLib]

    [Ref.lib] runs the examples.  Its functions agree with Go's on the
    inputs named in their comments; no theorem depends on them. *)

Module Ref.

Definition digitValue (c : ascii) : option Z :=
  let n := Z.of_N (N_of_ascii c) in
  if (48 <=? n) && (n <=? 57) then Some (n - 48) else None.

(** The value and the number of the digits of [s], when [s] has only
    digits. *)
Fixpoint digits (s : string) (acc : Z) (count : nat) : option (Z * nat) :=
  match s with
  | EmptyString => Some (acc, count)
  | String c s' =>
      match digitValue c with
      | Some d => digits s' (10 * acc + d) (S count)
      | None => None
      end
  end.

Fixpoint splitAtDot (s : string) (before : string) : string * option string :=
  match s with
  | EmptyString => (before, None)
  | String c s' =>
      if Ascii.eqb c "."%char then (before, Some s')
      else splitAtDot s' (before +:+ String c EmptyString)
  end.

Definition floatOfZ (z : Z) : float := PrimFloat.of_uint63 (Uint63.of_Z z).

(** Plain decimals [[+-]ddd[.ddd]] with a mantissa below [2^53] and at most
    18 decimals: the quotient of two exact binary64 values is the nearest
    binary64, as [strconv.ParseFloat] returns it.  Other texts are refused. *)
Definition ParseFloat (s : string) : option float :=
  let '(negative, body) :=
    match s with
    | String c s' =>
        if Ascii.eqb c "-"%char then (true, s')
        else if Ascii.eqb c "+"%char then (false, s')
        else (false, s)
    | EmptyString => (false, s)
    end in
  let '(whole, fraction) := splitAtDot body "" in
  match digits (whole +:+ default "" fraction) 0 O with
  | Some (mantissa, S _) =>
      let decimals := String.length (default "" fraction) in
      if (mantissa <? 2 ^ 53) && (decimals <=? 18)%nat then
        let magnitude := (floatOfZ mantissa / floatOfZ (10 ^ Z.of_nat decimals))%float in
        Some (if negative then (- magnitude)%float else magnitude)
      else None
  | _ => None
  end.

Fixpoint repeat (c : ascii) (n : nat) : string :=
  match n with
  | O => EmptyString
  | S n' => String c (repeat c n')
  end.

Definition padLeft (c : ascii) (width : nat) (s : string) : string :=
  repeat c (width - String.length s) +:+ s.

(** [q / 10^precision] in decimal, with [precision] decimals. *)
Definition fixedPoint (q : Z) (precision : nat) : string :=
  let scale := 10 ^ Z.of_nat precision in
  let whole := formatInt (q / scale) in
  match precision with
  | O => whole
  | S _ => whole +:+ "." +:+ padLeft "0"%char precision (formatInt (q mod scale))
  end.

(** [%W.Pf]: the exact value of the binary64 rounded to [P] decimals, ties to
    even, right-aligned in [W] columns. *)
Definition FormatFloat (width precision : nat) (x : float) : string :=
  let body :=
    match Prim2SF x with
    | S754_nan => "NaN"
    | S754_infinity s => if s then "-Inf" else "+Inf"
    | S754_zero s => (if s then "-" else "") +:+ fixedPoint 0 precision
    | S754_finite s m e =>
        let num := Z.pos m * 10 ^ Z.of_nat precision * 2 ^ Z.max e 0 in
        let den := 2 ^ Z.max (- e) 0 in
        let q := num / den in
        let r := num mod den in
        let rounded :=
          if (den <? 2 * r) || ((den =? 2 * r) && Z.odd q) then q + 1 else q in
        (if s then "-" else "") +:+ fixedPoint rounded precision
    end in
  padLeft " "%char width body.

(** [filepath.Join] of a clean directory and a plain file name. *)
Definition PathJoin (dir name : string) : string := dir +:+ "/" +:+ name.

Definition alphabet : string :=
  "ABCDEFGHIJKLMNOPQRSTUVWXYZabcdefghijklmnopqrstuvwxyz0123456789+/".

Definition sextet (n : Z) : ascii :=
  default "="%char (String.get (Z.to_nat n) alphabet).

Definition byteOf (c : ascii) : Z := Z.of_N (N_of_ascii c).

(** RFC 4648 base64 with padding. *)
Fixpoint Base64Encode (s : string) : string :=
  match s with
  | EmptyString => EmptyString
  | String a EmptyString =>
      let v := byteOf a * 65536 in
      String (sextet (v / 262144)) (String (sextet (v / 4096 mod 64)) "==")
  | String a (String b EmptyString) =>
      let v := byteOf a * 65536 + byteOf b * 256 in
      String (sextet (v / 262144)) (String (sextet (v / 4096 mod 64))
        (String (sextet (v / 64 mod 64)) "="))
  | String a (String b (String c s')) =>
      let v := byteOf a * 65536 + byteOf b * 256 + byteOf c in
      String (sextet (v / 262144)) (String (sextet (v / 4096 mod 64))
        (String (sextet (v / 64 mod 64)) (String (sextet (v mod 64))
          (Base64Encode s'))))
  end.

Fixpoint indexIn (c : ascii) (s : string) (i : Z) : option Z :=
  match s with
  | EmptyString => None
  | String c' s' => if Ascii.eqb c c' then Some i else indexIn c s' (i + 1)
  end.

Definition unsextet (c : ascii) : option Z := indexIn c alphabet 0.

Definition isPad (c : ascii) : bool := Ascii.eqb c "="%char.

Definition byteString (bytes : list Z) : string :=
  fold_right (fun b s => String (ascii_of_N (Z.to_N b)) s) EmptyString bytes.

Fixpoint decodeQuanta (s : string) : option string :=
  match s with
  | EmptyString => Some EmptyString
  | String a (String b (String c (String d s'))) =>
      match unsextet a, unsextet b with
      | Some x, Some y =>
          match unsextet c, unsextet d with
          | Some z, Some w =>
              let v := x * 262144 + y * 4096 + z * 64 + w in
              rest ← decodeQuanta s';
              Some (byteString [v / 65536; v / 256 mod 256; v mod 256] +:+ rest)
          | Some z, None =>
              if isPad d && String.eqb s' "" then
                let v := x * 262144 + y * 4096 + z * 64 in
                Some (byteString [v / 65536; v / 256 mod 256])
              else None
          | None, _ =>
              if isPad c && isPad d && String.eqb s' "" then
                Some (byteString [(x * 262144 + y * 4096) / 65536])
              else None
          end
      | _, _ => None
      end
  | _ => None
  end.

Fixpoint withoutNewlines (s : string) : string :=
  match s with
  | EmptyString => EmptyString
  | String c s' =>
      if Ascii.eqb c (ascii_of_N 10) || Ascii.eqb c (ascii_of_N 13)
      then withoutNewlines s'
      else String c (withoutNewlines s')
  end.

(** Padded base64; line feeds and carriage returns are skipped. *)
Definition Base64Decode (s : string) : string + string :=
  match decodeQuanta (withoutNewlines s) with
  | Some bytes => inl bytes
  | None => inr "illegal base64 data"
  end.

Definition lib : GoLib :=
  Build_GoLib ParseFloat FormatFloat PathJoin Base64Decode Base64Encode.

End Ref.

(** ** Structures and texts used in the statements *)

Definition unlines (lines : list string) : string :=
  fold_right (fun line rest => line +:+ LF +:+ rest) "" lines.

(** The two-atom carbon structure of the specification, as text. *)
Definition twoCarbonText : string :=
  unlines
    [ "data_test";
      "_cell_length_a 10.0"; "_cell_length_b 10.0"; "_cell_length_c 10.0";
      "_cell_angle_alpha 90.0"; "_cell_angle_beta 90.0"; "_cell_angle_gamma 90.0";
      "loop_";
      "_atom_site_label"; "_atom_site_type_symbol";
      "_atom_site_fract_x"; "_atom_site_fract_y"; "_atom_site_fract_z";
      "C1 C 0.0 0.0 0.0";
      "C2 C 0.5 0.5 0.0" ].

(** An atom-site loop without any data-block declaration. *)
Definition loopOnlyText : string :=
  unlines
    [ "loop_";
      "_atom_site_label"; "_atom_site_type_symbol";
      "_atom_site_fract_x"; "_atom_site_fract_y"; "_atom_site_fract_z";
      "C1 C 0.0 0.0 0.0" ].

Definition atom (label symbol : string) (x y z : float) : AtomSite :=
  {| Label := label; TypeSymbol := symbol; FractX := x; FractY := y; FractZ := z;
     UIsoOrEquiv := 0; AdpType := "" |}.

Definition cubicCell (name : string) (edge : float) (sites : list AtomSite) : CIFFile :=
  {| DataBlock :=
       {| Name := name;
          CellLength := <["_cell_length_a" := edge]>
                        (<["_cell_length_b" := edge]>
                         (<["_cell_length_c" := edge]> ∅));
          CellAngle := <["_cell_angle_alpha" := 90%float]>
                       (<["_cell_angle_beta" := 90%float]>
                        (<["_cell_angle_gamma" := 90%float]> ∅));
          AtomSites := sites; Symmetry := []; Metadata := ∅ |} |}.

(** The two-atom carbon structure of the specification, as a structure. *)
Definition twoCarbonCell : CIFFile :=
  cubicCell "test" 10
    [ atom "C1" "C" 0 0 0; atom "C2" "C" 0.5 0.5 0 ].

(** Two carbons followed by a hydrogen. *)
Definition carbonCarbonHydrogen : CIFFile :=
  cubicCell "cch" 10
    [ atom "C1" "C" 0 0 0; atom "C2" "C" 0.5 0.5 0; atom "H1" "H" 0.25 0 0 ].

(** A text has a data-block declaration when one of its lines, trimmed,
    starts with [data_]. *)
Definition hasDataBlockDeclaration (content : string) : bool :=
  existsb (fun token => HasPrefix (TrimSpace (dropCR token)) "data_")
    (splitLines content "").

(** The rows of the loop [ParseFromString] collects whose column count is
    the header count. *)
Definition wellFormedRows (headers : list string) (rows : list string) : nat :=
  length (filter (fun row => Nat.eqb (length (Fields row)) (length headers)) rows).

(** A named structure with an atom and no cell length. *)
Definition cellLess : CIFFile :=
  {| DataBlock :=
       {| Name := "test"; CellLength := ∅; CellAngle := ∅;
          AtomSites := [ atom "C1" "C" 0.5 0.5 0.5 ];
          Symmetry := []; Metadata := ∅ |} |}.

(** The Cartesian coordinates the synthesis is to give an atom site. *)
Definition scaled (a b c : float) (site : AtomSite) : list float :=
  [ FractX site * a; FractY site * b; FractZ site * c ]%float.

(** Reading a result record: a field of an object, an entry of a map of
    floats. *)
Definition objectField (v : option value) (key : string) : option value :=
  match v with
  | Some (VObject m) => m !! key
  | _ => None
  end.

Definition floatsField (v : option value) (key : string) : option float :=
  match v with
  | Some (VFloats m) => m !! key
  | _ => None
  end.

(** A server with room for one request, its files before any job, and an
    engine that writes its output and exits with success after a second. *)
Definition oneSlot : ServerConfig :=
  {| Port := 8080; WorkDir := "work"; DFTBPath := "/usr/local/bin/dftb+";
     MaxRequests := 1; Timeout := 300 |}.

Definition cleanDisk : gmap string Node :=
  <["/usr/local/bin/dftb+" := File "ELF"]> (<["work" := Dir]> ∅).

Definition engineOutput (requestID : string) (fs : gmap string Node)
  : gmap string Node :=
  <[Ref.PathJoin (Ref.PathJoin "work" requestID) "dftb_out.hsd" := File "Converged"]> fs.

Definition quietDay (date : string) (requestID : string) : Env :=
  {| today := date; rangeOrder := map_to_list; fault := fun _ _ => None;
     proc := Exits 1000000000 0; engineWrites := engineOutput requestID;
     selectTie := false |}.

(** The same day, with [range] visiting every map the other way round. *)
Definition backwardDay (date : string) (requestID : string) : Env :=
  {| today := date; rangeOrder := fun m => reverse (map_to_list m);
     fault := fun _ _ => None; proc := Exits 1000000000 0;
     engineWrites := engineOutput requestID; selectTie := false |}.

(** An engine that never exits. *)
Definition stuckEngine : Env :=
  {| today := "2026-01-01"; rangeOrder := map_to_list; fault := fun _ _ => None;
     proc := Hangs; engineWrites := fun fs => fs; selectTie := false |}.

Definition submission (requestID : string) : OptimizationRequest :=
  {| RequestID := requestID; StructureFile := Ref.Base64Encode twoCarbonText;
     Method := "GFN2-xTB"; Fmax := 0.001; OriginalFilename := "two_carbon.cif" |}.

(** The encoded structure of a run that answers with a success record. *)
Definition successPayload (run : Run) : option string :=
  match response run with
  | Ok resp =>
      if String.eqb (Status resp) "success" then Some (OutputCIFPath resp) else None
  | _ => None
  end.

Definition sameText (a b : option string) : bool :=
  match a, b with
  | Some x, Some y => String.eqb x y
  | None, None => true
  | _, _ => false
  end.

(** A submission that [optimizeStructure] lets through. *)
Definition admissible (body : OptimizationRequest) : Prop :=
  ShouldBindJSON body = Ok body /\ ValidateRequest body = Ok tt.

(** The invariant of the scan: no block holds an atom site. *)
Definition noAtoms (blk : CIFFile) : Prop := AtomSites (DataBlock blk) = [].

Definition stateWithoutAtoms (st : ParserState) : Prop :=
  noAtoms (cif st) /\ forall blk, currentDataBlock st = Some blk -> noAtoms blk.

(** ** Notions used in the further properties *)

(** A token of the scan that declares a data block, that is skipped, that
    fits the scanner's buffer. *)
Definition declares (token : string) : bool :=
  HasPrefix (TrimSpace (dropCR token)) "data_".

Definition skipped (token : string) : bool :=
  String.eqb (TrimSpace (dropCR token)) ""
  || HasPrefix (TrimSpace (dropCR token)) "#".

Definition fits (token : string) : bool := negb (tooLong token).

(** A text without line feed. *)
Definition oneLine (s : string) : bool := negb (Contains s LF).

(** A line that [ParseFromString] records as metadata when it meets it
    outside a loop: not blank, no comment, no declaration, no [loop_], with a
    space, and not starting with an underscore. *)
Definition keyValueLine (token : string) : bool :=
  let line := TrimSpace (dropCR token) in
  negb (skipped token) && negb (declares token) && negb (HasPrefix line "loop_")
  && Contains line " " && negb (HasPrefix line "_").

(** The local variables of [ParseFromString] with another [cif]. *)
Definition setCif (c : CIFFile) (st : ParserState) : ParserState :=
  {| cif := c; currentDataBlock := currentDataBlock st; inLoop := inLoop st;
     loopHeaders := loopHeaders st; loopData := loopData st |}.

(** The cell keys [ParseFromString] stores. *)
Definition cellLengthKeys : gset string :=
  {[ "_cell_length_a"; "_cell_length_b"; "_cell_length_c" ]}.

Definition cellAngleKeys : gset string :=
  {[ "_cell_angle_alpha"; "_cell_angle_beta"; "_cell_angle_gamma" ]}.

Definition recognisedCell (blk : CIFFile) : Prop :=
  dom (CellLength (DataBlock blk)) ⊆ cellLengthKeys
  /\ dom (CellAngle (DataBlock blk)) ⊆ cellAngleKeys
  /\ Symmetry (DataBlock blk) = [].

(** A property of blocks holds throughout a scan when it holds of the
    structure kept and of the block in progress. *)
Definition holdsIn (P : CIFFile -> Prop) (st : ParserState) : Prop :=
  P (cif st) /\ forall blk, currentDataBlock st = Some blk -> P blk.

(** The two kinds of record a run answers. *)
Definition errorRecord (request : OptimizationRequest) (resp : OptimizationResponse)
  : Prop :=
  Status resp = "error" /\ ResponseRequestID resp = RequestID request
  /\ ParsedData resp = ∅ /\ OutputCIFPath resp = "" /\ ErrorMessage resp <> "".

Definition successRecord (request : OptimizationRequest) (resp : OptimizationResponse)
  : Prop :=
  Status resp = "success" /\ ResponseRequestID resp = RequestID request
  /\ ParsedData resp = parsedResult /\ ErrorMessage resp = "".

(** ** [CIFParser.SaveToFile]

    [pathDir] is [filepath.Dir]. *)
Definition SaveToFile (env : Env) (pathDir : string -> string)
    (fs : gmap string Node) (content filename : string)
  : Outcome (string * gmap string Node) :=
  match MkdirAll env fs (pathDir filename) with
  | Err e => Err ("failed to create directory: " +:+ e)
  | Panic e => Panic e
  | Ok fs1 =>
      match WriteFile env fs1 filename content with
      | Err e => Err ("failed to write file: " +:+ e)
      | Panic e => Panic e
      | Ok fs2 => Ok (filename, fs2)
      end
  end.

(** [filepath.Dir] of a clean path: all but the last element, [.] for a
    plain name, the root for a name in the root. *)
Fixpoint lastSlash (s : string) (before : string) (found : option string)
  : option string :=
  match s with
  | EmptyString => found
  | String c s' =>
      lastSlash s' (before +:+ String c EmptyString)
        (if Ascii.eqb c "/"%char then Some before else found)
  end.

Definition parentDir (path : string) : string :=
  match lastSlash path "" None with
  | None => "."
  | Some EmptyString => "/"
  | Some dir => dir
  end.

(** ** [cmd/server/main.go]: [validateConfig] *)
Definition validateConfig (env : Env) (fs : gmap string Node) (config : ServerConfig)
  : Outcome unit :=
  if (Port config <=? 0) || (65535 <? Port config) then
    Err ("invalid port number: " +:+ formatInt (Port config))
  else if String.eqb (WorkDir config) "" then
    Err "working directory cannot be empty"
  else if String.eqb (DFTBPath config) "" then
    Err "DFTB+ executable path cannot be empty"
  else if MaxRequests config <=? 0 then Err "max requests must be positive"
  else if Timeout config <=? 0 then Err "timeout must be positive"
  else if IsNotExist (Stat env fs (DFTBPath config)) then
    Err ("DFTB+ executable not found at: " +:+ DFTBPath config)
  else Ok tt.

(** ** [internal/api/handlers.go]: [getStatus]

    The HTTP status written (none when the handler panics) and the
    [status] or [error] field of the body. *)
Definition getStatus `{GoLib} (env : Env) (h : APIHandler) (fs : gmap string Node)
    (requestID : string) : option Z * string :=
  if String.eqb requestID "" then (Some 400, "Request ID is required")
  else
    match GetStatus env (dftbRunner h) fs requestID with
    | Ok status => (Some 200, status)
    | Err _ => (Some 500, "Failed to get status")
    | Panic e => (None, e)
    end.

(** ** The TypeScript side: [DFTBOptimizationTool.execute] up to the request
    [GoServiceClient.optimizeStructure] posts *)

Module Tool.

(** [DFTBOptimizationRequest]; an absent property is [None]. *)
Record Params := {
  structure_file : option string;
  method : option string;
  fmax : option float;
  original_filename : option string;
}.

(** [!x] for a number: true of [0], [-0] and [NaN]. *)
Definition falsyNumber (x : float) : bool := PrimFloat.eqb x 0 || PrimFloat.is_nan x.

(** [params.method] after
    [if (!params.method || !["GFN1-xTB", "GFN2-xTB"].includes(params.method))]. *)
Definition normalMethod (m : option string) : string :=
  match m with
  | Some m =>
      if String.eqb m "" || negb (isOneOf m ["GFN1-xTB"; "GFN2-xTB"])
      then "GFN1-xTB" else m
  | None => "GFN1-xTB"
  end.

(** [params.fmax] after [if (!params.fmax || params.fmax <= 0)]. *)
Definition normalFmax (f : option float) : float :=
  match f with
  | Some x => if falsyNumber x || PrimFloat.leb x 0 then 0.1%float else x
  | None => 0.1%float
  end.

(** A number through [JSON.stringify] and the Go decoder: one that is not
    finite is written [null], which leaves the field at its zero value. *)
Definition jsonNumber (x : float) : float :=
  if PrimFloat.is_nan x || PrimFloat.is_infinity x then 0%float else x.

(** The body [GoServiceClient.optimizeStructure] posts; [requestId] is the
    value of [uuidv4()]. *)
Definition requestBody (requestId structureFile method : string) (fmax : float)
    (originalFilename : option string) : OptimizationRequest :=
  {| RequestID := requestId; StructureFile := structureFile; Method := method;
     Fmax := jsonNumber fmax; OriginalFilename := default "" originalFilename |}.

(** [execute] up to the call of the Go service: the message of the error
    thrown, or the body posted. *)
Definition execute (params : Params) (requestId : string)
  : string + OptimizationRequest :=
  match structure_file params with
  | None => inl "Structure file is required"
  | Some structureFile =>
      if String.eqb structureFile "" then inl "Structure file is required"
      else inr (requestBody requestId structureFile (normalMethod (method params))
                  (normalFmax (fmax params)) (original_filename params))
  end.

End Tool.

(** ** Further example data *)

(** A row of a loop whose type-symbol column comes before the label. *)
Definition swappedHeaders : list string :=
  ["_atom_site_type_symbol"; "_atom_site_label"; "_atom_site_fract_x"].

Definition swappedSite : AtomSite :=
  fillRow (setAtomField (H := Ref.lib)) swappedHeaders ["C"; "C1"; "0.5"] zeroAtomSite.

(** The two-carbon structure under another name, with other angles, labels,
    symmetry and metadata. *)
Definition renamedTwoCarbonCell : CIFFile :=
  {| DataBlock :=
       {| Name := "renamed";
          CellLength := CellLength (DataBlock twoCarbonCell);
          CellAngle := <["_cell_angle_gamma" := 120%float]> ∅;
          AtomSites := [ atom "first" "C" 0 0 0; atom "second" "C" 0.5 0.5 0 ];
          Symmetry := [ {| SymX := "x"; SymY := "y"; SymZ := "z" |} ];
          Metadata := <["title" := "renamed"]> ∅ |} |}.

(** A configuration whose timeout, in nanoseconds, does not fit 63 bits. *)
Definition wrappingTimeout : ServerConfig :=
  {| Port := 8080; WorkDir := "work"; DFTBPath := "/usr/local/bin/dftb+";
     MaxRequests := 1; Timeout := 9223372037 |}.

(** A submission that names a method the service does not know. *)
Definition unknownMethod : OptimizationRequest :=
  {| RequestID := "job-1"; StructureFile := Ref.Base64Encode twoCarbonText;
     Method := "PM6"; Fmax := 0.001; OriginalFilename := "" |}.

(** What a caller of the tool may pass: an unknown method, a negative
    threshold. *)
Definition carelessParams : Tool.Params :=
  {| Tool.structure_file := Some (Ref.Base64Encode twoCarbonText);
     Tool.method := Some "PM6"; Tool.fmax := Some (-1)%float;
     Tool.original_filename := None |}.

(** * Properties *)

(** ** Facts about the string functions *)

Section StringFacts.
#[local] Arguments String.append !_ _ /.

Lemma append_nil_r (s : string) : s +:+ "" = s.
Proof. induction s as [|c s IH]; simpl; [reflexivity | rewrite IH; reflexivity]. Qed.

Lemma append_assoc (a b c : string) : (a +:+ b) +:+ c = a +:+ (b +:+ c).
Proof. induction a as [|x a IH]; simpl; [reflexivity | rewrite IH; reflexivity]. Qed.

Lemma rev_append (a b : string) : rev (a +:+ b) = rev b +:+ rev a.
Proof.
  induction a as [|x a IH]; simpl.
  - rewrite append_nil_r. reflexivity.
  - rewrite IH, append_assoc. reflexivity.
Qed.

Lemma rev_involutive (s : string) : rev (rev s) = s.
Proof.
  induction s as [|x s IH]; simpl; [reflexivity|].
  rewrite rev_append, IH. reflexivity.
Qed.

Lemma HasPrefix_append (p : string) : forall a b,
  HasPrefix a p = true -> HasPrefix (a +:+ b) p = true.
Proof.
  induction p as [|x p IH]; intros a b; simpl; [reflexivity|].
  destruct a as [|y a]; simpl; [discriminate|].
  intros Hp. apply andb_prop in Hp as [Hx Ha].
  rewrite Hx, (IH a b Ha). reflexivity.
Qed.

Lemma Contains_unfold (s p : string) :
  Contains s p = HasPrefix s p || match s with
                                  | EmptyString => false
                                  | String _ s' => Contains s' p
                                  end.
Proof. destruct s; reflexivity. Qed.

Lemma Contains_append_r (p a : string) : forall b,
  Contains b p = true -> Contains (a +:+ b) p = true.
Proof.
  induction a as [|x a IH]; intros b Hb; simpl; [exact Hb|].
  rewrite (IH b Hb). apply orb_true_r.
Qed.

Lemma Contains_append_l (p a : string) : forall b,
  Contains a p = true -> Contains (a +:+ b) p = true.
Proof.
  induction a as [|x a IH]; intros b; rewrite Contains_unfold; intros Ha;
    apply orb_prop in Ha as [Ha | Ha].
  - rewrite Contains_unfold, (HasPrefix_append p "" b Ha). reflexivity.
  - discriminate.
  - rewrite Contains_unfold, (HasPrefix_append p (String x a) b Ha). reflexivity.
  - rewrite Contains_unfold. simpl. rewrite (IH b Ha). apply orb_true_r.
Qed.

(** A text holds what a piece of it holds. *)
Lemma Contains_piece (p l m r : string) :
  HasPrefix m p = true -> Contains (l +:+ m +:+ r) p = true.
Proof.
  intros Hm. apply Contains_append_r, Contains_append_l.
  rewrite Contains_unfold, Hm. reflexivity.
Qed.

Lemma trimLeftBy_suffix (width : string -> nat) (s : string) : forall skip,
  exists l, s = l +:+ trimLeftBy width s skip.
Proof.
  induction s as [|c s IH]; intros skip; simpl.
  - exists "". reflexivity.
  - destruct skip as [|k].
    + destruct (width (String c s)) as [|k].
      * exists "". reflexivity.
      * destruct (IH k) as [l Hl]. exists (String c l). simpl. rewrite <- Hl. reflexivity.
    + destruct (IH k) as [l Hl]. exists (String c l). simpl. rewrite <- Hl. reflexivity.
Qed.

Lemma TrimSpace_piece (s : string) : exists l r, s = l +:+ TrimSpace s +:+ r.
Proof.
  unfold TrimSpace.
  destruct (trimLeftBy_suffix spaceWidth s O) as [l Hl].
  set (t := trimLeftBy spaceWidth s O) in *.
  destruct (trimLeftBy_suffix spaceWidthRev (rev t) O) as [r Hr].
  set (u := trimLeftBy spaceWidthRev (rev t) O) in *.
  exists l, (rev r). rewrite <- rev_append, <- Hr, rev_involutive. exact Hl.
Qed.

Lemma dropCR_prefix (token : string) : exists r, token = dropCR token +:+ r.
Proof.
  unfold dropCR. destruct (rev token) as [|c t] eqn:Hrev.
  - exists "". rewrite append_nil_r. reflexivity.
  - destruct (Ascii.eqb c (ascii_of_N 13)).
    + exists (String c ""). rewrite <- (rev_involutive token), Hrev. reflexivity.
    + exists "". rewrite append_nil_r. reflexivity.
Qed.

Lemma splitLines_piece (s : string) : forall cur token,
  In token (splitLines s cur) -> exists l r, cur +:+ s = l +:+ token +:+ r.
Proof.
  induction s as [|c s IH]; intros cur token; cbn [splitLines].
  - unfold flush. destruct (String.eqb cur ""); simpl; [tauto|].
    intros [<- | []]. exists "", "". reflexivity.
  - destruct (Ascii.eqb c (ascii_of_N 10)); simpl.
    + intros [<- | Hin].
      * exists "", (String c s). reflexivity.
      * destruct (IH "" token Hin) as (l & r & Hlr). simpl in Hlr.
        exists (cur +:+ String c l), r.
        rewrite append_assoc. simpl. rewrite <- Hlr. reflexivity.
    + intros Hin. destruct (IH _ token Hin) as (l & r & Hlr).
      exists l, r. rewrite <- Hlr, append_assoc. reflexivity.
Qed.

(** A text in which [data_] does not occur has no data-block declaration. *)
Lemma no_data_no_declaration (content : string) :
  Contains content "data_" = false -> hasDataBlockDeclaration content = false.
Proof.
  intros Hno. unfold hasDataBlockDeclaration.
  destruct (existsb _ _) eqn:Hex; [|reflexivity].
  apply existsb_exists in Hex as (token & Hin & Hprefix).
  destruct (splitLines_piece content "" token Hin) as (l1 & r1 & H1).
  destruct (dropCR_prefix token) as (r2 & H2).
  destruct (TrimSpace_piece (dropCR token)) as (l3 & r3 & H3).
  remember (dropCR token) as cut eqn:Hcut. clear Hcut.
  remember (TrimSpace cut) as line eqn:Hline. clear Hline.
  simpl in H1. subst content token cut.
  pose proof (Contains_piece "data_" (l1 +:+ l3) line (r3 +:+ r2 +:+ r1) Hprefix)
    as Hyes.
  repeat rewrite append_assoc in Hno. repeat rewrite append_assoc in Hyes.
  congruence.
Qed.

End StringFacts.

Section ParserProperties.
Context `{GoLib}.

(** ** The parser never reaches [processLoopData] *)

Lemma updateBlock_without_atoms st f st' :
  (forall blk, noAtoms blk -> noAtoms (f blk)) ->
  stateWithoutAtoms st -> updateBlock st f = Ok st' -> stateWithoutAtoms st'.
Proof.
  intros Hf [Hcif Hcur]. unfold updateBlock.
  destruct (currentDataBlock st) as [blk|] eqn:E; [|discriminate].
  intros [= <-]. split; simpl; [assumption|].
  intros blk' [= <-]. apply Hf, Hcur. reflexivity.
Qed.

(** A trimmed line that is not skipped is not empty, so an in-loop line is a
    header or a data row: the branch that ends the loop is dead. *)
Lemma loop_end_unreachable line :
  String.eqb line "" || HasPrefix line "#" = false ->
  HasPrefix line "_" = false ->
  negb (HasPrefix line "_") && negb (String.eqb line "") = true.
Proof.
  intros Hskip Hhead. apply orb_false_elim in Hskip as [Hempty _].
  rewrite Hhead, Hempty. reflexivity.
Qed.

Lemma parseLine_without_atoms st text st' :
  stateWithoutAtoms st -> parseLine st text = Ok st' -> stateWithoutAtoms st'.
Proof.
  intros Hst. pose proof Hst as [Hcif Hcur]. unfold parseLine.
  set (line := TrimSpace text).
  destruct (String.eqb line "" || HasPrefix line "#") eqn:Hskip.
  { intros [= <-]. exact Hst. }
  destruct (HasPrefix line "data_").
  { intros [= <-]. split; simpl.
    - destruct (currentDataBlock st) as [blk|]; [apply Hcur; reflexivity | exact Hcif].
    - intros blk [= <-]. reflexivity. }
  destruct (HasPrefix line "loop_").
  { intros [= <-]. split; simpl; assumption. }
  destruct (inLoop st).
  { destruct (HasPrefix line "_") eqn:Hhead.
    { intros [= <-]. split; simpl; assumption. }
    pose proof (loop_end_unreachable line Hskip Hhead) as Hrow.
    rewrite Hhead in Hrow. rewrite Hrow.
    destruct (Nat.eqb _ _); intros [= <-]; [split; simpl; assumption | exact Hst]. }
  destruct (Contains line " " && negb (HasPrefix line "_")).
  { destruct (SplitN2 line) as [|k [|v [|? ?]]]; try (intros [= <-]; exact Hst).
    apply updateBlock_without_atoms; [|exact Hst]. intros blk Hblk. exact Hblk. }
  destruct (HasPrefix line "_"); [|intros [= <-]; exact Hst].
  destruct (SplitN2 line) as [|k [|v [|? ?]]]; try (intros [= <-]; exact Hst).
  destruct (isCellLengthKey (TrimSpace k)).
  { destruct (ParseFloat _); [|intros [= <-]; exact Hst].
    apply updateBlock_without_atoms; [|exact Hst]. intros blk Hblk. exact Hblk. }
  destruct (isCellAngleKey (TrimSpace k)); [|intros [= <-]; exact Hst].
  destruct (ParseFloat _); [|intros [= <-]; exact Hst].
  apply updateBlock_without_atoms; [|exact Hst]. intros blk Hblk. exact Hblk.
Qed.

Lemma scanLoop_without_atoms tokens : forall st st',
  stateWithoutAtoms st -> scanLoop st tokens = Ok st' -> stateWithoutAtoms st'.
Proof.
  induction tokens as [|token rest IH]; intros st st' Hst; simpl.
  - intros [= <-]. exact Hst.
  - destruct (tooLong token); [discriminate|].
    destruct (parseLine st (dropCR token)) as [st1| |] eqn:Hline; simpl;
      try discriminate.
    apply IH. eapply parseLine_without_atoms; eassumption.
Qed.

(** What [processLoopData] would do for an atom-site loop, were it called:
    one atom site per collected row. *)
Lemma processLoopData_appends_rows blk headers data :
  containsAllHeaders headers atomSiteHeaders = true ->
  containsAllHeaders headers symmetryHeaders = false ->
  exists blk', processLoopData (Some blk) headers data = Ok (Some blk')
    /\ length (AtomSites (DataBlock blk'))
       = (length (AtomSites (DataBlock blk)) + length data)%nat.
Proof.
  intros Hatom Hsym. unfold processLoopData. rewrite Hatom, Hsym.
  destruct data as [|row data]; simpl.
  - exists blk. split; [reflexivity | lia].
  - eexists. split; [reflexivity|]. simpl.
    rewrite length_app. simpl. rewrite length_map. reflexivity.
Qed.

(** C1 (as the code behaves).  Whatever the text, a structure returned by
    [ParseFromString] has no atom site: the rows of an atom-site loop are
    collected, and never turned into atom sites.  The claim would have the
    count equal the number of well-formed rows. *)
Theorem ParseFromString_returns_no_atom_site (content : string) (cif : CIFFile) :
  ParseFromString content = Ok cif -> AtomSites (DataBlock cif) = [].
Proof.
  unfold ParseFromString.
  destruct (scanLoop initialState (splitLines content "")) as [st| |] eqn:Hscan;
    try discriminate.
  assert (Hst : stateWithoutAtoms st).
  { eapply scanLoop_without_atoms; [|exact Hscan].
    split; [reflexivity | intros blk; discriminate]. }
  destruct Hst as [Hcif Hcur].
  intros [= <-]. destruct (currentDataBlock st) as [blk|].
  - apply Hcur. reflexivity.
  - exact Hcif.
Qed.

(** ** Texts without a data-block declaration *)

Lemma parseLine_without_declaration st text st' :
  HasPrefix (TrimSpace text) "data_" = false ->
  currentDataBlock st = None ->
  parseLine st text = Ok st' ->
  currentDataBlock st' = None /\ cif st' = cif st.
Proof.
  intros Hdecl Hnil. unfold parseLine, updateBlock. rewrite Hdecl, Hnil.
  set (line := TrimSpace text).
  destruct (String.eqb line "" || HasPrefix line "#") eqn:Hskip.
  { intros [= <-]. auto. }
  destruct (HasPrefix line "loop_").
  { intros [= <-]. auto. }
  destruct (inLoop st).
  { destruct (HasPrefix line "_") eqn:Hhead.
    { intros [= <-]. auto. }
    pose proof (loop_end_unreachable line Hskip Hhead) as Hrow.
    rewrite Hhead in Hrow. rewrite Hrow.
    destruct (Nat.eqb _ _); intros [= <-]; auto. }
  destruct (Contains line " " && negb (HasPrefix line "_")).
  { destruct (SplitN2 line) as [|k [|v [|? ?]]]; try discriminate;
      intros [= <-]; auto. }
  destruct (HasPrefix line "_"); [|intros [= <-]; auto].
  destruct (SplitN2 line) as [|k [|v [|? ?]]]; try (intros [= <-]; auto).
  destruct (isCellLengthKey (TrimSpace k)).
  { destruct (ParseFloat _); [discriminate | intros [= <-]; auto]. }
  destruct (isCellAngleKey (TrimSpace k)); [|intros [= <-]; auto].
  destruct (ParseFloat _); [discriminate | intros [= <-]; auto].
Qed.

Lemma scanLoop_without_declaration tokens : forall st st',
  existsb (fun token => HasPrefix (TrimSpace (dropCR token)) "data_") tokens = false ->
  currentDataBlock st = None ->
  scanLoop st tokens = Ok st' ->
  currentDataBlock st' = None /\ cif st' = cif st.
Proof.
  induction tokens as [|token rest IH]; intros st st' Hdecl Hnil; simpl.
  - intros [= <-]. auto.
  - simpl in Hdecl. apply orb_false_elim in Hdecl as [Hone Hrest].
    destruct (tooLong token); [discriminate|].
    destruct (parseLine st (dropCR token)) as [st1| |] eqn:Hline; simpl;
      try discriminate.
    destruct (parseLine_without_declaration _ _ _ Hone Hnil Hline) as [Hnil1 Hcif1].
    intros Hscan. destruct (IH _ _ Hrest Hnil1 Hscan) as [Hnil' Hcif'].
    split; [exact Hnil' | congruence].
Qed.

Lemma appendRows_no_error {R : Type} zero set get put headers data blk e :
  @appendRows R zero set get put headers data blk <> Err e.
Proof. unfold appendRows. destruct data, blk; discriminate. Qed.

Lemma processLoopData_no_error blk headers data e :
  processLoopData blk headers data <> Err e.
Proof.
  unfold processLoopData, mbind, Outcome_bind, bindO.
  destruct (containsAllHeaders headers atomSiteHeaders);
    [destruct (appendRows _ _ _ _ _ _ _) eqn:E;
       [| exfalso; exact (appendRows_no_error _ _ _ _ _ _ _ _ E) | discriminate] |];
    (destruct (containsAllHeaders headers symmetryHeaders);
       [apply appendRows_no_error | discriminate]).
Qed.

Lemma parseLine_no_error st text e : parseLine st text <> Err e.
Proof.
  unfold parseLine, updateBlock.
  repeat first
    [ discriminate
    | match goal with
      | |- (processLoopData ?b ?h ?d ≫= _) <> _ =>
          pose proof (processLoopData_no_error b h d e);
          unfold mbind, Outcome_bind, bindO;
          destruct (processLoopData b h d); [discriminate | congruence | discriminate]
      end
    | case_match ].
Qed.

Lemma scanLoop_error tokens : forall st e,
  scanLoop st tokens = Err e -> e = ErrTooLong.
Proof.
  induction tokens as [|token rest IH]; intros st e; simpl; [discriminate|].
  destruct (tooLong token); [intros [= <-]; reflexivity|].
  destruct (parseLine st (dropCR token)) as [st1| |] eqn:Hline; simpl.
  - apply IH.
  - exfalso. exact (parseLine_no_error _ _ _ Hline).
  - discriminate.
Qed.

(** C8 (amended).  A text in which [data_] does not occur (it has, then, no
    data-block declaration) fails the pre-flight validation with the error
    "missing data block declaration".  [ParseFromString] makes no such
    check: on a text without a data-block declaration it returns, when it
    returns a structure, the empty one, which [ToDFTBInput] rejects; and the
    only error it ever reports is the scanner's. *)
Theorem missing_declaration_is_reported_by_validation :
  (forall content, Contains content "data_" = false ->
     ValidateCIFContent content = Err "missing data block declaration"
     /\ hasDataBlockDeclaration content = false)
  /\ (forall content cif method fmax, hasDataBlockDeclaration content = false ->
        ParseFromString content = Ok cif ->
        cif = zeroCIF
        /\ ToDFTBInput (Some cif) method fmax = Err "invalid CIF file")
  /\ (forall content e, ParseFromString content = Err e ->
        e = "error reading CIF content: " +:+ ErrTooLong).
Proof.
  split; [|split].
  - intros content Hno. split; [|apply no_data_no_declaration; exact Hno].
    unfold ValidateCIFContent. rewrite Hno. reflexivity.
  - intros content cif method fmax Hdecl. unfold ParseFromString.
    destruct (scanLoop initialState (splitLines content "")) as [st| |] eqn:Hscan;
      try discriminate.
    destruct (scanLoop_without_declaration _ initialState st Hdecl eq_refl Hscan)
      as [Hnil Hcif].
    rewrite Hnil, Hcif. intros [= <-]. split; reflexivity.
  - intros content e. unfold ParseFromString.
    destruct (scanLoop initialState (splitLines content "")) as [st| |] eqn:Hscan;
      try discriminate.
    intros [= <-]. rewrite (scanLoop_error _ _ _ Hscan). reflexivity.
Qed.

End ParserProperties.

(** ** Engine-input synthesis *)

Lemma extractAtoms_coordinates a b c sites : forall elementMap elements coordinates,
  snd (extractAtoms a b c sites elementMap elements coordinates)
  = coordinates ++ map (scaled a b c) sites.
Proof.
  induction sites as [|site sites IH]; intros elementMap elements coordinates; simpl.
  - rewrite app_nil_r. reflexivity.
  - rewrite IH, <- app_assoc. reflexivity.
Qed.

Lemma lookup_map_scaled a b c (sites : list AtomSite) : forall i site,
  sites !! i = Some site -> map (scaled a b c) sites !! i = Some (scaled a b c site).
Proof.
  induction sites as [|s sites IH]; intros [|i] site; simpl; try discriminate.
  - intros [= <-]. reflexivity.
  - apply IH.
Qed.

(** The coordinates of a synthesized input, one per atom site, in order. *)
Lemma ToDFTBInput_coordinates (cif : CIFFile) (method : string) (fmax : float) :
  Name (DataBlock cif) <> "" ->
  exists input,
    ToDFTBInput (Some cif) method fmax = Ok input
    /\ Geometry_Coordinates input
       = map (scaled (cellValue (CellLength (DataBlock cif)) "_cell_length_a")
                     (cellValue (CellLength (DataBlock cif)) "_cell_length_b")
                     (cellValue (CellLength (DataBlock cif)) "_cell_length_c"))
             (AtomSites (DataBlock cif))
    /\ Geometry_LatticeVectors input
       = [ [cellValue (CellLength (DataBlock cif)) "_cell_length_a"; 0; 0];
           [0; cellValue (CellLength (DataBlock cif)) "_cell_length_b"; 0];
           [0; 0; cellValue (CellLength (DataBlock cif)) "_cell_length_c"] ]%float
    /\ Hamiltonian_Method input = method /\ Options_Fmax input = fmax.
Proof.
  intros Hname. unfold ToDFTBInput.
  destruct (String.eqb (Name (DataBlock cif)) "") eqn:E.
  { apply String.eqb_eq in E. contradiction. }
  match goal with
  | |- context [extractAtoms ?a ?b ?c ?s ?m ?e ?k] =>
      pose proof (extractAtoms_coordinates a b c s m e k) as Hcoords;
      destruct (extractAtoms a b c s m e k) as [elements coordinates]
  end.
  simpl in Hcoords. subst coordinates.
  eexists. split; [reflexivity|]. simpl. auto.
Qed.

(** C9 (amended).  [ToDFTBInput] fails, with "invalid CIF file", when the
    structure is nil or has no name.  It makes no check of the cell lengths:
    every named structure gives an engine input, whose lattice has on its
    diagonal the three lengths, each read as 0 when absent. *)
Theorem ToDFTBInput_rejects_unnamed_only
    (cif : option CIFFile) (method : string) (fmax : float) :
  ((cif = None \/ exists c, cif = Some c /\ Name (DataBlock c) = "") ->
     ToDFTBInput cif method fmax = Err "invalid CIF file")
  /\ (forall c, cif = Some c -> Name (DataBlock c) <> "" ->
        exists input,
          ToDFTBInput cif method fmax = Ok input
          /\ Geometry_LatticeVectors input
             = [ [default 0%float (CellLength (DataBlock c) !! "_cell_length_a"); 0; 0];
                 [0; default 0%float (CellLength (DataBlock c) !! "_cell_length_b"); 0];
                 [0; 0; default 0%float (CellLength (DataBlock c) !! "_cell_length_c")]
               ]%float).
Proof.
  split.
  - intros [-> | (c & -> & Hname)]; [reflexivity|].
    unfold ToDFTBInput. rewrite Hname. reflexivity.
  - intros c -> Hname.
    destruct (ToDFTBInput_coordinates c method fmax Hname)
      as (input & Hok & _ & Hlattice & _).
    exists input. split; [exact Hok | exact Hlattice].
Qed.

(** C10.  For a structure with cell lengths [a], [b], [c] and right angles,
    the synthesis succeeds and its [i]-th Cartesian coordinate is the
    [i]-th atom site's fractional coordinate scaled by [(a, b, c)]
    component-wise; the cell of edge 10 with atoms at (0,0,0) and
    (0.5,0.5,0) gives (0,0,0) and (5,5,0). *)
Theorem ToDFTBInput_scales_fractional_coordinates :
  (forall (cif : CIFFile) (method : string) (fmax a b c : float),
     Name (DataBlock cif) <> "" ->
     CellLength (DataBlock cif) !! "_cell_length_a" = Some a ->
     CellLength (DataBlock cif) !! "_cell_length_b" = Some b ->
     CellLength (DataBlock cif) !! "_cell_length_c" = Some c ->
     CellAngle (DataBlock cif) !! "_cell_angle_alpha" = Some 90%float ->
     CellAngle (DataBlock cif) !! "_cell_angle_beta" = Some 90%float ->
     CellAngle (DataBlock cif) !! "_cell_angle_gamma" = Some 90%float ->
     exists input,
       ToDFTBInput (Some cif) method fmax = Ok input
       /\ length (Geometry_Coordinates input) = length (AtomSites (DataBlock cif))
       /\ forall i site, AtomSites (DataBlock cif) !! i = Some site ->
            Geometry_Coordinates input !! i
            = Some [ FractX site * a; FractY site * b; FractZ site * c ]%float)
  /\ (exists input,
        ToDFTBInput (Some twoCarbonCell) "GFN2-xTB" 0.001 = Ok input
        /\ Geometry_Coordinates input = [ [0; 0; 0]; [5; 5; 0] ]%float).
Proof.
  split.
  - intros cif method fmax a b c Hname Ha Hb Hc _ _ _.
    destruct (ToDFTBInput_coordinates cif method fmax Hname)
      as (input & Hok & Hcoords & _).
    unfold cellValue in Hcoords. rewrite Ha, Hb, Hc in Hcoords. simpl in Hcoords.
    exists input. split; [exact Hok|]. rewrite Hcoords. split.
    + apply length_map.
    + intros i site Hsite. apply (lookup_map_scaled a b c _ _ _ Hsite).
  - eexists. split; vm_compute; reflexivity.
Qed.

Section RunnerProperties.
Context `{GoLib}.

(** C4 (on the structure with sites C, C, H).  The synthesis keeps the
    order: coordinate 1 is the second carbon's.  The geometry file does
    not: its coordinate line 1 (after the two header lines) carries the
    symbol H, taken from the element list at index [1 mod 2]. *)
Theorem geometry_line_of_second_carbon_names_hydrogen :
  exists input lines line site,
    ToDFTBInput (Some carbonCarbonHydrogen) "GFN2-xTB" 0.001 = Ok input
    /\ AtomSites (DataBlock carbonCarbonHydrogen) !! 1%nat = Some site
    /\ TypeSymbol site = "C"
    /\ Geometry_Coordinates input !! 1%nat = Some (scaled 10 10 10 site)
    /\ lineElement (Geometry_Elements input) 1 = Ok "H"
    /\ geometryLines input = Ok lines
    /\ lines !! 3%nat = Some line
    /\ HasPrefix line "H " = true.
Proof.
  eexists _, _, _, _. split; [vm_compute; reflexivity|].
  split; [reflexivity|]. split; [reflexivity|].
  split; [vm_compute; reflexivity|]. split; [reflexivity|].
  split; [reflexivity|]. split; [reflexivity | vm_compute; reflexivity].
Qed.

(** ** Output interpretation *)

(** C5.  Whenever the artifact can be read, [parseDFTBOutput] returns one
    and the same record, whatever the file holds: status "converged" and
    "completed", SCC converged, total energy -100.0 eV and -3.6749 hartree,
    Fermi level -5.0 eV, no charge, no dipole.  Two interpretations, of the
    same artifact or of different ones, give identical records. *)
Theorem parseDFTBOutput_returns_fixed_record
    (env env' : Env) (fs fs' : gmap string Node)
    (outputPath outputPath' content content' : string) :
  ReadFile env fs outputPath = Ok content ->
  ReadFile env' fs' outputPath' = Ok content' ->
  parseDFTBOutput env fs outputPath = Ok parsedResult
  /\ parseDFTBOutput env' fs' outputPath' = parseDFTBOutput env fs outputPath
  /\ objectField (parsedResult !! "summary") "convergence_status"
     = Some (VString "converged")
  /\ objectField (parsedResult !! "summary") "calculation_status"
     = Some (VString "completed")
  /\ objectField (parsedResult !! "convergence_info") "scc_converged"
     = Some (VBool true)
  /\ floatsField (parsedResult !! "energies_eV") "total" = Some (-100.0)%float
  /\ floatsField (parsedResult !! "energies_hartree") "total" = Some (-3.6749)%float
  /\ objectField (parsedResult !! "electronic_properties") "fermi_level_eV"
     = Some (VFloat (-5.0)%float)
  /\ objectField (parsedResult !! "electronic_properties") "total_charge"
     = Some (VFloat 0%float)
  /\ objectField (parsedResult !! "electronic_properties") "dipole_moment_debye"
     = Some (VFloats (<["x" := 0%float]> (<["y" := 0%float]> (<["z" := 0%float]> ∅)))).
Proof.
  intros Hread Hread'. unfold parseDFTBOutput. rewrite Hread, Hread'.
  repeat split; vm_compute; reflexivity.
Qed.

(** ** Process supervision *)

Ltac race :=
  repeat match goal with
    | |- context [Z.ltb ?a ?b] => destruct (Z.ltb_spec a b)
    | H : context [Z.ltb ?a ?b] |- _ => destruct (Z.ltb_spec a b)
    end.

Lemma wrap64_small z : - 2 ^ 63 <= z < 2 ^ 63 -> wrap64 z = z.
Proof.
  intros Hz. unfold wrap64.
  change (2 ^ 64) with (2 * 2 ^ 63). rewrite Z.mod_small; lia.
Qed.

Lemma timeoutDuration_seconds (config : ServerConfig) :
  0 <= Timeout config <= 9223372036 ->
  Z.max 0 (timeoutDuration config) = Timeout config * Second.
Proof.
  intros Hrange. unfold timeoutDuration, Second.
  rewrite wrap64_small; change (2 ^ 63) with 9223372036854775808; lia.
Qed.


(** ** Job status *)

(** C7.  [GetStatus] answers one of not_found, running, completed, error,
    and reads nothing but three artifacts, as [os.Stat] shows them:
    not_found exactly when the job directory is absent; running exactly
    when the directory is there and [dftb_out.hsd] is absent; with the
    output there, error when [error.log] is there and completed when it is
    absent.  Two file systems that agree on the three artifacts give the
    same status: no other state enters. *)
Theorem GetStatus_reads_three_artifacts
    (env : Env) (r : DFTBRunner) (fs : gmap string Node) (requestID : string) :
  let requestDir := PathJoin (workDir r) requestID in
  let outputPath := PathJoin requestDir "dftb_out.hsd" in
  let errorPath := PathJoin requestDir "error.log" in
  let absent path := IsNotExist (Stat env fs path) in
  (exists status, GetStatus env r fs requestID = Ok status
                  /\ In status ["not_found"; "running"; "completed"; "error"])
  /\ (GetStatus env r fs requestID = Ok "not_found" <-> absent requestDir = true)
  /\ (GetStatus env r fs requestID = Ok "running"
      <-> absent requestDir = false /\ absent outputPath = true)
  /\ (GetStatus env r fs requestID = Ok "error"
      <-> absent requestDir = false /\ absent outputPath = false
          /\ absent errorPath = false)
  /\ (GetStatus env r fs requestID = Ok "completed"
      <-> absent requestDir = false /\ absent outputPath = false
          /\ absent errorPath = true)
  /\ (forall (env' : Env) (fs' : gmap string Node),
        Stat env' fs' requestDir = Stat env fs requestDir ->
        Stat env' fs' outputPath = Stat env fs outputPath ->
        Stat env' fs' errorPath = Stat env fs errorPath ->
        GetStatus env' r fs' requestID = GetStatus env r fs requestID).
Proof.
  intros requestDir outputPath errorPath absent.
  subst absent. unfold GetStatus. fold requestDir. fold outputPath. fold errorPath.
  split; [|split; [|split; [|split; [|split]]]].
  - destruct (IsNotExist (Stat env fs requestDir));
      [|destruct (IsNotExist (Stat env fs outputPath));
         [|destruct (IsNotExist (Stat env fs errorPath))]];
      eexists; (split; [reflexivity | simpl; tauto]).
  - destruct (IsNotExist (Stat env fs requestDir));
      [|destruct (IsNotExist (Stat env fs outputPath));
         [|destruct (IsNotExist (Stat env fs errorPath))]];
      simpl; split; intros; try discriminate; reflexivity.
  - destruct (IsNotExist (Stat env fs requestDir));
      [|destruct (IsNotExist (Stat env fs outputPath));
         [|destruct (IsNotExist (Stat env fs errorPath))]];
      simpl; split; try (intros [? ?]); intros; try discriminate; auto.
  - destruct (IsNotExist (Stat env fs requestDir));
      [|destruct (IsNotExist (Stat env fs outputPath));
         [|destruct (IsNotExist (Stat env fs errorPath))]];
      simpl; split; try (intros (? & ? & ?)); intros; try discriminate; auto.
  - destruct (IsNotExist (Stat env fs requestDir));
      [|destruct (IsNotExist (Stat env fs outputPath));
         [|destruct (IsNotExist (Stat env fs errorPath))]];
      simpl; split; try (intros (? & ? & ?)); intros; try discriminate; auto.
  - intros env' fs' Hdir Hout Herr. rewrite Hdir, Hout, Herr. reflexivity.
Qed.

(** ** Whole runs *)

Lemma read_after_write (env : Env) (fs fs' : gmap string Node) (path content : string) :
  WriteFile env fs path content = Ok fs' -> ReadFile env fs' path = Ok content.
Proof.
  unfold WriteFile, ReadFile. destruct (fault env "open" path); [discriminate|].
  destruct (fs !! path) as [[c|]|]; try discriminate;
    intros [= <-]; rewrite lookup_insert_eq; reflexivity.
Qed.

(** After a case split on one step of a run: the branches that panic, fail
    or answer with an error record are no success. *)
Ltac run_step :=
  cbn [response]; try discriminate; try (intros [= <-]; discriminate).

(** A success record carries the fixed result and the encoded text written
    for the parsed structure. *)
Lemma finishOptimization_success (env : Env) fs request requestDir cif outputPath resp :
  response (finishOptimization env fs request requestDir cif outputPath) = Ok resp ->
  Status resp = "success" ->
  ParsedData resp = parsedResult
  /\ OutputCIFPath resp = Base64Encode (optimizedCIFContent env cif).
Proof.
  unfold finishOptimization, parseDFTBOutput, generateOptimizedCIF, ReadFromFile,
    errorRun, createErrorResponse.
  destruct (ReadFile env fs outputPath); simpl;
    try discriminate; try (intros [= <-]; discriminate).
  destruct (WriteFile env fs _ _) as [fs'| |] eqn:Hwrite; simpl;
    try discriminate; try (intros [= <-]; discriminate).
  rewrite (read_after_write _ _ _ _ _ Hwrite). simpl.
  intros [= <-] _. split; reflexivity.
Qed.

Lemma RunOptimization_success (env : Env) r fs request resp :
  response (RunOptimization env r fs request) = Ok resp ->
  Status resp = "success" ->
  exists cif,
    ParseFromBase64 (StructureFile request) = Ok cif
    /\ ParsedData resp = parsedResult
    /\ OutputCIFPath resp = Base64Encode (optimizedCIFContent env cif).
Proof.
  unfold RunOptimization, errorRun, createErrorResponse.
  set (requestDir := PathJoin (workDir r) (RequestID request)).
  destruct (MkdirAll env fs requestDir) as [fs1| |]; run_step.
  destruct (ParseFromBase64 (StructureFile request)) as [cif| |]; run_step.
  destruct (ToDFTBInput (Some cif) (Method request) (Fmax request))
    as [dftbInput| |]; run_step.
  destruct (generateInputFiles env fs1 requestDir dftbInput) as [fs2| |]; run_step.
  destruct (outcome (runDFTBCalculation env r fs2 requestDir (RequestID request)));
    run_step.
  intros Hresp Hstatus. exists cif. split; [reflexivity|].
  eapply finishOptimization_success; eassumption.
Qed.

(** C3 (amended).  Two successful runs on the same structure content,
    method and threshold -- whatever their request identifiers, files,
    engines and failures -- carry the same parsed data; they carry the same
    encoded structure when they run on the same date and [range] visits
    the two cell maps of the structure in the same order.  The text holds
    the creation date. *)
Theorem RunOptimization_success_records_agree
    (env1 env2 : Env) (r1 r2 : DFTBRunner) (fs1 fs2 : gmap string Node)
    (request1 request2 : OptimizationRequest) (resp1 resp2 : OptimizationResponse) :
  StructureFile request1 = StructureFile request2 ->
  Method request1 = Method request2 ->
  Fmax request1 = Fmax request2 ->
  response (RunOptimization env1 r1 fs1 request1) = Ok resp1 ->
  Status resp1 = "success" ->
  response (RunOptimization env2 r2 fs2 request2) = Ok resp2 ->
  Status resp2 = "success" ->
  ParsedData resp1 = ParsedData resp2
  /\ (today env1 = today env2 ->
      (forall cif, ParseFromBase64 (StructureFile request1) = Ok cif ->
         rangeOrder env1 (CellLength (DataBlock cif))
         = rangeOrder env2 (CellLength (DataBlock cif))
         /\ rangeOrder env1 (CellAngle (DataBlock cif))
            = rangeOrder env2 (CellAngle (DataBlock cif))) ->
      OutputCIFPath resp1 = OutputCIFPath resp2).
Proof.
  intros Hfile _ _ Hrun1 Hok1 Hrun2 Hok2.
  destruct (RunOptimization_success _ _ _ _ _ Hrun1 Hok1) as (cif1 & Hcif1 & Hdata1 & Hout1).
  destruct (RunOptimization_success _ _ _ _ _ Hrun2 Hok2) as (cif2 & Hcif2 & Hdata2 & Hout2).
  pose proof Hcif1 as Hsame. rewrite Hfile, Hcif2 in Hsame. injection Hsame as <-.
  split; [congruence|].
  intros Hdate Horder. destruct (Horder _ Hcif1) as [Hlength Hangle].
  rewrite Hout1, Hout2. f_equal.
  unfold optimizedCIFContent. rewrite Hdate, Hlength, Hangle. reflexivity.
Qed.

End RunnerProperties.

(** ** Admission *)

Lemma serve_admissible (h : APIHandler) (running : list OptimizationRequest)
    (body : OptimizationRequest) (uuid : string) :
  admissible body -> serve h running (Submit body uuid) = body :: running.
Proof.
  intros [Hbind Hvalid]. unfold serve, accept. rewrite Hbind.
  assert (Hid : String.eqb (RequestID body) "" = false).
  { revert Hbind. unfold ShouldBindJSON, bindingErrors.
    destruct (String.eqb (RequestID body) ""); [discriminate | reflexivity]. }
  rewrite Hid, Hvalid. reflexivity.
Qed.

Lemma serve_all_admissible (h : APIHandler) (bodies : list OptimizationRequest) :
  forall running,
    Forall admissible bodies ->
    length (fold_left (serve h) (map (fun body => Submit body "") bodies) running)
    = (length running + length bodies)%nat.
Proof.
  induction bodies as [|body bodies IH]; intros running Hall;
    cbn [map fold_left length].
  - lia.
  - inversion Hall as [|? ? Hbody Hrest]; subst.
    rewrite (serve_admissible h running body "" Hbody), (IH _ Hrest).
    cbn [length]. lia.
Qed.

(** C2 (as the code behaves).  Every submission that passes binding and
    validation enters [RunOptimization] at once, whatever [MaxRequests] is
    and however many requests are running: after [n] such submissions, none
    of which has returned, [n] optimizations run.  The claim would have the
    submissions beyond [MaxRequests] rejected. *)
Theorem every_admissible_submission_runs
    (h : APIHandler) (bodies : list OptimizationRequest) :
  Forall admissible bodies ->
  length (serveAll h (map (fun body => Submit body "") bodies)) = length bodies.
Proof.
  intros Hall. unfold serveAll. rewrite (serve_all_admissible h bodies [] Hall).
  reflexivity.
Qed.

(** * The statements at concrete inputs *)

(** C1, at the two-carbon text of the specification: its atom-site loop has
    two rows with as many columns as headers; the scan ends inside the loop
    with the two rows collected, and the structure returned has the name
    and no atom site. *)
Lemma two_carbon_text_parses_without_atom_site :
  wellFormedRows atomSiteHeaders ["C1 C 0.0 0.0 0.0"; "C2 C 0.5 0.5 0.0"] = 2%nat
  /\ (exists st,
        scanLoop (H := Ref.lib) initialState (splitLines twoCarbonText "") = Ok st
        /\ inLoop st = true /\ length (loopData st) = 2%nat)
  /\ exists cif,
       ParseFromString (H := Ref.lib) twoCarbonText = Ok cif
       /\ Name (DataBlock cif) = "test"
       /\ AtomSites (DataBlock cif) = [].
Proof.
  split; [reflexivity|]. split.
  - eexists. split; [vm_compute; reflexivity|]. split; reflexivity.
  - eexists. split; [vm_compute; reflexivity|]. split; [reflexivity|].
    apply (@ParseFromString_returns_no_atom_site Ref.lib twoCarbonText).
    vm_compute. reflexivity.
Defined.

(** C8, against the claim: a text without data-block declaration is parsed,
    and the empty structure is returned. *)
Lemma text_without_declaration_is_parsed :
  hasDataBlockDeclaration loopOnlyText = false
  /\ ParseFromString (H := Ref.lib) loopOnlyText = Ok zeroCIF.
Proof. split; vm_compute; reflexivity. Qed.

(** C8 (amended), at the same text. *)
Lemma text_without_declaration_fails_validation :
  ValidateCIFContent loopOnlyText = Err "missing data block declaration"
  /\ exists cif,
       ParseFromString (H := Ref.lib) loopOnlyText = Ok cif
       /\ cif = zeroCIF
       /\ ToDFTBInput (Some cif) "GFN2-xTB" 0.001 = Err "invalid CIF file".
Proof.
  destruct (@missing_declaration_is_reported_by_validation Ref.lib)
    as (Hvalidate & Hparse & _).
  split.
  - apply Hvalidate. vm_compute. reflexivity.
  - eexists. split; [vm_compute; reflexivity|].
    apply (Hparse loopOnlyText); vm_compute; reflexivity.
Defined.

(** C9, against the claim: a named structure without cell lengths is
    synthesized, its atom placed at the origin. *)
Lemma structure_without_cell_is_synthesized :
  Name (DataBlock cellLess) <> ""
  /\ CellLength (DataBlock cellLess) = ∅
  /\ exists input,
       ToDFTBInput (Some cellLess) "GFN2-xTB" 0.001 = Ok input
       /\ Geometry_Coordinates input = [ [0; 0; 0] ]%float.
Proof.
  split; [discriminate|]. split; [reflexivity|].
  eexists. split; vm_compute; reflexivity.
Qed.

(** C9 (amended), at the nil structure and at the structure without cell. *)
Lemma unnamed_is_rejected_and_cell_less_accepted :
  ToDFTBInput None "GFN2-xTB" 0.001 = Err "invalid CIF file"
  /\ exists input,
       ToDFTBInput (Some cellLess) "GFN2-xTB" 0.001 = Ok input
       /\ Geometry_LatticeVectors input = [ [0; 0; 0]; [0; 0; 0]; [0; 0; 0] ]%float.
Proof.
  split.
  - apply (ToDFTBInput_rejects_unnamed_only None). left. reflexivity.
  - destruct (ToDFTBInput_rejects_unnamed_only (Some cellLess) "GFN2-xTB" 0.001)
      as [_ Haccept].
    apply (Haccept cellLess); [reflexivity | discriminate].
Defined.

(** C10, at the structure with sites C, C, H in the cell of edge 10. *)
Lemma third_site_is_scaled :
  exists input,
    ToDFTBInput (Some carbonCarbonHydrogen) "GFN1-xTB" 0.01 = Ok input
    /\ length (Geometry_Coordinates input) = 3%nat
    /\ Geometry_Coordinates input !! 2%nat = Some [ 2.5; 0; 0 ]%float.
Proof.
  destruct ToDFTBInput_scales_fractional_coordinates as [Hscale _].
  destruct (Hscale carbonCarbonHydrogen "GFN1-xTB" 0.01%float 10%float 10%float 10%float)
    as (input & Hok & Hlen & Hsite); try (vm_compute; reflexivity); [discriminate|].
  exists input. split; [exact Hok|]. split; [exact Hlen|].
  apply (Hsite 2%nat (atom "H1" "H" 0.25 0 0)). reflexivity.
Defined.

(** C5, at the artifact an engine run leaves. *)
Lemma engine_output_is_interpreted :
  parseDFTBOutput (quietDay "2026-01-01" "job-1")
    (engineOutput "job-1" cleanDisk) "work/job-1/dftb_out.hsd"
  = Ok parsedResult
  /\ floatsField (parsedResult !! "energies_eV") "total" = Some (-100.0)%float.
Proof.
  destruct (parseDFTBOutput_returns_fixed_record
              (quietDay "2026-01-01" "job-1") (quietDay "2026-01-02" "job-2")
              (engineOutput "job-1" cleanDisk) (engineOutput "job-2" cleanDisk)
              "work/job-1/dftb_out.hsd" "work/job-2/dftb_out.hsd"
              "Converged" "Converged")
    as (Hrecord & _ & _ & _ & _ & Henergy & _); try (vm_compute; reflexivity).
  split; [exact Hrecord | exact Henergy].
Defined.


(** C7, at the scenario of the specification: no directory, then the
    directory, then the output artifact. *)
Lemma status_follows_the_artifacts :
  GetStatus (H := Ref.lib) stuckEngine (NewDFTBRunner oneSlot) cleanDisk "job-1"
  = Ok "not_found"
  /\ GetStatus (H := Ref.lib) stuckEngine (NewDFTBRunner oneSlot)
       (<["work/job-1" := Dir]> cleanDisk) "job-1"
     = Ok "running"
  /\ GetStatus (H := Ref.lib) stuckEngine (NewDFTBRunner oneSlot)
       (engineOutput "job-1" (<["work/job-1" := Dir]> cleanDisk)) "job-1"
     = Ok "completed".
Proof.
  split; [|split].
  - apply (@GetStatus_reads_three_artifacts Ref.lib). vm_compute. reflexivity.
  - apply (@GetStatus_reads_three_artifacts Ref.lib). split; vm_compute; reflexivity.
  - apply (@GetStatus_reads_three_artifacts Ref.lib).
    split; [|split]; vm_compute; reflexivity.
Defined.

Lemma sameText_refl (a : option string) : sameText a a = true.
Proof. destruct a; [apply String.eqb_refl | reflexivity]. Qed.

Lemma quietDay_rangeOrderValid (date requestID : string) :
  rangeOrderValid (quietDay date requestID).
Proof. intros m. reflexivity. Qed.

(** C3, against the claim: the same submission, run with success on two
    consecutive days, gives two different encoded structures. *)
Lemma success_payload_changes_with_the_date :
  is_Some (successPayload
             (RunOptimization (H := Ref.lib) (quietDay "2026-01-01" "job-1")
                (NewDFTBRunner oneSlot) cleanDisk (submission "job-1")))
  /\ is_Some (successPayload
                (RunOptimization (H := Ref.lib) (quietDay "2026-01-02" "job-1")
                   (NewDFTBRunner oneSlot) cleanDisk (submission "job-1")))
  /\ successPayload
       (RunOptimization (H := Ref.lib) (quietDay "2026-01-01" "job-1")
          (NewDFTBRunner oneSlot) cleanDisk (submission "job-1"))
     <> successPayload
          (RunOptimization (H := Ref.lib) (quietDay "2026-01-02" "job-1")
             (NewDFTBRunner oneSlot) cleanDisk (submission "job-1")).
Proof.
  split; [eexists; vm_compute; reflexivity|].
  split; [eexists; vm_compute; reflexivity|].
  assert (Hdiffer : sameText
            (successPayload
               (RunOptimization (H := Ref.lib) (quietDay "2026-01-01" "job-1")
                  (NewDFTBRunner oneSlot) cleanDisk (submission "job-1")))
            (successPayload
               (RunOptimization (H := Ref.lib) (quietDay "2026-01-02" "job-1")
                  (NewDFTBRunner oneSlot) cleanDisk (submission "job-1")))
          = false) by (vm_compute; reflexivity).
  intros Heq. rewrite Heq, sameText_refl in Hdiffer. discriminate Hdiffer.
Qed.

Lemma backwardDay_rangeOrderValid (date requestID : string) :
  rangeOrderValid (backwardDay date requestID).
Proof. intros m. apply reverse_Permutation. Qed.

(** The order of [range] shows in the encoded structure as well: the same
    submission on the same day, the three cell lengths visited in two
    different orders. *)
Lemma success_payload_changes_with_the_range_order :
  is_Some (successPayload
             (RunOptimization (H := Ref.lib) (backwardDay "2026-01-01" "job-1")
                (NewDFTBRunner oneSlot) cleanDisk (submission "job-1")))
  /\ successPayload
       (RunOptimization (H := Ref.lib) (quietDay "2026-01-01" "job-1")
          (NewDFTBRunner oneSlot) cleanDisk (submission "job-1"))
     <> successPayload
          (RunOptimization (H := Ref.lib) (backwardDay "2026-01-01" "job-1")
             (NewDFTBRunner oneSlot) cleanDisk (submission "job-1")).
Proof.
  split; [eexists; vm_compute; reflexivity|].
  assert (Hdiffer : sameText
            (successPayload
               (RunOptimization (H := Ref.lib) (quietDay "2026-01-01" "job-1")
                  (NewDFTBRunner oneSlot) cleanDisk (submission "job-1")))
            (successPayload
               (RunOptimization (H := Ref.lib) (backwardDay "2026-01-01" "job-1")
                  (NewDFTBRunner oneSlot) cleanDisk (submission "job-1")))
          = false) by (vm_compute; reflexivity).
  intros Heq. rewrite Heq, sameText_refl in Hdiffer. discriminate Hdiffer.
Qed.

(** C3 (amended), at two submissions of the same structure under different
    identifiers on the same day. *)
Lemma same_day_runs_agree :
  exists resp1 resp2,
    response (RunOptimization (H := Ref.lib) (quietDay "2026-01-01" "job-1")
                (NewDFTBRunner oneSlot) cleanDisk (submission "job-1")) = Ok resp1
    /\ response (RunOptimization (H := Ref.lib) (quietDay "2026-01-01" "job-2")
                   (NewDFTBRunner oneSlot) cleanDisk (submission "job-2")) = Ok resp2
    /\ ParsedData resp1 = ParsedData resp2
    /\ OutputCIFPath resp1 = OutputCIFPath resp2.
Proof.
  pose (answer := fun run : Run =>
          match response run with
          | Ok resp => resp
          | _ => Build_OptimizationResponse "" "" ∅ "" ""
          end).
  exists (answer (RunOptimization (H := Ref.lib) (quietDay "2026-01-01" "job-1")
                    (NewDFTBRunner oneSlot) cleanDisk (submission "job-1"))),
         (answer (RunOptimization (H := Ref.lib) (quietDay "2026-01-01" "job-2")
                    (NewDFTBRunner oneSlot) cleanDisk (submission "job-2"))).
  assert (H1 : response (RunOptimization (H := Ref.lib) (quietDay "2026-01-01" "job-1")
                           (NewDFTBRunner oneSlot) cleanDisk (submission "job-1"))
               = Ok (answer (RunOptimization (H := Ref.lib)
                               (quietDay "2026-01-01" "job-1")
                               (NewDFTBRunner oneSlot) cleanDisk (submission "job-1"))))
    by (vm_compute; reflexivity).
  assert (H2 : response (RunOptimization (H := Ref.lib) (quietDay "2026-01-01" "job-2")
                           (NewDFTBRunner oneSlot) cleanDisk (submission "job-2"))
               = Ok (answer (RunOptimization (H := Ref.lib)
                               (quietDay "2026-01-01" "job-2")
                               (NewDFTBRunner oneSlot) cleanDisk (submission "job-2"))))
    by (vm_compute; reflexivity).
  split; [exact H1|]. split; [exact H2|].
  assert (S1 : Status (answer (RunOptimization (H := Ref.lib)
                                 (quietDay "2026-01-01" "job-1")
                                 (NewDFTBRunner oneSlot) cleanDisk (submission "job-1")))
               = "success") by (vm_compute; reflexivity).
  assert (S2 : Status (answer (RunOptimization (H := Ref.lib)
                                 (quietDay "2026-01-01" "job-2")
                                 (NewDFTBRunner oneSlot) cleanDisk (submission "job-2")))
               = "success") by (vm_compute; reflexivity).
  destruct (@RunOptimization_success_records_agree Ref.lib
              (quietDay "2026-01-01" "job-1") (quietDay "2026-01-01" "job-2")
              (NewDFTBRunner oneSlot) (NewDFTBRunner oneSlot) cleanDisk cleanDisk
              (submission "job-1") (submission "job-2") _ _
              eq_refl eq_refl eq_refl H1 S1 H2 S2) as [Hdata Hpayload].
  split; [exact Hdata|]. apply Hpayload; [reflexivity|].
  intros cif _. split; reflexivity.
Defined.

(** C2, at a server configured for one request: two submissions, both
    running. *)
Lemma two_run_where_one_is_allowed :
  MaxRequests (handlerConfig (NewAPIHandler oneSlot)) = 1
  /\ length (serveAll (NewAPIHandler oneSlot)
               [ Submit (submission "job-1") ""; Submit (submission "job-2") "" ])
     = 2%nat.
Proof.
  split; [reflexivity|].
  apply (every_admissible_submission_runs (NewAPIHandler oneSlot)
           [ submission "job-1"; submission "job-2" ]).
  repeat constructor; vm_compute; reflexivity.
Defined.

(** * Further properties of the parser *)

Section ScanProperties.
Context `{GoLib}.

Lemma splitLines_append (a b : string) : forall cur,
  splitLines (a +:+ LF +:+ b) cur = splitLines (a +:+ LF) cur ++ splitLines b "".
Proof.
  induction a as [|c a IH]; intros cur.
  - reflexivity.
  - change (String c a +:+ LF +:+ b) with (String c (a +:+ LF +:+ b)).
    change (String c a +:+ LF) with (String c (a +:+ LF)).
    cbn [splitLines]. destruct (Ascii.eqb c (ascii_of_N 10)).
    + rewrite IH. reflexivity.
    + apply IH.
Qed.

Lemma HasPrefix_LF (c : ascii) (s : string) :
  HasPrefix (String c s) LF = Ascii.eqb c (ascii_of_N 10).
Proof. change LF with (String (ascii_of_N 10) ""). cbn [HasPrefix]. apply andb_true_r. Qed.

Lemma splitLines_one_line (s : string) : forall cur,
  oneLine s = true -> splitLines (s +:+ LF) cur = [cur +:+ s].
Proof.
  unfold oneLine. induction s as [|c s IH]; intros cur Hone.
  - change ("" +:+ LF) with LF. cbn. rewrite append_nil_r. reflexivity.
  - change (String c s +:+ LF) with (String c (s +:+ LF)).
    rewrite Contains_unfold in Hone. apply negb_true_iff, orb_false_elim in Hone
      as [Hhead Htail].
    cbn [splitLines]. rewrite HasPrefix_LF in Hhead. rewrite Hhead.
    rewrite IH by (apply negb_true_iff; exact Htail).
    rewrite append_assoc. reflexivity.
Qed.

Lemma scanLoop_append (tokens1 tokens2 : list string) : forall st,
  scanLoop st (tokens1 ++ tokens2)
  = match scanLoop st tokens1 with
    | Ok st' => scanLoop st' tokens2
    | Err e => Err e
    | Panic e => Panic e
    end.
Proof.
  induction tokens1 as [|token tokens1 IH]; intros st; cbn [app scanLoop].
  - reflexivity.
  - destruct (tooLong token); [reflexivity|].
    destruct (parseLine st (dropCR token)) as [st'| |]; cbn; [apply IH | | ];
      reflexivity.
Qed.

Lemma declaration_is_not_skipped (line : string) :
  HasPrefix line "data_" = true ->
  String.eqb line "" || HasPrefix line "#" = false.
Proof.
  destruct line as [|c line]; [discriminate|]. cbn [HasPrefix].
  intros Hd. apply andb_prop in Hd as [Hc _]. apply Ascii.eqb_eq in Hc. subst c.
  reflexivity.
Qed.

Lemma parseLine_declaration (st : ParserState) (token : string) :
  declares token = true ->
  parseLine st (dropCR token)
  = Ok {| cif := match currentDataBlock st with
                 | Some blk => blk
                 | None => cif st
                 end;
          currentDataBlock :=
            Some (newDataBlock (TrimPrefix (TrimSpace (dropCR token)) "data_"));
          inLoop := false; loopHeaders := []; loopData := [] |}.
Proof.
  unfold declares, parseLine. intros Hd.
  rewrite (declaration_is_not_skipped _ Hd), Hd. reflexivity.
Qed.

(** With a block in progress, the scan of a line does not read [cif]: it
    carries it along, or overwrites it at a declaration. *)
Lemma parseLine_setCif (st : ParserState) (c : CIFFile) (text : string) :
  is_Some (currentDataBlock st) ->
  match parseLine st text, parseLine (setCif c st) text with
  | Ok a, Ok b => (exists c', b = setCif c' a) /\ is_Some (currentDataBlock a)
  | Panic x, Panic y => x = y
  | _, _ => False
  end.
Proof.
  intros [blk Hblk]. destruct st as [c0 cur lp hs ds]. cbn in Hblk. subst cur.
  unfold parseLine, updateBlock, withLoop, setCif.
  cbn [cif currentDataBlock inLoop loopHeaders loopData].
  set (line := TrimSpace text).
  destruct (String.eqb line "" || HasPrefix line "#") eqn:Hskip.
  { split; [exists c; reflexivity | eauto]. }
  destruct (HasPrefix line "data_").
  { split; [eexists; reflexivity | cbn; eauto]. }
  destruct (HasPrefix line "loop_").
  { split; [exists c; reflexivity | cbn; eauto]. }
  destruct lp.
  { destruct (HasPrefix line "_") eqn:Hhead.
    { split; [exists c; reflexivity | cbn; eauto]. }
    pose proof (loop_end_unreachable line Hskip Hhead) as Hrow.
    rewrite Hhead in Hrow. rewrite Hrow.
    destruct (Nat.eqb _ _); (split; [exists c; reflexivity | cbn; eauto]). }
  destruct (Contains line " " && negb (HasPrefix line "_")).
  { destruct (SplitN2 line) as [|k [|v [|? ?]]];
      (split; [exists c; reflexivity | cbn; eauto]). }
  destruct (HasPrefix line "_");
    [|split; [exists c; reflexivity | cbn; eauto]].
  destruct (SplitN2 line) as [|k [|v [|? ?]]];
    try (split; [exists c; reflexivity | cbn; eauto]).
  destruct (isCellLengthKey (TrimSpace k)).
  { destruct (ParseFloat _);
      (split; [exists c; reflexivity | cbn; eauto]). }
  destruct (isCellAngleKey (TrimSpace k));
    [|split; [exists c; reflexivity | cbn; eauto]].
  destruct (ParseFloat _);
    (split; [exists c; reflexivity | cbn; eauto]).
Qed.

Lemma scanLoop_setCif (tokens : list string) : forall st c,
  is_Some (currentDataBlock st) ->
  match scanLoop st tokens, scanLoop (setCif c st) tokens with
  | Ok a, Ok b => currentDataBlock b = currentDataBlock a
                  /\ is_Some (currentDataBlock a)
  | Err x, Err y | Panic x, Panic y => x = y
  | _, _ => False
  end.
Proof.
  induction tokens as [|token tokens IH]; intros st c Hsome; cbn [scanLoop].
  - split; [reflexivity | exact Hsome].
  - destruct (tooLong token); [reflexivity|].
    pose proof (parseLine_setCif st c (dropCR token) Hsome) as Hline.
    destruct (parseLine st (dropCR token)) as [a| |],
             (parseLine (setCif c st) (dropCR token)) as [b| |];
      cbn; try contradiction; [|congruence].
    destruct Hline as [[c' ->] Ha]. apply IH. exact Ha.
Qed.

(** X1.  Last wins: when the line after [head] declares a data block, and
    the scan of [head] neither panics nor fails, the structure parsed from
    the whole text is the one parsed from the text that starts at the
    declaration; nothing of [head] is kept. *)
Theorem ParseFromString_forgets_earlier_blocks (head tail : string) :
  (exists st, scanLoop initialState (splitLines (head +:+ LF) "") = Ok st) ->
  (exists token rest, splitLines tail "" = token :: rest
                      /\ declares token = true) ->
  ParseFromString (head +:+ LF +:+ tail) = ParseFromString tail.
Proof.
  intros [st Hhead] (token & rest & Htail & Hdecl).
  unfold ParseFromString.
  rewrite splitLines_append, scanLoop_append, Hhead, Htail. cbn [scanLoop].
  destruct (tooLong token); [reflexivity|].
  rewrite !parseLine_declaration by exact Hdecl. cbn.
  set (fresh := Some (newDataBlock (TrimPrefix (TrimSpace (dropCR token)) "data_"))).
  pose proof (scanLoop_setCif rest
                {| cif := cif initialState; currentDataBlock := fresh;
                   inLoop := false; loopHeaders := []; loopData := [] |}
                match currentDataBlock st with
                | Some blk => blk
                | None => cif st
                end) as Hsame.
  unfold setCif in Hsame. cbn in Hsame.
  specialize (Hsame (ltac:(subst fresh; eauto))).
  destruct (scanLoop _ rest) as [a| |] eqn:Ha in Hsame;
    destruct (scanLoop _ rest) as [b| |] eqn:Hb in Hsame; try contradiction.
  - cbn in Ha, Hb. rewrite Ha, Hb. destruct Hsame as [Heq [blk Hblk]].
    rewrite Heq, Hblk. reflexivity.
  - cbn in Ha, Hb. rewrite Ha, Hb. congruence.
  - cbn in Ha, Hb. rewrite Ha, Hb. congruence.
Qed.


(** Inside a loop a line that is no declaration leaves the block in progress
    and [cif] as they are, and the scan stays inside the loop. *)
Lemma parseLine_in_loop (st : ParserState) (token : string) :
  inLoop st = true -> declares token = false ->
  exists st', parseLine st (dropCR token) = Ok st'
              /\ currentDataBlock st' = currentDataBlock st
              /\ cif st' = cif st /\ inLoop st' = true.
Proof.
  unfold declares, parseLine. intros Hloop Hdecl. rewrite Hdecl, Hloop.
  set (line := TrimSpace (dropCR token)).
  destruct (String.eqb line "" || HasPrefix line "#") eqn:Hskip; [eauto|].
  destruct (HasPrefix line "loop_"); [eexists; cbn; eauto|].
  destruct (HasPrefix line "_") eqn:Hhead; [eexists; cbn; eauto|].
  pose proof (loop_end_unreachable line Hskip Hhead) as Hrow.
  rewrite Hhead in Hrow. rewrite Hrow.
  destruct (Nat.eqb _ _); eexists; cbn; eauto.
Qed.

Lemma scanLoop_in_loop (tokens : list string) : forall st,
  inLoop st = true ->
  forallb (fun token => fits token && negb (declares token)) tokens = true ->
  exists st', scanLoop st tokens = Ok st'
              /\ currentDataBlock st' = currentDataBlock st
              /\ cif st' = cif st.
Proof.
  induction tokens as [|token tokens IH]; intros st Hloop Hall; cbn [scanLoop].
  - eauto.
  - cbn [forallb] in Hall. apply andb_prop in Hall as [Htoken Hall].
    apply andb_prop in Htoken as [Hfits Hdecl]. unfold fits in Hfits.
    apply negb_true_iff in Hfits, Hdecl. rewrite Hfits.
    destruct (parseLine_in_loop st token Hloop Hdecl) as (st1 & -> & Hb & Hc & Hl).
    cbn. destruct (IH st1 Hl Hall) as (st' & -> & Hb' & Hc').
    exists st'. repeat split; congruence.
Qed.

(** X2.  Nothing that follows a [loop_] line reaches the result, unless a
    new block is declared: when no later line declares a block and every
    later line fits the scanner's buffer, the text parses to what the text
    before the [loop_] line parses to.  Headers and rows of the loop are
    collected and dropped. *)
Theorem ParseFromString_drops_what_follows_loop (head tail : string) :
  forallb (fun token => fits token && negb (declares token))
    (splitLines tail "") = true ->
  ParseFromString (head +:+ LF +:+ "loop_" +:+ LF +:+ tail)
  = ParseFromString (head +:+ LF).
Proof.
  intros Hall. unfold ParseFromString.
  rewrite splitLines_append, scanLoop_append.
  destruct (scanLoop initialState (splitLines (head +:+ LF) "")) as [st| |];
    [|reflexivity|reflexivity].
  rewrite splitLines_append, scanLoop_append.
  rewrite (splitLines_one_line "loop_" "" eq_refl).
  change (scanLoop st ["" +:+ "loop_"])
    with (Ok (withLoop st (currentDataBlock st) true [] [])).
  destruct (scanLoop_in_loop (splitLines tail "")
              (withLoop st (currentDataBlock st) true [] []) eq_refl Hall)
    as (st' & -> & Hb & Hc).
  cbn in Hb, Hc. rewrite Hb, Hc. reflexivity.
Qed.

(** X3.  A comment or blank line that fits the scanner's buffer can be
    inserted between any two lines without changing the result. *)
Theorem ParseFromString_ignores_skipped_line (head line tail : string) :
  oneLine line = true -> fits line = true -> skipped line = true ->
  ParseFromString (head +:+ LF +:+ line +:+ LF +:+ tail)
  = ParseFromString (head +:+ LF +:+ tail).
Proof.
  intros Hone Hfits Hskip. unfold ParseFromString.
  rewrite !(splitLines_append head), !scanLoop_append.
  destruct (scanLoop initialState (splitLines (head +:+ LF) "")) as [st| |];
    [|reflexivity|reflexivity].
  rewrite splitLines_append, scanLoop_append.
  rewrite (splitLines_one_line line "" Hone).
  change ("" +:+ line) with line. cbn [scanLoop]. unfold fits in Hfits.
  apply negb_true_iff in Hfits. rewrite Hfits.
  unfold skipped in Hskip. unfold parseLine. rewrite Hskip. reflexivity.
Qed.

Lemma splitAtSpace_two (s : string) : forall before,
  Contains s " " = true -> exists k v, splitAtSpace s before = [k; v].
Proof.
  induction s as [|c s IH]; intros before Hc; [discriminate|].
  cbn [Contains HasPrefix] in Hc. cbn [splitAtSpace].
  destruct (Ascii.eqb c " "); [eauto|]. apply IH. exact Hc.
Qed.

(** X4.  A key/value line (a line with a space that starts neither with an
    underscore nor with a keyword) as first line of the text makes the
    parser dereference the nil [currentDataBlock]: the call panics, whatever
    follows. *)
Theorem ParseFromString_panics_on_leading_key_value (line tail : string) :
  oneLine line = true -> fits line = true -> keyValueLine line = true ->
  ParseFromString (line +:+ LF +:+ tail) = Panic nilDeref.
Proof.
  intros Hone Hfits Hkv. unfold ParseFromString.
  rewrite splitLines_append, scanLoop_append.
  rewrite (splitLines_one_line line "" Hone).
  change ("" +:+ line) with line. cbn [scanLoop]. unfold fits in Hfits.
  apply negb_true_iff in Hfits. rewrite Hfits.
  unfold keyValueLine, skipped, declares in Hkv.
  repeat (apply andb_prop in Hkv as [Hkv ?]).
  repeat match goal with
         | Hn : negb _ = true |- _ => apply negb_true_iff in Hn
         end.
  unfold parseLine. cbn [inLoop initialState].
  match goal with
  | Hs : _ || _ = false, Hd : HasPrefix _ "data_" = false,
    Hl : HasPrefix _ "loop_" = false, Hc : Contains _ " " = true,
    Hu : HasPrefix _ "_" = false |- _ =>
      rewrite Hs, Hd, Hl, Hc, Hu;
      destruct (splitAtSpace_two _ "" Hc) as (k & v & Hsplit)
  end.
  unfold SplitN2. rewrite Hsplit. reflexivity.
Qed.


(** *** What the scan can store in a block *)

Section BlockInvariant.
Variable P : CIFFile -> Prop.
Hypothesis P_new : forall name, P (newDataBlock name).
Hypothesis P_metadata : forall blk key value, P blk -> P (setMetadata blk key value).
Hypothesis P_length : forall blk key val,
  isCellLengthKey key = true -> P blk -> P (setCellLength blk key val).
Hypothesis P_angle : forall blk key val,
  isCellAngleKey key = true -> P blk -> P (setCellAngle blk key val).

Lemma updateBlock_holds st f st' :
  (forall blk, P blk -> P (f blk)) ->
  holdsIn P st -> updateBlock st f = Ok st' -> holdsIn P st'.
Proof.
  intros Hf [Hcif Hcur]. unfold updateBlock.
  destruct (currentDataBlock st) as [blk|] eqn:E; [|discriminate].
  intros [= <-]. split; cbn; [assumption|].
  intros blk' [= <-]. apply Hf, Hcur. reflexivity.
Qed.

Lemma parseLine_holds st text st' :
  holdsIn P st -> parseLine st text = Ok st' -> holdsIn P st'.
Proof.
  intros Hst. pose proof Hst as [Hcif Hcur]. unfold parseLine.
  set (line := TrimSpace text).
  destruct (String.eqb line "" || HasPrefix line "#") eqn:Hskip.
  { intros [= <-]. exact Hst. }
  destruct (HasPrefix line "data_").
  { intros [= <-]. split; cbn.
    - destruct (currentDataBlock st) as [blk|]; [apply Hcur; reflexivity | exact Hcif].
    - intros blk [= <-]. apply P_new. }
  destruct (HasPrefix line "loop_").
  { intros [= <-]. split; cbn; assumption. }
  destruct (inLoop st).
  { destruct (HasPrefix line "_") eqn:Hhead.
    { intros [= <-]. split; cbn; assumption. }
    pose proof (loop_end_unreachable line Hskip Hhead) as Hrow.
    rewrite Hhead in Hrow. rewrite Hrow.
    destruct (Nat.eqb _ _); intros [= <-]; [split; cbn; assumption | exact Hst]. }
  destruct (Contains line " " && negb (HasPrefix line "_")).
  { destruct (SplitN2 line) as [|k [|v [|? ?]]]; try (intros [= <-]; exact Hst).
    apply updateBlock_holds; [|exact Hst]. intros blk. apply P_metadata. }
  destruct (HasPrefix line "_"); [|intros [= <-]; exact Hst].
  destruct (SplitN2 line) as [|k [|v [|? ?]]]; try (intros [= <-]; exact Hst).
  destruct (isCellLengthKey (TrimSpace k)) eqn:Hlen.
  { destruct (ParseFloat _); [|intros [= <-]; exact Hst].
    apply updateBlock_holds; [|exact Hst]. intros blk. apply P_length, Hlen. }
  destruct (isCellAngleKey (TrimSpace k)) eqn:Hang; [|intros [= <-]; exact Hst].
  destruct (ParseFloat _); [|intros [= <-]; exact Hst].
  apply updateBlock_holds; [|exact Hst]. intros blk. apply P_angle, Hang.
Qed.

Lemma scanLoop_holds tokens : forall st st',
  holdsIn P st -> scanLoop st tokens = Ok st' -> holdsIn P st'.
Proof.
  induction tokens as [|token rest IH]; intros st st' Hst; cbn [scanLoop].
  - intros [= <-]. exact Hst.
  - destruct (tooLong token); [discriminate|].
    destruct (parseLine st (dropCR token)) as [st1| |] eqn:Hline; cbn;
      try discriminate.
    apply IH. eapply parseLine_holds; eassumption.
Qed.

Lemma ParseFromString_holds content result :
  P zeroCIF -> ParseFromString content = Ok result -> P result.
Proof.
  intros Hzero. unfold ParseFromString.
  destruct (scanLoop initialState (splitLines content "")) as [st| |] eqn:Hscan;
    try discriminate.
  assert (Hst : holdsIn P st).
  { eapply scanLoop_holds; [|exact Hscan]. split; [exact Hzero | intros blk; discriminate]. }
  destruct Hst as [Hcif Hcur]. intros [= <-].
  destruct (currentDataBlock st) as [blk|]; [apply Hcur; reflexivity | exact Hcif].
Qed.

End BlockInvariant.

Lemma isCellLengthKey_elem (key : string) :
  isCellLengthKey key = true -> key ∈ cellLengthKeys.
Proof.
  unfold isCellLengthKey, cellLengthKeys. intros Hk.
  repeat (apply orb_prop in Hk as [Hk|Hk]); apply String.eqb_eq in Hk; set_solver.
Qed.

Lemma isCellAngleKey_elem (key : string) :
  isCellAngleKey key = true -> key ∈ cellAngleKeys.
Proof.
  unfold isCellAngleKey, cellAngleKeys. intros Hk.
  repeat (apply orb_prop in Hk as [Hk|Hk]); apply String.eqb_eq in Hk; set_solver.
Qed.

(** X5.  Whatever the text, a structure returned by the parser has cell
    lengths only under [_cell_length_a], [_b], [_c], cell angles only under
    [_cell_angle_alpha], [_beta], [_gamma], and no symmetry operation. *)
Theorem ParseFromString_stores_recognised_cell_keys (content : string)
    (result : CIFFile) :
  ParseFromString content = Ok result -> recognisedCell result.
Proof.
  apply (ParseFromString_holds recognisedCell); unfold recognisedCell.
  - intros name. cbn. rewrite !dom_empty_L. set_solver.
  - intros blk key value Hblk. exact Hblk.
  - intros blk key val Hkey (Hl & Ha & Hs). cbn. rewrite dom_insert_L.
    apply isCellLengthKey_elem in Hkey. repeat split; [|exact Ha|exact Hs].
    apply union_subseteq. split; [apply singleton_subseteq_l, Hkey | exact Hl].
  - intros blk key val Hkey (Hl & Ha & Hs). cbn. rewrite dom_insert_L.
    apply isCellAngleKey_elem in Hkey. repeat split; [exact Hl| |exact Hs].
    apply union_subseteq. split; [apply singleton_subseteq_l, Hkey | exact Ha].
  - cbn. rewrite !dom_empty_L. set_solver.
Qed.

End ScanProperties.

(** * Further properties of the loop processing *)

Section LoopProperties.
Context `{GoLib}.

(** A field of a record filled by [fillRow]: [get] reads it, the header
    [h] alone sets it, to [f old value]. *)
Section Column.
Context {R A : Type}.
Variables (set : R -> string -> string -> R) (get : R -> A)
          (h : string) (f : A -> string -> A).
Hypothesis other : forall r h' v, h' <> h -> get (set r h' v) = get r.
Hypothesis this : forall r v, get (set r h v) = f (get r) v.

Lemma fillRow_skips (headers : list string) : forall row r,
  h ∉ headers -> get (fillRow set headers row r) = get r.
Proof.
  induction headers as [|h0 headers IH]; intros row r Hnot; [reflexivity|].
  destruct row as [|cell row]; [reflexivity|]. cbn [fillRow].
  apply not_elem_of_cons in Hnot as [Hne Hnot].
  rewrite IH by exact Hnot. apply other. congruence.
Qed.

Lemma fillRow_reads (headers : list string) : forall row r i cell,
  NoDup headers -> headers !! i = Some h -> row !! i = Some cell ->
  get (fillRow set headers row r) = f (get r) (TrimSpace cell).
Proof.
  induction headers as [|h0 headers IH]; intros row r i cell Hnd Hh Hc;
    [discriminate|].
  apply NoDup_cons in Hnd as [Hfresh Hnd].
  destruct row as [|c0 row]; [destruct i; discriminate|]. cbn [fillRow].
  destruct i as [|i]; cbn in Hh, Hc.
  - injection Hh as ->. injection Hc as ->.
    rewrite fillRow_skips by exact Hfresh. apply this.
  - rewrite (IH row _ i cell Hnd Hh Hc). f_equal. apply other.
    intros ->. apply Hfresh. eapply list_elem_of_lookup_2, Hh.
Qed.

End Column.

Ltac other_header :=
  intros r h' v Hne; unfold setAtomField;
  repeat match goal with
         | |- context [String.eqb h' ?k] =>
             destruct (String.eqb_spec h' k); [try congruence; try reflexivity|]
         end; reflexivity.

(** X6.  The columns of an atom-site loop are found by header name, in
    whatever order the headers come: with pairwise distinct headers, the
    record built from a row has the trimmed cell of the label column as
    label and that of the type-symbol column as type symbol, and a
    coordinate is the parsed cell of its column, or 0 when the cell is no
    number. *)
Theorem fillRow_reads_atom_columns_by_name (headers row : list string) :
  NoDup headers ->
  let site := fillRow setAtomField headers row zeroAtomSite in
  (forall i cell, headers !! i = Some "_atom_site_label" ->
                  row !! i = Some cell -> Label site = TrimSpace cell)
  /\ (forall i cell, headers !! i = Some "_atom_site_type_symbol" ->
                     row !! i = Some cell -> TypeSymbol site = TrimSpace cell)
  /\ (forall i cell, headers !! i = Some "_atom_site_fract_x" ->
                     row !! i = Some cell ->
                     FractX site = parsedOr 0 (TrimSpace cell))
  /\ (forall i cell, headers !! i = Some "_atom_site_fract_y" ->
                     row !! i = Some cell ->
                     FractY site = parsedOr 0 (TrimSpace cell))
  /\ (forall i cell, headers !! i = Some "_atom_site_fract_z" ->
                     row !! i = Some cell ->
                     FractZ site = parsedOr 0 (TrimSpace cell)).
Proof.
  intros Hnd site. subst site. repeat split; intros i cell Hh Hc.
  - apply (fillRow_reads setAtomField Label "_atom_site_label" (fun _ v => v))
      with (i := i); auto. other_header.
  - apply (fillRow_reads setAtomField TypeSymbol "_atom_site_type_symbol"
             (fun _ v => v)) with (i := i); auto. other_header.
  - apply (fillRow_reads setAtomField FractX "_atom_site_fract_x" parsedOr)
      with (i := i); auto. other_header.
  - apply (fillRow_reads setAtomField FractY "_atom_site_fract_y" parsedOr)
      with (i := i); auto. other_header.
  - apply (fillRow_reads setAtomField FractZ "_atom_site_fract_z" parsedOr)
      with (i := i); auto. other_header.
Qed.

Lemma appendRows_atoms_extend (blk : CIFFile) headers data :
  exists blk',
    appendRows zeroAtomSite setAtomField AtomSites withAtomSites headers data
      (Some blk) = Ok (Some blk')
    /\ Name (DataBlock blk') = Name (DataBlock blk)
    /\ CellLength (DataBlock blk') = CellLength (DataBlock blk)
    /\ CellAngle (DataBlock blk') = CellAngle (DataBlock blk)
    /\ Metadata (DataBlock blk') = Metadata (DataBlock blk)
    /\ Symmetry (DataBlock blk') = Symmetry (DataBlock blk)
    /\ AtomSites (DataBlock blk) `prefix_of` AtomSites (DataBlock blk').
Proof.
  destruct data as [|row data]; cbn.
  - exists blk. repeat split; reflexivity.
  - eexists. split; [reflexivity|]. cbn. repeat split. apply prefix_app_r. reflexivity.
Qed.

Lemma appendRows_symmetry_extend (blk : CIFFile) headers data :
  exists blk',
    appendRows zeroSymmetry setSymmetryField Symmetry withSymmetry headers data
      (Some blk) = Ok (Some blk')
    /\ Name (DataBlock blk') = Name (DataBlock blk)
    /\ CellLength (DataBlock blk') = CellLength (DataBlock blk)
    /\ CellAngle (DataBlock blk') = CellAngle (DataBlock blk)
    /\ Metadata (DataBlock blk') = Metadata (DataBlock blk)
    /\ AtomSites (DataBlock blk') = AtomSites (DataBlock blk)
    /\ Symmetry (DataBlock blk) `prefix_of` Symmetry (DataBlock blk').
Proof.
  destruct data as [|row data]; cbn.
  - exists blk. repeat split; reflexivity.
  - eexists. split; [reflexivity|]. cbn. repeat split. apply prefix_app_r. reflexivity.
Qed.

(** X7.  On a block that is not nil [processLoopData] never fails nor
    panics, whatever the headers and the rows; it leaves the name, the cell
    and the metadata of the block as they are and only appends to its atom
    sites and symmetry operations. *)
Theorem processLoopData_only_appends (blk : CIFFile) (headers : list string)
    (data : list (list string)) :
  exists blk',
    processLoopData (Some blk) headers data = Ok (Some blk')
    /\ Name (DataBlock blk') = Name (DataBlock blk)
    /\ CellLength (DataBlock blk') = CellLength (DataBlock blk)
    /\ CellAngle (DataBlock blk') = CellAngle (DataBlock blk)
    /\ Metadata (DataBlock blk') = Metadata (DataBlock blk)
    /\ AtomSites (DataBlock blk) `prefix_of` AtomSites (DataBlock blk')
    /\ Symmetry (DataBlock blk) `prefix_of` Symmetry (DataBlock blk').
Proof.
  unfold processLoopData.
  assert (Hfirst : exists blk1,
    (if containsAllHeaders headers atomSiteHeaders
     then appendRows zeroAtomSite setAtomField AtomSites withAtomSites
            headers data (Some blk)
     else Ok (Some blk)) = Ok (Some blk1)
    /\ Name (DataBlock blk1) = Name (DataBlock blk)
    /\ CellLength (DataBlock blk1) = CellLength (DataBlock blk)
    /\ CellAngle (DataBlock blk1) = CellAngle (DataBlock blk)
    /\ Metadata (DataBlock blk1) = Metadata (DataBlock blk)
    /\ Symmetry (DataBlock blk1) = Symmetry (DataBlock blk)
    /\ AtomSites (DataBlock blk) `prefix_of` AtomSites (DataBlock blk1)).
  { destruct (containsAllHeaders headers atomSiteHeaders).
    - apply appendRows_atoms_extend.
    - exists blk. repeat split; reflexivity. }
  destruct Hfirst as (blk1 & -> & Hn & Hl & Ha & Hm & Hs & Hsites).
  cbn [mbind Outcome_bind bindO].
  destruct (containsAllHeaders headers symmetryHeaders).
  - destruct (appendRows_symmetry_extend blk1 headers data)
      as (blk2 & -> & Hn2 & Hl2 & Ha2 & Hm2 & Hsites2 & Hs2).
    exists blk2. split; [reflexivity|]. repeat apply conj; congruence.
  - exists blk1. split; [reflexivity|]. repeat apply conj; try congruence.
    rewrite Hs. reflexivity.
Qed.

End LoopProperties.

(** * Further properties of the string handling *)

Section QuoteProperties.
Context `{GoLib}.
#[local] Arguments String.append !_ _ /.

Lemma HasPrefix_char (s : string) (q : ascii) :
  HasPrefix s (String q "") = false -> trimLeftChar q s = s.
Proof.
  destruct s as [|c s]; [reflexivity|]. cbn.
  rewrite andb_true_r. intros ->. reflexivity.
Qed.

Lemma HasPrefix_char_append (s t : string) (q : ascii) :
  s <> "" -> HasPrefix s (String q "") = false ->
  HasPrefix (s +:+ t) (String q "") = false.
Proof.
  destruct s as [|c s]; [congruence|]. intros _. cbn. auto.
Qed.

Lemma rev_nil (s : string) : rev s = "" -> s = "".
Proof.
  intros Hr. rewrite <- (rev_involutive s), Hr. reflexivity.
Qed.

Lemma Trim1_quoted (s : string) (q : ascii) :
  HasPrefix s (String q "") = false -> HasSuffix s (String q "") = false ->
  Trim1 (String q "" +:+ s +:+ String q "") q = s.
Proof.
  unfold HasSuffix, Trim1. intros Hp Hs.
  change (String q "" +:+ s +:+ String q "") with (String q (s +:+ String q "")).
  change (rev (String q "")) with (String q "") in Hs.
  cbn [trimLeftChar]. rewrite Ascii.eqb_refl.
  destruct (String.eqb_spec s "") as [->|Hne].
  - cbn. rewrite Ascii.eqb_refl. reflexivity.
  - rewrite (HasPrefix_char (s +:+ String q "") q)
      by (apply HasPrefix_char_append; assumption).
    rewrite rev_append.
    change (rev (String q "") +:+ rev s) with (String q (rev s)).
    cbn [trimLeftChar]. rewrite Ascii.eqb_refl.
    rewrite HasPrefix_char by exact Hs.
    apply rev_involutive.
Qed.

(** X8.  Quoting round trip: a text that neither starts nor ends with the
    quote, put between two double quotes or two single quotes, is given
    back by [stripQuotes]. *)
Theorem stripQuotes_gives_back_quoted (s : string) (q : ascii) :
  q = ascii_of_N 34 \/ q = ascii_of_N 39 ->
  HasPrefix s (String q "") = false -> HasSuffix s (String q "") = false ->
  stripQuotes (String q "" +:+ s +:+ String q "") = s.
Proof.
  intros Hq Hp Hs. unfold stripQuotes.
  assert (Hends : forall t, HasSuffix (String q "" +:+ t +:+ String q "")
                              (String q "") = true).
  { intros t. unfold HasSuffix. cbn [rev String.append].
    rewrite rev_append. cbn. rewrite Ascii.eqb_refl. reflexivity. }
  destruct Hq as [-> | ->].
  - change dquote with (String (ascii_of_N 34) "").
    rewrite Hends. cbn [HasPrefix String.append]. rewrite Ascii.eqb_refl. cbn [andb].
    apply Trim1_quoted; assumption.
  - change dquote with (String (ascii_of_N 34) "").
    change "'" with (String (ascii_of_N 39) "").
    rewrite Hends.
    replace (HasPrefix (String (ascii_of_N 39) "" +:+ s +:+ String (ascii_of_N 39) "")
               (String (ascii_of_N 34) "")) with false by reflexivity.
    replace (HasPrefix (String (ascii_of_N 39) "" +:+ s +:+ String (ascii_of_N 39) "")
               (String (ascii_of_N 39) "")) with true by reflexivity.
    cbn [andb]. apply Trim1_quoted; assumption.
Qed.

(** X9.  The pre-flight validation looks for its three marks anywhere in
    the text: a text that passes still passes with any text put before and
    after it. *)
Theorem ValidateCIFContent_accepts_extensions (before content after : string) :
  ValidateCIFContent content = Ok tt ->
  ValidateCIFContent (before +:+ content +:+ after) = Ok tt.
Proof.
  unfold ValidateCIFContent.
  assert (Hgrow : forall p, Contains content p = true ->
                            Contains (before +:+ content +:+ after) p = true).
  { intros p Hp. apply Contains_append_r, Contains_append_l, Hp. }
  destruct (Contains content "data_") eqn:Hd; [|discriminate].
  rewrite (Hgrow _ Hd). cbn [negb].
  destruct (Contains content "_cell_length_a") eqn:Ha,
           (Contains content "_cell.angle_alpha") eqn:Hb; try discriminate;
    rewrite ?(Hgrow _ Ha), ?(Hgrow _ Hb), ?andb_false_r; cbn [negb andb];
    (destruct (Contains content "_atom_site") eqn:Hs,
              (Contains content "loop_") eqn:Hl; try discriminate;
     rewrite ?(Hgrow _ Hs), ?(Hgrow _ Hl), ?andb_false_r; reflexivity).
Qed.

End QuoteProperties.

(** * Further properties of the engine-input synthesis *)

Section SynthesisProperties.
Context `{GoLib}.

Lemma extractAtoms_elements a b c sites : forall elementMap elements coordinates,
  (forall e, e ∈ elementMap <-> e ∈ elements) -> NoDup elements ->
  let result := fst (extractAtoms a b c sites elementMap elements coordinates) in
  NoDup result
  /\ forall e, e ∈ result <-> e ∈ elements \/ e ∈ map TypeSymbol sites.
Proof.
  induction sites as [|site sites IH]; intros elementMap elements coordinates Hmap Hnd;
    cbn [extractAtoms map fst].
  - split; [exact Hnd|]. intros e. split; [auto|]. intros [He|He]; [exact He|].
    apply elem_of_nil in He. contradiction.
  - destruct (bool_decide (TypeSymbol site ∈ elementMap)) eqn:Hseen.
    + apply bool_decide_eq_true in Hseen.
      destruct (IH elementMap elements (coordinates ++ [scaled a b c site]) Hmap Hnd)
        as [Hnd' Hmem].
      split; [exact Hnd'|]. intros e. rewrite Hmem, elem_of_cons.
      split; [tauto|]. intros [He|[->|He]]; auto. left. apply Hmap, Hseen.
    + apply bool_decide_eq_false in Hseen.
      destruct (IH ({[TypeSymbol site]} ∪ elementMap) (elements ++ [TypeSymbol site])
                  (coordinates ++ [scaled a b c site])) as [Hnd' Hmem].
      * intros e. rewrite elem_of_union, elem_of_singleton, elem_of_app,
          list_elem_of_singleton, Hmap. tauto.
      * apply NoDup_app. repeat split; [exact Hnd| |apply NoDup_singleton].
        intros e He ->%list_elem_of_singleton. apply Hseen, Hmap, He.
      * split; [exact Hnd'|]. intros e.
        rewrite Hmem, elem_of_app, list_elem_of_singleton, elem_of_cons. tauto.
Qed.

Lemma ToDFTBInput_elements (cif : CIFFile) (method : string) (fmax : float)
    (input : DFTBInput) :
  ToDFTBInput (Some cif) method fmax = Ok input ->
  NoDup (Geometry_Elements input)
  /\ (forall e, e ∈ Geometry_Elements input
                <-> e ∈ map TypeSymbol (AtomSites (DataBlock cif)))
  /\ Geometry_Coordinates input
     = map (scaled (cellValue (CellLength (DataBlock cif)) "_cell_length_a")
                   (cellValue (CellLength (DataBlock cif)) "_cell_length_b")
                   (cellValue (CellLength (DataBlock cif)) "_cell_length_c"))
           (AtomSites (DataBlock cif)).
Proof.
  unfold ToDFTBInput. destruct (String.eqb (Name (DataBlock cif)) ""); [discriminate|].
  match goal with
  | |- context [extractAtoms ?a ?b ?c ?s ?m ?e ?k] =>
      pose proof (extractAtoms_elements a b c s m e k) as Helems;
      pose proof (extractAtoms_coordinates a b c s m e k) as Hcoords;
      destruct (extractAtoms a b c s m e k) as [elements coordinates]
  end.
  cbn in Helems, Hcoords. intros [= <-]. cbn.
  destruct Helems as [Hnd Hmem].
  { intros e. rewrite elem_of_empty. split; [contradiction|].
    intros He. apply elem_of_nil in He. contradiction. }
  { apply NoDup_nil_2. }
  repeat split; [exact Hnd| | |exact Hcoords].
  - intros He. apply Hmem in He as [He|He]; [|exact He].
    apply elem_of_nil in He. contradiction.
  - intros He. apply Hmem. right. exact He.
Qed.

(** X10.  The element list of a synthesized input names every species of
    the structure once: it has no duplicate, and a symbol is in it exactly
    when an atom site carries it. *)
Theorem ToDFTBInput_lists_each_species_once (cif : CIFFile) (method : string)
    (fmax : float) (input : DFTBInput) :
  ToDFTBInput (Some cif) method fmax = Ok input ->
  NoDup (Geometry_Elements input)
  /\ forall e, e ∈ Geometry_Elements input
               <-> exists site, site ∈ AtomSites (DataBlock cif)
                                /\ TypeSymbol site = e.
Proof.
  intros Hin. destruct (ToDFTBInput_elements cif method fmax input Hin)
    as (Hnd & Hmem & _).
  split; [exact Hnd|]. intros e. rewrite Hmem, list_elem_of_fmap.
  split; intros (site & Ha & Hb); exists site; auto.
Qed.

Lemma extractAtoms_ext a b c (sites1 : list AtomSite) :
  forall sites2 elementMap elements coordinates,
  map (fun site => (TypeSymbol site, (FractX site, FractY site, FractZ site))) sites1
  = map (fun site => (TypeSymbol site, (FractX site, FractY site, FractZ site))) sites2 ->
  extractAtoms a b c sites1 elementMap elements coordinates
  = extractAtoms a b c sites2 elementMap elements coordinates.
Proof.
  induction sites1 as [|s1 sites1 IH]; intros [|s2 sites2] elementMap elements
    coordinates Heq; try discriminate; [reflexivity|].
  cbn [map] in Heq. injection Heq as Hsym Hx Hy Hz Hrest.
  cbn [extractAtoms]. rewrite Hsym, Hx, Hy, Hz. apply IH, Hrest.
Qed.

(** X11.  The synthesis reads of a named structure the three cell lengths
    and, of each atom site, the type symbol and the fractional coordinates,
    and nothing else: two named structures that agree on these give the same
    engine input, whatever their names, cell angles, labels, displacement
    parameters, symmetry and metadata. *)
Theorem ToDFTBInput_ignores_angles_and_labels (cif1 cif2 : CIFFile)
    (method : string) (fmax : float) :
  Name (DataBlock cif1) <> "" -> Name (DataBlock cif2) <> "" ->
  (forall key, key ∈ cellLengthKeys ->
     cellValue (CellLength (DataBlock cif1)) key
     = cellValue (CellLength (DataBlock cif2)) key) ->
  map (fun site => (TypeSymbol site, (FractX site, FractY site, FractZ site)))
      (AtomSites (DataBlock cif1))
  = map (fun site => (TypeSymbol site, (FractX site, FractY site, FractZ site)))
        (AtomSites (DataBlock cif2)) ->
  ToDFTBInput (Some cif1) method fmax = ToDFTBInput (Some cif2) method fmax.
Proof.
  intros Hn1 Hn2 Hcell Hsites. unfold ToDFTBInput.
  apply String.eqb_neq in Hn1, Hn2. rewrite Hn1, Hn2.
  rewrite !(Hcell "_cell_length_a"), !(Hcell "_cell_length_b"),
    !(Hcell "_cell_length_c")
    by (unfold cellLengthKeys; rewrite !elem_of_union, !elem_of_singleton; auto).
  rewrite (extractAtoms_ext _ _ _ _ _ _ _ _ Hsites). reflexivity.
Qed.

End SynthesisProperties.

(** * Further properties of the geometry file *)

Section GeometryProperties.
Context `{GoLib}.

Lemma lineElement_ok (elements : list string) (i : nat) :
  elements <> [] ->
  exists element, lineElement elements i = Ok element
                  /\ elements !! (i mod length elements)%nat = Some element.
Proof.
  intros Hne. unfold lineElement.
  destruct elements as [|e elements]; [contradiction|].
  set (all := e :: elements).
  assert (Hlt : (i mod length all < length all)%nat)
    by (apply Nat.mod_upper_bound; discriminate).
  apply lookup_lt_is_Some_2 in Hlt as [element Hel].
  change (length all) with (S (length elements)) at 1.
  cbv iota. rewrite Hel. eauto.
Qed.

Lemma coordLines_ok (elements : list string) (coords : list (list float)) :
  forall i, elements <> [] -> Forall (fun coord => (3 <= length coord)%nat) coords ->
  exists lines, coordLines elements i coords = Ok lines
                /\ length lines = length coords.
Proof.
  induction coords as [|coord coords IH]; intros i Hne Hall; cbn [coordLines].
  - exists []. auto.
  - apply Forall_cons in Hall as [Hcoord Hall].
    destruct (IH (S i) Hne Hall) as (rest & Hrest & Hlen).
    unfold coordLine. destruct (lineElement_ok elements i Hne) as (element & -> & _).
    destruct coord as [|x [|y [|z coord]]]; cbn in Hcoord; try lia.
    cbn. rewrite Hrest. cbn. eexists. split; [reflexivity|]. cbn. lia.
Qed.

Lemma coordLines_inv (elements : list string) (coords : list (list float)) :
  forall i lines, coordLines elements i coords = Ok lines ->
  (coords = [] \/ elements <> [])
  /\ Forall (fun coord => (3 <= length coord)%nat) coords.
Proof.
  induction coords as [|coord coords IH]; intros i lines; cbn [coordLines].
  - intros _. split; [left; reflexivity | constructor].
  - unfold coordLine, lineElement.
    destruct elements as [|e elements]; [discriminate|].
    change (length (e :: elements)) with (S (length elements)) at 1. cbv iota.
    destruct ((e :: elements) !! _); [|discriminate]. cbn.
    destruct coord as [|x [|y [|z coord]]]; try discriminate. cbn.
    destruct (coordLines (e :: elements) (S i) coords) as [rest| |] eqn:Hrest;
      try discriminate.
    intros _. destruct (IH (S i) rest Hrest) as [_ Hall].
    split; [right; discriminate|]. constructor; [cbn; lia | exact Hall].
Qed.

Lemma coordLines_no_error (elements : list string) (coords : list (list float)) :
  forall i e, coordLines elements i coords <> Err e.
Proof.
  induction coords as [|coord coords IH]; intros i e; cbn [coordLines];
    [discriminate|].
  unfold coordLine, lineElement.
  destruct (length elements); [discriminate|].
  destruct (elements !! _); [|discriminate]. cbn.
  destruct coord as [|x [|y [|z coord]]]; try discriminate. cbn.
  destruct (coordLines elements (S i) coords) as [rest| |] eqn:Hrest;
    try discriminate.
  exfalso. exact (IH (S i) _ Hrest).
Qed.

(** X12.  [generateGeometryContent] returns a text exactly when every
    coordinate has its three components and, if there is a coordinate at
    all, the element list is not empty; otherwise it panics.  It never
    returns an error. *)
Theorem generateGeometryContent_succeeds_iff (input : DFTBInput) :
  ((exists text, generateGeometryContent input = Ok text)
   <-> (Geometry_Coordinates input = [] \/ Geometry_Elements input <> [])
       /\ Forall (fun coord => (3 <= length coord)%nat) (Geometry_Coordinates input))
  /\ forall e, generateGeometryContent input <> Err e.
Proof.
  unfold generateGeometryContent, geometryLines. split; [split|].
  - intros [text Htext].
    destruct (coordLines (Geometry_Elements input) 0 (Geometry_Coordinates input))
      as [lines| |] eqn:Hlines; try discriminate.
    eapply coordLines_inv, Hlines.
  - intros [[Hnil|Hne] Hall].
    + rewrite Hnil. cbn. eauto.
    + destruct (coordLines_ok _ _ 0%nat Hne Hall) as (lines & -> & _). cbn. eauto.
  - intros e.
    destruct (coordLines (Geometry_Elements input) 0 (Geometry_Coordinates input))
      as [lines| |] eqn:Hlines; cbn; try discriminate.
    exfalso. exact (coordLines_no_error _ _ _ _ Hlines).
Qed.

Lemma coordLines_synthesized (cif : CIFFile) (method : string)
    (fmax : float) (input : DFTBInput) :
  ToDFTBInput (Some cif) method fmax = Ok input ->
  exists lines,
    coordLines (Geometry_Elements input) 0 (Geometry_Coordinates input) = Ok lines
    /\ length lines = length (AtomSites (DataBlock cif)).
Proof.
  intros Hin. destruct (ToDFTBInput_elements cif method fmax input Hin)
    as (_ & Hmem & Hcoords).
  rewrite Hcoords.
  destruct (AtomSites (DataBlock cif)) as [|site sites] eqn:Hsites.
  - exists []. split; reflexivity.
  - assert (Hne : Geometry_Elements input <> []).
    { intros Hnil. specialize (Hmem (TypeSymbol site)). rewrite Hnil in Hmem.
      cbn in Hmem. destruct Hmem as [_ Hmem].
      eapply elem_of_nil, Hmem. left. }
    destruct (coordLines_ok (Geometry_Elements input)
                (map (scaled (cellValue (CellLength (DataBlock cif)) "_cell_length_a")
                             (cellValue (CellLength (DataBlock cif)) "_cell_length_b")
                             (cellValue (CellLength (DataBlock cif)) "_cell_length_c"))
                     (site :: sites)) 0%nat Hne) as (lines & Hlines & Hlen).
    { apply Forall_fmap, Forall_forall. intros s _. cbn. lia. }
    exists lines. split; [exact Hlines|]. rewrite Hlen, length_map. reflexivity.
Qed.

(** X13.  The geometry file of a synthesized input is always written: on
    the engine input [ToDFTBInput] gives for a structure,
    [generateGeometryContent] does not panic, and the file has two lines
    more than the structure has atom sites. *)
Theorem synthesized_geometry_is_written (cif : CIFFile) (method : string)
    (fmax : float) (input : DFTBInput) :
  ToDFTBInput (Some cif) method fmax = Ok input ->
  exists lines,
    geometryLines input = Ok lines
    /\ generateGeometryContent input = Ok (concatStrings lines)
    /\ length lines = (2 + length (AtomSites (DataBlock cif)))%nat.
Proof.
  intros Hin.
  destruct (coordLines_synthesized cif method fmax input Hin) as (rest & Hrest & Hlen).
  unfold generateGeometryContent, geometryLines. rewrite Hrest.
  eexists. split; [reflexivity|]. split; [reflexivity|].
  cbn [length]. rewrite Hlen. reflexivity.
Qed.

Lemma coordLines_one_element (e : string) (coords : list (list float)) : forall i,
  Forall (fun coord => length coord = 3%nat) coords ->
  coordLines [e] i coords
  = Ok (map (fun coord =>
               e +:+ " " +:+ FormatFloat 12 8 (default 0%float (coord !! 0%nat))
               +:+ " " +:+ FormatFloat 12 8 (default 0%float (coord !! 1%nat))
               +:+ " " +:+ FormatFloat 12 8 (default 0%float (coord !! 2%nat))
               +:+ LF) coords).
Proof.
  induction coords as [|coord coords IH]; intros i Hall; cbn [coordLines map];
    [reflexivity|].
  apply Forall_cons in Hall as [Hcoord Hall]. rewrite (IH (S i) Hall).
  unfold coordLine, lineElement. cbn [length]. rewrite Nat.mod_1_r. cbn.
  destruct coord as [|x [|y [|z [|? ?]]]]; try discriminate. reflexivity.
Qed.

(** X14.  For a structure of a single species the geometry file is right:
    when every atom site carries the symbol [e], the file names [e] as its
    only element type and every coordinate line carries [e] with the scaled
    coordinates of its site. *)
Theorem single_species_geometry_lines (cif : CIFFile) (method : string)
    (fmax : float) (input : DFTBInput) (e : string) :
  ToDFTBInput (Some cif) method fmax = Ok input ->
  AtomSites (DataBlock cif) <> [] ->
  Forall (fun site => TypeSymbol site = e) (AtomSites (DataBlock cif)) ->
  geometryLines input
  = Ok ((formatInt (Z.of_nat (length (AtomSites (DataBlock cif)))) +:+ " F" +:+ LF)
        :: (e +:+ LF)
        :: map (fun site =>
                  e +:+ " "
                  +:+ FormatFloat 12 8
                        (FractX site
                         * cellValue (CellLength (DataBlock cif)) "_cell_length_a")
                  +:+ " "
                  +:+ FormatFloat 12 8
                        (FractY site
                         * cellValue (CellLength (DataBlock cif)) "_cell_length_b")
                  +:+ " "
                  +:+ FormatFloat 12 8
                        (FractZ site
                         * cellValue (CellLength (DataBlock cif)) "_cell_length_c")
                  +:+ LF)
               (AtomSites (DataBlock cif))).
Proof.
  intros Hin Hne Hall. destruct (ToDFTBInput_elements cif method fmax input Hin)
    as (Hnd & Hmem & Hcoords).
  assert (Helems : Geometry_Elements input = [e]).
  { destruct (Geometry_Elements input) as [|e1 elems] eqn:Hel.
    - destruct (AtomSites (DataBlock cif)) as [|site sites]; [contradiction|].
      exfalso. eapply elem_of_nil, Hmem. left.
    - assert (Hin1 : forall x, x ∈ e1 :: elems -> x = e).
      { intros x Hx. apply Hmem, list_elem_of_fmap in Hx as (site & -> & Hsite).
        eapply Forall_forall in Hall; eauto. }
      rewrite (Hin1 e1) by left.
      destruct elems as [|e2 elems]; [reflexivity|].
      exfalso. apply NoDup_cons in Hnd as [Hfresh _]. apply Hfresh.
      rewrite (Hin1 e1) by left. rewrite (Hin1 e2) by (right; left). left. }
  unfold geometryLines. rewrite Helems, Hcoords, coordLines_one_element.
  - cbn. rewrite length_map, map_map. reflexivity.
  - apply Forall_fmap, Forall_forall. intros s _. reflexivity.
Qed.

End GeometryProperties.

(** * Further properties of the runs *)

Section RunProperties.
Context `{GoLib}.
Context (env : Env).

Lemma ToDFTBInput_no_panic cif method fmax e :
  ToDFTBInput cif method fmax <> Panic e.
Proof.
  unfold ToDFTBInput. destruct cif as [cif|]; [|discriminate].
  destruct (String.eqb _ _); [discriminate|].
  destruct (extractAtoms _ _ _ _ _ _ _). discriminate.
Qed.

Lemma MkdirAll_lookup fs path fs1 :
  MkdirAll env fs path = Ok fs1 ->
  (fs1 = fs \/ fs1 = <[path := Dir]> fs) /\ is_Some (fs1 !! path).
Proof.
  unfold MkdirAll. destruct (fault env "mkdir" path); [discriminate|].
  destruct (fs !! path) as [[c|]|] eqn:Hp; try discriminate; intros [= <-].
  - split; [left; reflexivity | rewrite Hp; eauto].
  - split; [right; reflexivity | rewrite lookup_insert_eq; eauto].
Qed.

Lemma MkdirAll_no_panic fs path e : MkdirAll env fs path <> Panic e.
Proof.
  unfold MkdirAll. destruct (fault env "mkdir" path); [discriminate|].
  destruct (fs !! path) as [[c|]|]; discriminate.
Qed.

Lemma WriteFile_lookup fs path content fs1 :
  WriteFile env fs path content = Ok fs1 -> fs1 = <[path := File content]> fs.
Proof.
  unfold WriteFile. destruct (fault env "open" path); [discriminate|].
  destruct (fs !! path) as [[c|]|]; try discriminate; intros [= <-]; reflexivity.
Qed.

Lemma WriteFile_no_panic fs path content e :
  WriteFile env fs path content <> Panic e.
Proof.
  unfold WriteFile. destruct (fault env "open" path); [discriminate|].
  destruct (fs !! path) as [[c|]|]; discriminate.
Qed.

Lemma ReadFile_no_panic fs path e : ReadFile env fs path <> Panic e.
Proof.
  unfold ReadFile. destruct (fault env "open" path); [discriminate|].
  destruct (fs !! path) as [[c|]|]; discriminate.
Qed.

(** The files a run can leave: [Q] holds of them when it holds once the
    request directory is made and is kept by the engine and by each write
    of the runner. *)
Section Files.
Variables (r : DFTBRunner) (request : OptimizationRequest).
Variable Q : gmap string Node -> Prop.
Let requestDir := PathJoin (workDir r) (RequestID request).
Hypothesis Q_engine : forall fs, Q fs -> Q (engineWrites env fs).
Hypothesis Q_write : forall fs name content,
  name ∈ ["dftb_in.hsd"; "geometry.gen"; "optimized.cif"] ->
  Q fs -> Q (<[PathJoin requestDir name := File content]> fs).

Lemma generateInputFiles_files fs input fs2 :
  Q fs -> generateInputFiles env fs requestDir input = Ok fs2 -> Q fs2.
Proof.
  intros HQ. unfold generateInputFiles.
  destruct (WriteFile env fs _ _) as [fs1| |] eqn:Hw1; try discriminate.
  apply WriteFile_lookup in Hw1 as ->.
  destruct (generateGeometryContent input) as [text| |]; try discriminate. cbn.
  destruct (WriteFile env _ _ text) as [fs3| |] eqn:Hw2; try discriminate.
  apply WriteFile_lookup in Hw2 as ->. intros [= <-].
  apply Q_write; [repeat constructor|]. apply Q_write; [repeat constructor|]. exact HQ.
Qed.

Lemma runDFTBCalculation_files fs :
  Q fs -> Q (filesAfter (runDFTBCalculation env r fs requestDir (RequestID request))).
Proof.
  intros HQ. unfold runDFTBCalculation.
  destruct (IsNotExist (Stat env fs _)); [exact HQ|].
  assert (HQ' : Q (if processStarted env then engineWrites env fs else fs))
    by (destruct (processStarted env); auto).
  destruct (selectResult env _) as [|[err|]]; cbn; try exact HQ'.
  destruct (IsNotExist (Stat env _ _)); exact HQ'.
Qed.

Lemma finishOptimization_files fs cif outputPath :
  Q fs -> Q (filesLeft (finishOptimization env fs request requestDir cif outputPath)).
Proof.
  intros HQ. unfold finishOptimization, parseDFTBOutput, generateOptimizedCIF,
    ReadFromFile, errorRun.
  destruct (ReadFile env fs outputPath); cbn; try exact HQ.
  destruct (WriteFile env fs _ _) as [fs'| |] eqn:Hw; cbn; try exact HQ.
  apply WriteFile_lookup in Hw as ->.
  assert (HQ' : Q (<[PathJoin requestDir "optimized.cif"
                     := File (optimizedCIFContent env cif)]> fs))
    by (apply Q_write; [repeat constructor | exact HQ]).
  destruct (ReadFile env _ _); cbn; exact HQ'.
Qed.

Lemma RunOptimization_files fs fs1 :
  MkdirAll env fs requestDir = Ok fs1 -> Q fs1 ->
  Q (filesLeft (RunOptimization env r fs request)).
Proof.
  intros Hmk HQ. unfold RunOptimization, errorRun. fold requestDir. rewrite Hmk.
  destruct (ParseFromBase64 (StructureFile request)) as [cif| |]; cbn [filesLeft]; try exact HQ.
  destruct (ToDFTBInput (Some cif) (Method request) (Fmax request))
    as [dftbInput| |]; cbn [filesLeft]; try exact HQ.
  destruct (generateInputFiles env fs1 requestDir dftbInput) as [fs2| |] eqn:Hgen;
    cbn [filesLeft]; try exact HQ.
  pose proof (generateInputFiles_files _ _ _ HQ Hgen) as HQ2.
  pose proof (runDFTBCalculation_files fs2 HQ2) as HQ3.
  destruct (outcome (runDFTBCalculation env r fs2 requestDir (RequestID request)));
    cbn [filesLeft]; try exact HQ3.
  apply finishOptimization_files, HQ3.
Qed.

End Files.

Lemma RunOptimization_without_directory r fs request :
  (forall fs1, MkdirAll env fs (PathJoin (workDir r) (RequestID request)) <> Ok fs1) ->
  filesLeft (RunOptimization env r fs request) = fs.
Proof.
  intros Hmk. unfold RunOptimization.
  destruct (MkdirAll env fs _) as [fs1| |]; [|reflexivity|reflexivity].
  exfalso. exact (Hmk fs1 eq_refl).
Qed.



(** *** What a run answers *)

Lemma generateInputFiles_no_panic fs requestDir cif method fmax input e :
  ToDFTBInput (Some cif) method fmax = Ok input ->
  generateInputFiles env fs requestDir input <> Panic e.
Proof.
  intros Hin. unfold generateInputFiles.
  destruct (WriteFile env fs _ _) as [fs1| |] eqn:Hw1; try discriminate.
  { destruct (coordLines_synthesized cif method fmax input Hin)
      as (lines & Hlines & _).
    unfold generateGeometryContent, geometryLines. rewrite Hlines. cbn.
    destruct (WriteFile env fs1 _ _) as [fs2| |] eqn:Hw2; try discriminate.
    exfalso. exact (WriteFile_no_panic _ _ _ _ Hw2). }
  exfalso. exact (WriteFile_no_panic _ _ _ _ Hw1).
Qed.

Lemma runDFTBCalculation_no_panic r fs workDir requestID e :
  outcome (runDFTBCalculation env r fs workDir requestID) <> Panic e.
Proof.
  unfold runDFTBCalculation.
  destruct (IsNotExist (Stat env fs _)); [discriminate|].
  destruct (selectResult env _) as [|[err|]]; cbn; try discriminate.
  destruct (IsNotExist (Stat env _ _)); discriminate.
Qed.

Lemma errorRun_record request err fs :
  err <> "" ->
  exists resp, response (errorRun (RequestID request) err fs) = Ok resp
               /\ errorRecord request resp.
Proof.
  intros Herr. eexists. split; [reflexivity|]. repeat split. exact Herr.
Qed.

Lemma finishOptimization_answers fs request requestDir cif outputPath :
  exists resp,
    response (finishOptimization env fs request requestDir cif outputPath) = Ok resp
    /\ (errorRecord request resp \/ successRecord request resp).
Proof.
  unfold finishOptimization, parseDFTBOutput, generateOptimizedCIF, ReadFromFile.
  destruct (ReadFile env fs outputPath) as [content|e|e] eqn:Hr1.
  - destruct (WriteFile env fs _ _) as [fs'|e|e] eqn:Hw.
    + rewrite (read_after_write _ _ _ _ _ Hw). eexists. split; [reflexivity|].
      right. repeat split.
    + destruct (errorRun_record request
                  ("failed to generate optimized CIF: "
                   +:+ ("failed to write optimized CIF: " +:+ e)) fs)
        as (resp & Hr & Hrec); [discriminate|]. eauto.
    + exfalso. exact (WriteFile_no_panic _ _ _ _ Hw).
  - destruct (errorRun_record request
                ("failed to parse DFTB+ output: "
                 +:+ ("failed to read output file: " +:+ e)) fs)
      as (resp & Hr & Hrec); [discriminate|]. eauto.
  - exfalso. exact (ReadFile_no_panic _ _ _ Hr1).
Qed.

Lemma RunOptimization_cases (r : DFTBRunner) (fs : gmap string Node)
    (request : OptimizationRequest) :
  match response (RunOptimization env r fs request) with
  | Ok resp => errorRecord request resp \/ successRecord request resp
  | Err e =>
      (exists e', MkdirAll env fs (PathJoin (workDir r) (RequestID request)) = Err e'
                  /\ e = "failed to create request directory: " +:+ e')
      /\ filesLeft (RunOptimization env r fs request) = fs
  | Panic e => ParseFromBase64 (StructureFile request) = Panic e
  end.
Proof.
  unfold RunOptimization.
  set (requestDir := PathJoin (workDir r) (RequestID request)).
  destruct (MkdirAll env fs requestDir) as [fs1| |] eqn:Hmk; cbn [response filesLeft].
  2: { split; [eauto | reflexivity]. }
  2: { exfalso. exact (MkdirAll_no_panic _ _ _ Hmk). }
  destruct (ParseFromBase64 (StructureFile request)) as [cif| |] eqn:Hparse;
    cbn [response]; [| |reflexivity].
  2: { left. repeat split. discriminate. }
  destruct (ToDFTBInput (Some cif) (Method request) (Fmax request))
    as [dftbInput| |] eqn:Hin; cbn [response].
  2: { left. repeat split. discriminate. }
  2: { exfalso. exact (ToDFTBInput_no_panic _ _ _ _ Hin). }
  destruct (generateInputFiles env fs1 requestDir dftbInput) as [fs2| |] eqn:Hgen;
    cbn [response].
  2: { left. repeat split. discriminate. }
  2: { exfalso. exact (generateInputFiles_no_panic _ _ _ _ _ _ _ Hin Hgen). }
  destruct (outcome (runDFTBCalculation env r fs2 requestDir (RequestID request)))
    as [outputPath| |] eqn:Hcalc; cbn [response].
  2: { left. repeat split. discriminate. }
  2: { exfalso. exact (runDFTBCalculation_no_panic _ _ _ _ _ Hcalc). }
  destruct (finishOptimization_answers
              (filesAfter (runDFTBCalculation env r fs2 requestDir (RequestID request)))
              request requestDir cif outputPath) as (resp & -> & Hrec).
  exact Hrec.
Qed.


(** *** The timer *)

Lemma timeoutDuration_not_positive (config : ServerConfig) :
  - 9223372036 <= Timeout config <= 0
  \/ 9223372037 <= Timeout config <= 18446744073 ->
  Z.max 0 (timeoutDuration config) = 0.
Proof.
  unfold timeoutDuration, Second. intros [Hrange|Hrange].
  - rewrite wrap64_small; change (2 ^ 63) with 9223372036854775808; lia.
  - unfold wrap64.
    rewrite <- (Z_mod_plus_full _ (-1)), Z.mod_small;
      change (2 ^ 63) with 9223372036854775808;
      change (2 ^ 64) with 18446744073709551616; lia.
Qed.


(** *** Status of a job after its run *)

Ltac not_success :=
  cbn [response]; try discriminate; try (intros [= <-]; discriminate).

(** X18.  A job whose engine produces no output file is reported as
    running for ever: when the engine leaves [dftb_out.hsd] and the request
    directory as they are and the output file is not there before the run,
    every record the run answers is an error record, and [GetStatus] on the
    files the run leaves says "running". *)
Theorem job_without_output_is_reported_running (r : DFTBRunner)
    (fs : gmap string Node) (request : OptimizationRequest)
    (resp : OptimizationResponse) :
  let requestDir := PathJoin (workDir r) (RequestID request) in
  let outputPath := PathJoin requestDir "dftb_out.hsd" in
  fault env "stat" requestDir = None -> fault env "stat" outputPath = None ->
  fs !! outputPath = None ->
  outputPath ∉ [ requestDir; PathJoin requestDir "dftb_in.hsd";
                 PathJoin requestDir "geometry.gen";
                 PathJoin requestDir "optimized.cif" ] ->
  (forall fs', engineWrites env fs' !! outputPath = fs' !! outputPath) ->
  (forall fs', engineWrites env fs' !! requestDir = fs' !! requestDir) ->
  response (RunOptimization env r fs request) = Ok resp ->
  Status resp = "error"
  /\ GetStatus env r (filesLeft (RunOptimization env r fs request))
       (RequestID request) = Ok "running".
Proof.
  cbv zeta.
  set (requestDir := PathJoin (workDir r) (RequestID request)).
  set (outputPath := PathJoin requestDir "dftb_out.hsd").
  intros Hfd Hfo Hnone Hpath Hkeep Hdir Hresp.
  pose proof Hpath as Hpath'.
  rewrite !not_elem_of_cons in Hpath'. destruct Hpath' as (Hd & Hi & Hg & Ho & _).
  destruct (MkdirAll env fs requestDir) as [fs1| |] eqn:Hmk.
  2,3: unfold RunOptimization in Hresp; fold requestDir in Hresp;
       rewrite Hmk in Hresp; discriminate.
  assert (Habsent : forall fs', fs' !! outputPath = None ->
                                Stat env fs' outputPath = StatNotExist).
  { intros fs' Hfs'. unfold Stat. rewrite Hfo, Hfs'. reflexivity. }
  split.
  - revert Hresp. unfold RunOptimization, errorRun, createErrorResponse.
    fold requestDir. rewrite Hmk.
    destruct (ParseFromBase64 (StructureFile request)) as [cif| |];
      cbn [response]; try discriminate; try (intros [= <-]; reflexivity).
    destruct (ToDFTBInput (Some cif) (Method request) (Fmax request))
      as [dftbInput| |]; cbn [response]; try discriminate;
      try (intros [= <-]; reflexivity).
    destruct (generateInputFiles env fs1 requestDir dftbInput) as [fs2| |] eqn:Hgen;
      cbn [response]; try discriminate; try (intros [= <-]; reflexivity).
    assert (Hfs2 : fs2 !! outputPath = None).
    { apply (generateInputFiles_files r request
               (fun fs' => fs' !! outputPath = None)) with (fs := fs1) (input := dftbInput).
      - intros fs' name content Hname Hfs'. fold requestDir.
        rewrite lookup_insert_ne; [exact Hfs'|].
        rewrite !elem_of_cons in Hname.
        destruct Hname as [->|[->|[->|Hname]]]; try congruence.
        apply elem_of_nil in Hname. contradiction.
      - apply MkdirAll_lookup in Hmk as [[->| ->] _]; [exact Hnone|].
        rewrite lookup_insert_ne; [exact Hnone | congruence].
      - exact Hgen. }
    unfold runDFTBCalculation.
    destruct (IsNotExist (Stat env fs2 _)); cbn [outcome response];
      [intros [= <-]; reflexivity|].
    destruct (selectResult env _) as [|[err|]]; cbn [outcome response];
      try (intros [= <-]; reflexivity).
    fold outputPath. rewrite Habsent; [cbn; intros [= <-]; reflexivity|].
    destruct (processStarted env); [rewrite Hkeep|]; exact Hfs2.
  - unfold GetStatus. fold requestDir. fold outputPath.
    assert (Hthere : is_Some (filesLeft (RunOptimization env r fs request) !! requestDir)).
    { apply (RunOptimization_files r request (fun fs' => is_Some (fs' !! requestDir)))
        with (fs1 := fs1).
      - intros fs' Hfs'. rewrite Hdir. exact Hfs'.
      - intros fs' name content _ Hfs'. fold requestDir.
        destruct (decide (PathJoin requestDir name = requestDir)) as [->|Hne].
        + rewrite lookup_insert_eq. eauto.
        + rewrite lookup_insert_ne by exact Hne. exact Hfs'.
      - exact Hmk.
      - apply MkdirAll_lookup in Hmk as [_ Hsome]. exact Hsome. }
    destruct Hthere as [node Hnode].
    assert (Hgone : filesLeft (RunOptimization env r fs request) !! outputPath = None).
    { rewrite <- Hnone.
      apply (RunOptimization_files r request
               (fun fs' => fs' !! outputPath = fs !! outputPath)) with (fs1 := fs1).
      - intros fs' <-. apply Hkeep.
      - intros fs' name content Hname <-. fold requestDir. apply lookup_insert_ne.
        rewrite !elem_of_cons in Hname.
        destruct Hname as [->|[->|[->|Hname]]]; try congruence.
        apply elem_of_nil in Hname. contradiction.
      - exact Hmk.
      - apply MkdirAll_lookup in Hmk as [[->| ->] _]; [reflexivity|].
        apply lookup_insert_ne. congruence. }
    unfold Stat at 1. rewrite Hfd, Hnode. cbn [IsNotExist].
    rewrite (Habsent _ Hgone). reflexivity.
Qed.

(** X19.  After a success the job is never reported as running or not
    found: when the engine keeps the request directory, [GetStatus] on the
    files a successful run leaves says "error" if [error.log] is found in
    the request directory and "completed" otherwise. *)
Theorem successful_job_is_reported_completed_or_error (r : DFTBRunner)
    (fs : gmap string Node) (request : OptimizationRequest)
    (resp : OptimizationResponse) :
  let requestDir := PathJoin (workDir r) (RequestID request) in
  let left := filesLeft (RunOptimization env r fs request) in
  (forall fs', is_Some (fs' !! requestDir) ->
               is_Some (engineWrites env fs' !! requestDir)) ->
  response (RunOptimization env r fs request) = Ok resp ->
  Status resp = "success" ->
  GetStatus env r left (RequestID request)
  = Ok (if IsNotExist (Stat env left (PathJoin requestDir "error.log"))
        then "completed" else "error").
Proof.
  cbv zeta. set (requestDir := PathJoin (workDir r) (RequestID request)).
  intros Hdir Hresp Hstatus.
  assert (Hkept : forall fs' path content,
            IsNotExist (Stat env fs' path) = false ->
            IsNotExist (Stat env (<[PathJoin requestDir "optimized.cif"
                                    := File content]> fs') path) = false).
  { intros fs' path content. unfold Stat. destruct (fault env "stat" path); [auto|].
    destruct (decide (PathJoin requestDir "optimized.cif" = path)) as [->|Hne].
    - rewrite lookup_insert_eq. reflexivity.
    - rewrite lookup_insert_ne by exact Hne. auto. }
  assert (Hthere : is_Some (filesLeft (RunOptimization env r fs request) !! requestDir)).
  { destruct (MkdirAll env fs requestDir) as [fs1| |] eqn:Hmk.
    2,3: unfold RunOptimization in Hresp; fold requestDir in Hresp;
         rewrite Hmk in Hresp; discriminate.
    apply (RunOptimization_files r request (fun fs' => is_Some (fs' !! requestDir)))
      with (fs1 := fs1).
    - exact Hdir.
    - intros fs' name content _ Hfs'. fold requestDir.
      destruct (decide (PathJoin requestDir name = requestDir)) as [->|Hne].
      + rewrite lookup_insert_eq. eauto.
      + rewrite lookup_insert_ne by exact Hne. exact Hfs'.
    - exact Hmk.
    - apply MkdirAll_lookup in Hmk as [_ Hsome]. exact Hsome. }
  assert (Hout : IsNotExist (Stat env (filesLeft (RunOptimization env r fs request))
                               (PathJoin requestDir "dftb_out.hsd")) = false).
  { revert Hresp Hstatus. unfold RunOptimization, errorRun, createErrorResponse.
    fold requestDir.
    destruct (MkdirAll env fs requestDir) as [fs1| |]; not_success.
    destruct (ParseFromBase64 (StructureFile request)) as [cif| |]; not_success.
    destruct (ToDFTBInput (Some cif) (Method request) (Fmax request))
      as [dftbInput| |]; not_success.
    destruct (generateInputFiles env fs1 requestDir dftbInput) as [fs2| |]; not_success.
    unfold runDFTBCalculation.
    destruct (IsNotExist (Stat env fs2 _)); cbn [outcome filesAfter]; not_success.
    destruct (selectResult env _) as [|[err|]]; cbn [outcome filesAfter]; not_success.
    destruct (IsNotExist (Stat env _ (PathJoin requestDir "dftb_out.hsd"))) eqn:Hstat;
      cbn [outcome filesAfter]; not_success.
    unfold finishOptimization, parseDFTBOutput, generateOptimizedCIF, ReadFromFile,
      errorRun, createErrorResponse.
    destruct (ReadFile env _ (PathJoin requestDir "dftb_out.hsd")); not_success.
    destruct (WriteFile env _ _ _) as [fs'| |] eqn:Hw; not_success.
    apply WriteFile_lookup in Hw as ->.
    destruct (ReadFile env _ _); not_success.
    intros _ _. cbn [filesLeft]. apply Hkept, Hstat. }
  unfold GetStatus. fold requestDir. rewrite Hout.
  destruct Hthere as [node Hnode].
  replace (IsNotExist (Stat env (filesLeft (RunOptimization env r fs request))
                         requestDir)) with false.
  - destruct (IsNotExist (Stat env _ (PathJoin requestDir "error.log"))); reflexivity.
  - unfold Stat. destruct (fault env "stat" requestDir); [reflexivity|].
    rewrite Hnode. reflexivity.
Qed.


(** *** What a successful run has optimised *)

Lemma ParseFromBase64_without_atoms (content : string) (cif : CIFFile) :
  ParseFromBase64 content = Ok cif -> noAtoms cif.
Proof.
  unfold ParseFromBase64. destruct (Base64Decode content) as [decoded|e];
    [|discriminate].
  apply (ParseFromString_holds noAtoms); unfold noAtoms; auto.
Qed.

(** X20.  Every successful run has optimised a structure without atoms:
    the structure parsed from the request has no atom site, the geometry
    file generated for the engine is the one of zero atoms, and the text
    returned is the one written for that structure. *)
Theorem successful_run_has_no_atom (r : DFTBRunner) (fs : gmap string Node)
    (request : OptimizationRequest) (resp : OptimizationResponse) :
  response (RunOptimization env r fs request) = Ok resp ->
  Status resp = "success" ->
  exists cif input,
    ParseFromBase64 (StructureFile request) = Ok cif
    /\ AtomSites (DataBlock cif) = []
    /\ ToDFTBInput (Some cif) (Method request) (Fmax request) = Ok input
    /\ Geometry_Elements input = [] /\ Geometry_Coordinates input = []
    /\ generateGeometryContent input = Ok ("0 F" +:+ LF +:+ LF)
    /\ OutputCIFPath resp = Base64Encode (optimizedCIFContent env cif).
Proof.
  unfold RunOptimization, errorRun, createErrorResponse.
  set (requestDir := PathJoin (workDir r) (RequestID request)).
  destruct (MkdirAll env fs requestDir) as [fs1| |]; not_success.
  destruct (ParseFromBase64 (StructureFile request)) as [cif| |] eqn:Hparse;
    not_success.
  destruct (ToDFTBInput (Some cif) (Method request) (Fmax request))
    as [dftbInput| |] eqn:Hin; not_success.
  destruct (generateInputFiles env fs1 requestDir dftbInput) as [fs2| |]; not_success.
  destruct (outcome (runDFTBCalculation env r fs2 requestDir (RequestID request)));
    not_success.
  intros Hresp Hstatus.
  pose proof (ParseFromBase64_without_atoms _ _ Hparse) as Hnone.
  unfold noAtoms in Hnone.
  destruct (ToDFTBInput_elements cif _ _ dftbInput Hin) as (_ & Hmem & Hcoords).
  rewrite Hnone in Hmem, Hcoords. cbn [map] in Hmem, Hcoords.
  assert (Helems : Geometry_Elements dftbInput = []).
  { destruct (Geometry_Elements dftbInput) as [|e elems]; [reflexivity|].
    exfalso. eapply elem_of_nil, Hmem. left. }
  exists cif, dftbInput. repeat split; try assumption.
  - unfold generateGeometryContent, geometryLines. rewrite Helems, Hcoords.
    reflexivity.
  - eapply finishOptimization_success; eassumption.
Qed.

End RunProperties.

(** * Further properties of the handlers *)

Section HandlerProperties.
Context `{GoLib}.
Context (env : Env).

Lemma Join_one (e sep : string) : Join [e] sep = e.
Proof. reflexivity. Qed.

Lemma ShouldBindJSON_ok (body request : OptimizationRequest) :
  ShouldBindJSON body = Ok request ->
  request = body /\ bindingErrors body = [].
Proof.
  unfold ShouldBindJSON. destruct (bindingErrors body); [|discriminate].
  intros [= <-]. split; reflexivity.
Qed.

Lemma bindingErrors_nil (body : OptimizationRequest) :
  bindingErrors body = [] ->
  String.eqb (RequestID body) "" = false
  /\ String.eqb (StructureFile body) "" = false
  /\ String.eqb (Method body) "" = false
  /\ PrimFloat.eqb (Fmax body) 0 = false
  /\ PrimFloat.ltb (Fmax body) 0.001 = false.
Proof.
  unfold bindingErrors.
  destruct (String.eqb (RequestID body) ""); [discriminate|].
  destruct (String.eqb (StructureFile body) ""); [discriminate|].
  destruct (String.eqb (Method body) ""); [discriminate|].
  destruct (PrimFloat.eqb (Fmax body) 0); [discriminate|].
  destruct (PrimFloat.ltb (Fmax body) 0.001); [discriminate|].
  intros _. repeat split.
Qed.

(** A threshold that is not below 0.001 is positive, in binary64. *)
Lemma not_below_minimum_is_positive (x : float) :
  PrimFloat.eqb x 0 = false -> PrimFloat.ltb x 0.001 = false ->
  PrimFloat.leb x 0 = false.
Proof.
  rewrite FloatAxioms.eqb_spec, FloatAxioms.ltb_spec, FloatAxioms.leb_spec.
  replace (Prim2SF 0) with (S754_zero false) by (vm_compute; reflexivity).
  replace (Prim2SF 0.001) with (S754_finite false 4611686018427388 (-62))
    by (vm_compute; reflexivity).
  unfold SFeqb, SFltb, SFleb.
  destruct (Prim2SF x) as [s|s| |s m e]; cbn [SFcompare];
    try destruct s; congruence.
Qed.

(** X21.  Admission depends on the body alone: neither the handler nor the
    identifier held ready by [uuid.New] has any influence, because a body
    without request identifier never passes the binding. *)
Theorem accept_ignores_generated_identifier (h1 h2 : APIHandler)
    (body : OptimizationRequest) (uuid1 uuid2 : string) :
  accept h1 body uuid1 = accept h2 body uuid2.
Proof.
  unfold accept. destruct (ShouldBindJSON body) as [request| |] eqn:Hbind;
    try reflexivity.
  apply ShouldBindJSON_ok in Hbind as [-> Hnil].
  apply bindingErrors_nil in Hnil as (-> & _). reflexivity.
Qed.

(** X22.  Of the four checks of [ValidateRequest], the binding leaves only
    the one of the method to fail: an answer "Invalid request parameters"
    always carries "invalid method: ..." for a method that is neither
    GFN1-xTB nor GFN2-xTB. *)
Theorem accept_rejects_parameters_only_for_method (h : APIHandler)
    (body : OptimizationRequest) (uuid details : string) :
  accept h body uuid = BadRequest "Invalid request parameters" details ->
  details = "invalid method: " +:+ Method body
  /\ Method body <> "GFN1-xTB" /\ Method body <> "GFN2-xTB".
Proof.
  unfold accept. destruct (ShouldBindJSON body) as [request| |] eqn:Hbind;
    try discriminate.
  apply ShouldBindJSON_ok in Hbind as [-> Hnil].
  apply bindingErrors_nil in Hnil as (Hid & Hfile & Hmethod & Hzero & Hmin).
  rewrite Hid. unfold ValidateRequest. rewrite Hid, Hfile.
  rewrite (not_below_minimum_is_positive _ Hzero Hmin).
  destruct (String.eqb_spec (Method body) "GFN1-xTB") as [|Hm1]; [discriminate|].
  destruct (String.eqb_spec (Method body) "GFN2-xTB") as [|Hm2]; [discriminate|].
  cbn. intros [= <-]. auto.
Qed.

Lemma accept_runs (h : APIHandler) (body request : OptimizationRequest)
    (uuid : string) :
  accept h body uuid = Runs request -> request = body.
Proof.
  unfold accept. destruct (ShouldBindJSON body) as [request'| |] eqn:Hbind;
    try discriminate.
  apply ShouldBindJSON_ok in Hbind as [-> Hnil].
  apply bindingErrors_nil in Hnil as (-> & _).
  destruct (ValidateRequest body); try discriminate. intros [= <-]. reflexivity.
Qed.


(** X24.  [getStatus] never answers 500: for an identifier that is not
    empty the answer is 200 with one of the four states. *)
Theorem getStatus_always_answers_200 (h : APIHandler) (fs : gmap string Node)
    (requestID : string) :
  requestID <> "" ->
  exists status,
    getStatus env h fs requestID = (Some 200, status)
    /\ status ∈ ["not_found"; "running"; "error"; "completed"].
Proof.
  intros Hid. unfold getStatus, GetStatus.
  apply String.eqb_neq in Hid. rewrite Hid.
  destruct (IsNotExist (Stat env fs _)).
  { eexists. split; [reflexivity|]. repeat constructor. }
  destruct (IsNotExist (Stat env fs _)).
  { eexists. split; [reflexivity|]. repeat constructor. }
  destruct (IsNotExist (Stat env fs _)); cbn [negb];
    (eexists; split; [reflexivity|]; repeat constructor).
Qed.

(** X25.  A configuration that [validateConfig] accepts gives the
    supervision what it needs, as long as the timeout fits a
    [time.Duration]: on the same files the executable is found, and an
    engine that exits with status 0 before the timeout and leaves its output
    file makes [runDFTBCalculation] return the output path. *)
Theorem validated_config_supervises (fs : gmap string Node) (conf : ServerConfig)
    (workDir requestID : string) (elapsed : N) :
  validateConfig env fs conf = Ok tt ->
  Timeout conf <= 9223372036 ->
  proc env = Exits elapsed 0 ->
  Z.of_N elapsed < Timeout conf * Second ->
  IsNotExist (Stat env (engineWrites env fs) (PathJoin workDir "dftb_out.hsd")) = false ->
  outcome (runDFTBCalculation env (NewDFTBRunner conf) fs workDir requestID)
  = Ok (PathJoin workDir "dftb_out.hsd").
Proof.
  unfold validateConfig. intros Hvalid Hmax Hproc Hfast Hout.
  destruct ((Port conf <=? 0) || (65535 <? Port conf)); [discriminate|].
  destruct (String.eqb (WorkDir conf) ""); [discriminate|].
  destruct (String.eqb (DFTBPath conf) ""); [discriminate|].
  destruct (MaxRequests conf <=? 0); [discriminate|].
  destruct (Z.leb_spec (Timeout conf) 0) as [|Hpos]; [discriminate|].
  destruct (IsNotExist (Stat env fs (DFTBPath conf))) eqn:Hfound; [discriminate|].
  unfold runDFTBCalculation. cbn [config NewDFTBRunner]. rewrite Hfound.
  unfold selectResult, processStarted. rewrite Hproc.
  rewrite timeoutDuration_seconds by lia.
  destruct (Z.ltb_spec (Z.of_N elapsed) (Timeout conf * Second)); [|lia].
  cbn [exitError Z.eqb]. rewrite Hout. reflexivity.
Qed.


(** *** The tool in front of the service *)

Lemma normalMethod_valid (m : option string) :
  String.eqb (Tool.normalMethod m) "" = false
  /\ (String.eqb (Tool.normalMethod m) "GFN1-xTB"
      || String.eqb (Tool.normalMethod m) "GFN2-xTB") = true.
Proof.
  unfold Tool.normalMethod. destruct m as [m|]; [|split; reflexivity].
  destruct (String.eqb m "") eqn:Hempty; [split; reflexivity|]. cbn [orb].
  unfold isOneOf. cbn [existsb]. rewrite orb_false_r.
  destruct (String.eqb m "GFN1-xTB" || String.eqb m "GFN2-xTB") eqn:Hm; cbn [negb];
    [|split; reflexivity].
  split; [exact Hempty | exact Hm].
Qed.

Lemma normalFmax_posted (f : option float) :
  let x := Tool.jsonNumber (Tool.normalFmax f) in
  PrimFloat.eqb x 0 = true
  \/ (PrimFloat.eqb x 0 = false /\ PrimFloat.leb x 0 = false).
Proof.
  cbv zeta. unfold Tool.normalFmax.
  assert (Hdefault : PrimFloat.eqb (Tool.jsonNumber 0.1) 0 = false
                     /\ PrimFloat.leb (Tool.jsonNumber 0.1) 0 = false)
    by (split; vm_compute; reflexivity).
  destruct f as [x|]; [|right; exact Hdefault].
  unfold Tool.falsyNumber.
  destruct (PrimFloat.eqb x 0) eqn:Hzero; cbn [orb]; [right; exact Hdefault|].
  destruct (PrimFloat.is_nan x) eqn:Hnan; cbn [orb]; [right; exact Hdefault|].
  destruct (PrimFloat.leb x 0) eqn:Hneg; [right; exact Hdefault|].
  unfold Tool.jsonNumber. rewrite Hnan. cbn [orb].
  destruct (PrimFloat.is_infinity x).
  - left. vm_compute. reflexivity.
  - right. split; assumption.
Qed.

(** X27.  The tool in front of the service makes every check of the
    service pass but those of the threshold: a body posted by [execute],
    with the identifier [uuidv4] gives, is run by [optimizeStructure], or
    refused at the binding for its [Fmax] (below 0.001, or not finite and
    so posted as [null]); it is never refused for its identifier, structure
    or method. *)
Theorem tool_request_is_refused_only_for_fmax (h : APIHandler)
    (params : Tool.Params) (requestId uuid : string) (body : OptimizationRequest) :
  requestId <> "" ->
  Tool.execute params requestId = inr body ->
  accept h body uuid = Runs body
  \/ exists tag, tag ∈ ["required"; "min"]
                 /\ accept h body uuid
                    = BadRequest "Invalid request format" (fieldError "Fmax" tag).
Proof.
  intros Hid. apply String.eqb_neq in Hid. unfold Tool.execute.
  destruct (Tool.structure_file params) as [structureFile|]; [|discriminate].
  destruct (String.eqb structureFile "") eqn:Hfile; [discriminate|].
  intros [= <-].
  destruct (normalMethod_valid (Tool.method params)) as [Hmethod Hknown].
  pose proof (normalFmax_posted (Tool.fmax params)) as Hfmax. cbv zeta in Hfmax.
  unfold accept, ShouldBindJSON, bindingErrors, ValidateRequest, Tool.requestBody.
  cbn [RequestID StructureFile Method Fmax]. rewrite Hid, Hfile, Hmethod.
  cbn [app].
  destruct Hfmax as [Hzero|[Hzero Hpos]]; rewrite Hzero.
  - right. exists "required". split; [repeat constructor | reflexivity].
  - destruct (PrimFloat.ltb _ 0.001).
    + right. exists "min". split; [repeat constructor | reflexivity].
    + left. cbv beta iota zeta delta [RequestID StructureFile Method Fmax].
      rewrite ?Hid, ?Hfile, ?Hpos.
      cbv beta iota zeta delta [RequestID StructureFile Method Fmax].
      rewrite ?Hid, ?Hfile, ?Hpos.
      apply orb_prop in Hknown as [-> | ->]; rewrite ?andb_false_r; reflexivity.
Qed.

End HandlerProperties.

(** * The further properties at concrete inputs *)

(** A second block replaces the first: nothing of [data_a] is kept. *)
Lemma second_block_replaces_first :
  ParseFromString (H := Ref.lib)
    (("data_a" +:+ LF +:+ "_cell_length_a 5.0") +:+ LF +:+ "data_b")
  = ParseFromString (H := Ref.lib) "data_b"
  /\ ParseFromString (H := Ref.lib) "data_b" = Ok (newDataBlock "b").
Proof.
  split; [|vm_compute; reflexivity].
  apply (@ParseFromString_forgets_earlier_blocks Ref.lib
           ("data_a" +:+ LF +:+ "_cell_length_a 5.0") "data_b").
  - eexists. vm_compute. reflexivity.
  - exists "data_b", []. split; vm_compute; reflexivity.
Defined.

(** The rows of a loop do not reach the result. *)
Lemma loop_rows_are_dropped :
  ParseFromString (H := Ref.lib)
    ("data_a" +:+ LF +:+ "loop_" +:+ LF
     +:+ ("_atom_site_label" +:+ LF +:+ "C1" +:+ LF +:+ "_cell_length_a 5.0"))
  = ParseFromString (H := Ref.lib) ("data_a" +:+ LF)
  /\ ParseFromString (H := Ref.lib) ("data_a" +:+ LF) = Ok (newDataBlock "a").
Proof.
  split; [|vm_compute; reflexivity].
  apply (@ParseFromString_drops_what_follows_loop Ref.lib "data_a"
           ("_atom_site_label" +:+ LF +:+ "C1" +:+ LF +:+ "_cell_length_a 5.0")).
  vm_compute. reflexivity.
Defined.

(** A comment between the declaration and a cell length. *)
Lemma comment_line_is_ignored :
  ParseFromString (H := Ref.lib)
    ("data_a" +:+ LF +:+ "# a comment" +:+ LF +:+ "_cell_length_a 5.0")
  = ParseFromString (H := Ref.lib) ("data_a" +:+ LF +:+ "_cell_length_a 5.0").
Proof.
  apply (@ParseFromString_ignores_skipped_line Ref.lib "data_a" "# a comment"
           "_cell_length_a 5.0"); vm_compute; reflexivity.
Defined.

(** A title line before the declaration. *)
Lemma title_before_declaration_panics :
  ParseFromString (H := Ref.lib) ("title a structure" +:+ LF +:+ "data_a")
  = Panic nilDeref.
Proof.
  apply (@ParseFromString_panics_on_leading_key_value Ref.lib "title a structure"
           "data_a"); vm_compute; reflexivity.
Defined.

(** The two-carbon text stores its six cell parameters and nothing else. *)
Lemma two_carbon_text_stores_recognised_keys :
  exists cif,
    ParseFromString (H := Ref.lib) twoCarbonText = Ok cif
    /\ recognisedCell cif
    /\ size (dom (CellLength (DataBlock cif))) = 3%nat.
Proof.
  eexists. split; [vm_compute; reflexivity|]. split; [|vm_compute; reflexivity].
  apply (@ParseFromString_stores_recognised_cell_keys Ref.lib twoCarbonText).
  vm_compute. reflexivity.
Defined.

(** The type symbol in the first column and the label in the second. *)
Lemma swapped_columns_are_read_by_name :
  Label swappedSite = "C1" /\ TypeSymbol swappedSite = "C"
  /\ FractX swappedSite = 0.5%float.
Proof.
  destruct (@fillRow_reads_atom_columns_by_name Ref.lib swappedHeaders
              ["C"; "C1"; "0.5"]) as (Hlabel & Hsymbol & Hx & _).
  { apply (bool_decide_unpack _). vm_compute. exact I. }
  split; [exact (Hlabel 1%nat "C1" eq_refl eq_refl)|].
  split; [exact (Hsymbol 0%nat "C" eq_refl eq_refl)|].
  exact (Hx 2%nat "0.5" eq_refl eq_refl).
Defined.

(** A space-group symbol between double quotes. *)
Lemma quoted_symbol_is_given_back :
  stripQuotes (dquote +:+ "P 1" +:+ dquote) = "P 1"
  /\ stripQuotes ("'" +:+ "P 1" +:+ "'") = "P 1".
Proof.
  split.
  - apply (stripQuotes_gives_back_quoted "P 1" (ascii_of_N 34));
      [left; reflexivity | reflexivity | reflexivity].
  - apply (stripQuotes_gives_back_quoted "P 1" (ascii_of_N 39));
      [right; reflexivity | reflexivity | reflexivity].
Defined.

(** The two-carbon text between a comment and a trailer. *)
Lemma validation_accepts_the_text_inside_comments :
  ValidateCIFContent (("# header" +:+ LF) +:+ twoCarbonText +:+ "# end") = Ok tt.
Proof.
  apply (ValidateCIFContent_accepts_extensions ("# header" +:+ LF) twoCarbonText
           "# end").
  vm_compute. reflexivity.
Defined.

(** Two carbons and a hydrogen: two species. *)
Lemma carbon_and_hydrogen_are_listed_once :
  exists input,
    ToDFTBInput (Some carbonCarbonHydrogen) "GFN1-xTB" 0.01 = Ok input
    /\ Geometry_Elements input = ["C"; "H"]
    /\ NoDup (Geometry_Elements input).
Proof.
  eexists. split; [vm_compute; reflexivity|]. split; [vm_compute; reflexivity|].
  eapply (ToDFTBInput_lists_each_species_once carbonCarbonHydrogen "GFN1-xTB"
            0.01%float).
  vm_compute. reflexivity.
Defined.

(** The two-carbon structure under another name, with other angles and
    labels, gives the same engine input. *)
Lemma renamed_structure_gives_the_same_input :
  ToDFTBInput (Some twoCarbonCell) "GFN2-xTB" 0.001
  = ToDFTBInput (Some renamedTwoCarbonCell) "GFN2-xTB" 0.001.
Proof.
  apply ToDFTBInput_ignores_angles_and_labels;
    [discriminate | discriminate | reflexivity | reflexivity].
Defined.

(** The geometry file of the structure with three sites has five lines. *)
Lemma three_site_geometry_has_five_lines :
  exists input lines,
    ToDFTBInput (Some carbonCarbonHydrogen) "GFN1-xTB" 0.01 = Ok input
    /\ geometryLines (H := Ref.lib) input = Ok lines
    /\ length lines = 5%nat.
Proof.
  destruct (@synthesized_geometry_is_written Ref.lib carbonCarbonHydrogen
              "GFN1-xTB" 0.01%float
              {| Geometry_Periodic := true;
                 Geometry_LatticeVectors := [[10; 0; 0]; [0; 10; 0]; [0; 0; 10]]%float;
                 Geometry_Elements := ["C"; "H"];
                 Geometry_Coordinates := [[0; 0; 0]; [5; 5; 0]; [2.5; 0; 0]]%float;
                 Hamiltonian_Method := "GFN1-xTB"; Analysis_Forces := true;
                 Options_Fmax := 0.01%float |})
    as (lines & Hlines & _ & Hlen); [vm_compute; reflexivity|].
  eexists _, lines. split; [vm_compute; reflexivity|]. split; assumption.
Defined.

(** The geometry file of the two-carbon structure. *)
Lemma two_carbon_geometry_lines :
  exists input,
    ToDFTBInput (Some twoCarbonCell) "GFN2-xTB" 0.001 = Ok input
    /\ geometryLines (H := Ref.lib) input
       = Ok [ "2 F" +:+ LF;
              "C" +:+ LF;
              "C   0.00000000   0.00000000   0.00000000" +:+ LF;
              "C   5.00000000   5.00000000   0.00000000" +:+ LF ].
Proof.
  eexists. split; [vm_compute; reflexivity|].
  etransitivity.
  - apply (@single_species_geometry_lines Ref.lib twoCarbonCell "GFN2-xTB"
             0.001%float _ "C");
      [vm_compute; reflexivity | discriminate | repeat constructor].
  - vm_compute. reflexivity.
Defined.



(** The job of an engine that never exits: an error record, and the state
    "running" afterwards. *)
Lemma timed_out_job_is_reported_running :
  exists resp,
    response (RunOptimization (H := Ref.lib) stuckEngine (NewDFTBRunner oneSlot)
                cleanDisk (submission "job-1")) = Ok resp
    /\ ErrorMessage resp
       = "DFTB+ calculation failed: DFTB+ calculation timed out after 300 seconds"
    /\ Status resp = "error"
    /\ GetStatus (H := Ref.lib) stuckEngine (NewDFTBRunner oneSlot)
         (filesLeft (RunOptimization (H := Ref.lib) stuckEngine
                       (NewDFTBRunner oneSlot) cleanDisk (submission "job-1")))
         "job-1" = Ok "running".
Proof.
  eexists. split; [vm_compute; reflexivity|]. split; [reflexivity|].
  apply (@job_without_output_is_reported_running Ref.lib stuckEngine
           (NewDFTBRunner oneSlot) cleanDisk (submission "job-1")).
  - reflexivity.
  - reflexivity.
  - vm_compute. reflexivity.
  - apply (bool_decide_unpack _). vm_compute. exact I.
  - intros fs'. reflexivity.
  - intros fs'. reflexivity.
  - vm_compute. reflexivity.
Defined.

(** The job of an engine that ends well, with no [error.log]: "completed". *)
Lemma finished_job_is_reported_completed :
  GetStatus (H := Ref.lib) (quietDay "2026-01-01" "job-1") (NewDFTBRunner oneSlot)
    (filesLeft (RunOptimization (H := Ref.lib) (quietDay "2026-01-01" "job-1")
                  (NewDFTBRunner oneSlot) cleanDisk (submission "job-1")))
    "job-1" = Ok "completed".
Proof.
  assert (Hrun : exists resp,
            response (RunOptimization (H := Ref.lib) (quietDay "2026-01-01" "job-1")
                        (NewDFTBRunner oneSlot) cleanDisk (submission "job-1"))
            = Ok resp /\ Status resp = "success").
  { eexists. split; [vm_compute; reflexivity | reflexivity]. }
  destruct Hrun as (resp & Hresp & Hstatus).
  etransitivity.
  - apply (@successful_job_is_reported_completed_or_error Ref.lib
             (quietDay "2026-01-01" "job-1") (NewDFTBRunner oneSlot) cleanDisk
             (submission "job-1") resp); [|exact Hresp|exact Hstatus].
    intros fs' Hsome. cbn [engineWrites quietDay]. unfold engineOutput.
    rewrite lookup_insert_ne by (vm_compute; discriminate). exact Hsome.
  - vm_compute. reflexivity.
Defined.

(** The successful run on the two-carbon text has optimised no atom. *)
Lemma two_carbon_run_has_no_atom :
  exists cif,
    ParseFromBase64 (H := Ref.lib) (StructureFile (submission "job-1")) = Ok cif
    /\ AtomSites (DataBlock cif) = []
    /\ Name (DataBlock cif) = "test".
Proof.
  assert (Hrun : exists resp,
            response (RunOptimization (H := Ref.lib) (quietDay "2026-01-01" "job-1")
                        (NewDFTBRunner oneSlot) cleanDisk (submission "job-1"))
            = Ok resp /\ Status resp = "success").
  { eexists. split; [vm_compute; reflexivity | reflexivity]. }
  destruct Hrun as (resp & Hresp & Hstatus).
  destruct (@successful_run_has_no_atom Ref.lib (quietDay "2026-01-01" "job-1")
              (NewDFTBRunner oneSlot) cleanDisk (submission "job-1") resp Hresp Hstatus)
    as (cif & input & Hparse & Hnone & _).
  exists cif. split; [exact Hparse|]. split; [exact Hnone|].
  assert (Hcif : ParseFromBase64 (H := Ref.lib) (StructureFile (submission "job-1"))
                 = Ok (cubicCell "test" 10 [])) by (vm_compute; reflexivity).
  rewrite Hparse in Hcif. injection Hcif as ->. reflexivity.
Defined.

(** A submission with an unknown method. *)
Lemma unknown_method_is_the_parameter_refused :
  accept (NewAPIHandler oneSlot) unknownMethod "generated"
  = BadRequest "Invalid request parameters" "invalid method: PM6"
  /\ Method unknownMethod <> "GFN1-xTB" /\ Method unknownMethod <> "GFN2-xTB".
Proof.
  split; [vm_compute; reflexivity|].
  apply (accept_rejects_parameters_only_for_method (NewAPIHandler oneSlot)
           unknownMethod "generated" "invalid method: PM6").
  vm_compute. reflexivity.
Defined.

(** The state of a job nobody submitted. *)
Lemma unknown_job_is_answered_200 :
  exists status,
    getStatus (H := Ref.lib) stuckEngine (NewAPIHandler oneSlot) cleanDisk "job-9"
    = (Some 200, status)
    /\ status ∈ ["not_found"; "running"; "error"; "completed"].
Proof.
  apply (@getStatus_always_answers_200 Ref.lib). discriminate.
Defined.

(** The configuration with one slot, validated and then used. *)
Lemma validated_one_slot_configuration_supervises :
  validateConfig (quietDay "2026-01-01" "job-1") cleanDisk oneSlot = Ok tt
  /\ outcome (runDFTBCalculation (H := Ref.lib) (quietDay "2026-01-01" "job-1")
                (NewDFTBRunner oneSlot) cleanDisk "work/job-1" "job-1")
     = Ok "work/job-1/dftb_out.hsd".
Proof.
  split; [vm_compute; reflexivity|].
  apply (@validated_config_supervises Ref.lib (quietDay "2026-01-01" "job-1")
           cleanDisk oneSlot "work/job-1" "job-1" 1000000000%N).
  - vm_compute. reflexivity.
  - cbn. lia.
  - reflexivity.
  - vm_compute. reflexivity.
  - vm_compute. reflexivity.
Defined.


(** A call of the tool with an unknown method and a negative threshold is
    run by the service, with the defaults. *)
Lemma careless_call_is_run_with_defaults :
  Tool.execute carelessParams "0b5c7a7e-6c1f-4d0e-9a43-1f0e8a1d2c3b"
  = inr (Tool.requestBody "0b5c7a7e-6c1f-4d0e-9a43-1f0e8a1d2c3b"
           (Ref.Base64Encode twoCarbonText) "GFN1-xTB" 0.1 None)
  /\ (accept (NewAPIHandler oneSlot)
        (Tool.requestBody "0b5c7a7e-6c1f-4d0e-9a43-1f0e8a1d2c3b"
           (Ref.Base64Encode twoCarbonText) "GFN1-xTB" 0.1 None) "generated"
      = Runs (Tool.requestBody "0b5c7a7e-6c1f-4d0e-9a43-1f0e8a1d2c3b"
                (Ref.Base64Encode twoCarbonText) "GFN1-xTB" 0.1 None)
      \/ exists tag,
           tag ∈ ["required"; "min"]
           /\ accept (NewAPIHandler oneSlot)
                (Tool.requestBody "0b5c7a7e-6c1f-4d0e-9a43-1f0e8a1d2c3b"
                   (Ref.Base64Encode twoCarbonText) "GFN1-xTB" 0.1 None) "generated"
              = BadRequest "Invalid request format" (fieldError "Fmax" tag)).
Proof.
  split; [vm_compute; reflexivity|].
  apply (tool_request_is_refused_only_for_fmax (NewAPIHandler oneSlot)
           carelessParams "0b5c7a7e-6c1f-4d0e-9a43-1f0e8a1d2c3b");
    [discriminate | vm_compute; reflexivity].
Defined.
